(** * GBRFL maintenance scripts: a shallow embedding and its properties

    The repository is a collection of Python scripts around a MySQL
    database and a few CSV files.  Each script is embedded as Rocq
    functions over explicit data: CSV rows are records of strings, database
    tables are lists of row records, Python dictionaries are [gmap]s (or
    association lists where insertion order is observable), and the
    exceptions a script can raise are an explicit [Raise] result. *)

From Stdlib Require Import ZArith Lia Bool.
From Stdlib Require Import Strings.String Strings.Ascii.
From Stdlib Require Import Numbers.DecimalString Numbers.DecimalZ Numbers.DecimalFacts.
From stdpp Require Import base option list gmap strings fin_maps.

#[local] Open Scope Z_scope.
#[local] Open Scope string_scope.

(* ====================================================================== *)
(** * Python primitives used by the scripts *)
(* ====================================================================== *)

Module Py.

(** Result of an expression that may raise. *)
Inductive result (A : Type) : Type :=
  | Ok (a : A)
  | Raise.
Arguments Ok {A} a.
Arguments Raise {A}.

Definition bind {A B} (r : result A) (k : A -> result B) : result B :=
  match r with
  | Ok a => k a
  | Raise => Raise
  end.

Notation "x <- r ;; k" := (bind r (fun x => k))
  (at level 100, r at next level, right associativity).

(** ** Characters *)

Definition is_digit (c : ascii) : bool :=
  let n := nat_of_ascii c in (48 <=? n)%nat && (n <=? 57)%nat.

(** [str.isspace] on the ASCII range: TAB..CR, FS..US and the blank. *)
Definition is_space (c : ascii) : bool :=
  let n := nat_of_ascii c in
  ((9 <=? n)%nat && (n <=? 13)%nat) || ((28 <=? n)%nat && (n <=? 32)%nat).

(** [str.lower] on the ASCII range. *)
Definition lower_char (c : ascii) : ascii :=
  let n := nat_of_ascii c in
  if (65 <=? n)%nat && (n <=? 90)%nat then ascii_of_nat (n + 32) else c.

Fixpoint lower (s : string) : string :=
  match s with
  | EmptyString => EmptyString
  | String c s' => String (lower_char c) (lower s')
  end.

(** [str.upper] on the ASCII range. *)
Definition upper_char (c : ascii) : ascii :=
  let n := nat_of_ascii c in
  if (97 <=? n)%nat && (n <=? 122)%nat then ascii_of_nat (n - 32) else c.

Fixpoint upper (s : string) : string :=
  match s with
  | EmptyString => EmptyString
  | String c s' => String (upper_char c) (upper s')
  end.

(** ** Strings *)

(** [s.startswith(p)], returning the rest of [s] after [p]. *)
Fixpoint strip_prefix (p s : string) : option string :=
  match p with
  | EmptyString => Some s
  | String a p' =>
      match s with
      | EmptyString => None
      | String b s' => if Ascii.eqb a b then strip_prefix p' s' else None
      end
  end.

Definition startswith (s p : string) : bool :=
  match strip_prefix p s with Some _ => true | None => false end.

(** [needle in hay] for two [str] values. *)
Fixpoint contains (needle hay : string) : bool :=
  startswith hay needle ||
  match hay with
  | EmptyString => false
  | String _ hay' => contains needle hay'
  end.

Fixpoint lstrip (s : string) : string :=
  match s with
  | EmptyString => EmptyString
  | String c s' => if is_space c then lstrip s' else s
  end.

Fixpoint rstrip (s : string) : string :=
  match s with
  | EmptyString => EmptyString
  | String c s' =>
      match rstrip s' with
      | EmptyString => if is_space c then EmptyString else String c EmptyString
      | r => String c r
      end
  end.

(** [s.strip()] *)
Definition strip (s : string) : string := rstrip (lstrip s).

(** [s.replace(a, b)] for a one-character [a]. *)
Fixpoint replace_char (a : ascii) (b : string) (s : string) : string :=
  match s with
  | EmptyString => EmptyString
  | String c s' =>
      (if Ascii.eqb c a then b else String c EmptyString) +:+ replace_char a b s'
  end.

(** Truthiness of a [str]. *)
Definition truthy (s : string) : bool :=
  match s with EmptyString => false | _ => true end.

(** ** Integers and their decimal text *)

(** [str(n)] and the [{n}] of an f-string, for an [int]. *)
Definition str (n : Z) : string := NilEmpty.string_of_int (Z.to_int n).

(** The longest prefix of decimal digits: what a greedy [\d+] consumes. *)
Fixpoint take_digits (s : string) : string :=
  match s with
  | EmptyString => EmptyString
  | String c s' => if is_digit c then String c (take_digits s') else EmptyString
  end.

Fixpoint all_digits (s : string) : bool :=
  match s with
  | EmptyString => true
  | String c s' => is_digit c && all_digits s'
  end.

(** [int(s)] on a non-empty string of decimal digits. *)
Definition digits_value (s : string) : Z :=
  match NilEmpty.uint_of_string s with
  | Some d => Z.of_uint d
  | None => 0
  end.

(** Underscores in an [int] literal: single, and only between digits. *)
Fixpoint drop_underscores (prev_digit : bool) (s : string) : option string :=
  match s with
  | EmptyString => if prev_digit then Some EmptyString else None
  | String c s' =>
      if is_digit c then option_map (String c) (drop_underscores true s')
      else if Ascii.eqb c "_" then
        if prev_digit then drop_underscores false s' else None
      else None
  end.

Definition int_unsigned (s : string) : result Z :=
  match s with
  | EmptyString => Raise
  | String c _ =>
      if is_digit c then
        match drop_underscores false s with
        | Some ds => Ok (digits_value ds)
        | None => Raise
        end
      else Raise
  end.

(** [int(s)] for a [str]: surrounding white space, an optional sign,
    decimal digits; [ValueError] otherwise. *)
Definition int (s : string) : result Z :=
  match strip s with
  | String "+" r => int_unsigned r
  | String "-" r => v <- int_unsigned r ;; Ok (- v)
  | r => int_unsigned r
  end.

(** ** Cells of a pandas row and of a database row

    A cell is a value or one of the two missing markers the data frames
    carry: [None] and the float [nan]. *)

Inductive cell (A : Type) : Type :=
  | NoneVal
  | NaN
  | Val (a : A).
Arguments NoneVal {A}.
Arguments NaN {A}.
Arguments Val {A} a.

(** [pd.isna(x)] and [pd.notna(x)] on a scalar. *)
Definition isna {A} (c : cell A) : bool :=
  match c with Val _ => false | _ => true end.
Definition notna {A} (c : cell A) : bool := negb (isna c).

(** [x == y]: [nan] is equal to nothing, itself included. *)
Definition cell_eqb {A} (eqb : A -> A -> bool) (x y : cell A) : bool :=
  match x, y with
  | Val a, Val b => eqb a b
  | NoneVal, NoneVal => true
  | _, _ => false
  end.

(** Truthiness: [None] and the empty string are false, [nan] is true. *)
Definition cell_truthy (c : cell string) : bool :=
  match c with
  | NoneVal => false
  | NaN => true
  | Val s => truthy s
  end.

(** [x or y] *)
Definition cell_or (x y : cell string) : cell string :=
  if cell_truthy x then x else y.

(** [str(x)] *)
Definition cell_str (c : cell string) : string :=
  match c with
  | NoneVal => "None"
  | NaN => "nan"
  | Val s => s
  end.

(** [int(x)] on a numeric cell: [int(None)] is a [TypeError], [int(nan)]
    a [ValueError]. *)
Definition cell_int (c : cell Z) : result Z :=
  match c with
  | Val z => Ok z
  | _ => Raise
  end.

(** A constant [dict] with [str] keys, in insertion order. *)
Fixpoint dict_get {V} (d : list (string * V)) (k : string) : option V :=
  match d with
  | [] => None
  | (k', v) :: d' => if String.eqb k' k then Some v else dict_get d' k
  end.

(** [s.rfind(c)] for a one-character [c]: the index of the last
    occurrence, -1 when there is none. *)
Fixpoint rfind_char (c : ascii) (s : string) : Z :=
  match s with
  | EmptyString => -1
  | String a s' =>
      let r := rfind_char c s' in
      if (0 <=? r)%Z then r + 1
      else if Ascii.eqb a c then 0 else -1
  end.

(** [s[a:b]]: a negative index counts from the end, and both are clamped
    to the string. *)
Definition slice (s : string) (a b : Z) : string :=
  let len := Z.of_nat (String.length s) in
  let clamp i := if (i <? 0)%Z then Z.max 0 (len + i) else Z.min i len in
  String.substring (Z.to_nat (clamp a)) (Z.to_nat (clamp b - clamp a)) s.

(** A value an f-string or [csv.writer] shows: [None] for a NULL column
    in the first, the empty text in the second. *)
Definition fmt_null (o : option string) : string :=
  match o with Some s => s | None => "None" end.

End Py.

Import Py.

(* ====================================================================== *)
(** * scripts/import_player_stats.py *)
(* ====================================================================== *)

Module ImportPlayerStats.

(** The columns of a play-by-play row that the attribution reads.
    [fumble_lost] is the 0/1 indicator column. *)
Record play : Type := {
  desc : cell string;
  fumble_lost : cell Z;
  fumble_recovery_1_team : cell string;
  fumble_recovery_2_team : cell string;
  fumble_recovery_1_player_id : cell string;
  fumbled_1_player_id : cell string;
  fumbled_2_player_id : cell string
}.

Definition same (x y : cell string) : bool := cell_eqb String.eqb x y.

Definition zero_if (b : bool) : Z := if b then 0 else 1.

Definition calculate_fumble_lost_attribution
    (p : play) (player_id team : cell string) (fumbler_number : Z) : result Z :=
  let desc := lower (cell_str (desc p)) in
  if (fumbler_number =? 1)%Z then
    (* If no recovery info, use play-level fumble_lost *)
    if isna (fumble_recovery_1_team p) then cell_int (fumble_lost p)
    (* Complex lateral play detection *)
    else if contains "lateral" desc
            && notna (fumbled_2_player_id p)
            && same (fumble_recovery_1_team p) team
            && same (fumble_recovery_2_team p) team
            && cell_eqb Z.eqb (fumble_lost p) (Val 1)
    then cell_int (fumble_lost p)
    (* Same-player double fumble detection *)
    else if ((contains "fumbles" desc && contains "recovers" desc
                && contains "fumbles" desc)
             || (contains "fumbles (aborted)" desc && contains "recovers" desc
                   && contains "fumbles" desc))
            && isna (fumbled_2_player_id p)
    then
      let final_recovery_team :=
        cell_or (fumble_recovery_2_team p) (fumble_recovery_1_team p) in
      Ok (zero_if (same final_recovery_team team))
    (* Multi-player fumble individual attribution *)
    else if notna (fumbled_2_player_id p)
    then Ok (zero_if (same (fumble_recovery_1_team p) team))
    (* Single player with second recovery *)
    else if notna (fumble_recovery_2_team p)
    then Ok (zero_if (same (fumble_recovery_2_team p) team))
    (* Standard case - use first recovery *)
    else Ok (zero_if (same (fumble_recovery_1_team p) team))
  else
    (* Complex lateral play detection *)
    if contains "lateral" desc
       && same (fumble_recovery_1_team p) team
       && same (fumble_recovery_2_team p) team
       && cell_eqb Z.eqb (fumble_lost p) (Val 1)
    then cell_int (fumble_lost p)
    (* Special touchback case for recoverer who fumbles *)
    else if isna (fumble_recovery_2_team p)
            && same player_id (fumble_recovery_1_player_id p)
            && negb (same (fumbled_1_player_id p) (fumbled_2_player_id p))
    then Ok (if contains "touchback" desc then 1 else 0)
    (* If no second recovery, use play-level fumble_lost *)
    else if isna (fumble_recovery_2_team p) then cell_int (fumble_lost p)
    (* Use second recovery for attribution *)
    else Ok (zero_if (same (fumble_recovery_2_team p) team)).

End ImportPlayerStats.

(* ====================================================================== *)
(** * scripts/export_lineup_submissions.py *)
(* ====================================================================== *)

Module ExportLineupSubmissions.

Definition position_map : list (string * string) :=
  [ ("quarterback", "QB"); ("running_back", "RB"); ("receiver", "RC");
    ("place_kicker", "PK"); ("defense", "DEF") ].

(** [f"{position_map.get(position_type, position_type.upper())}{sort_order}"] *)
Definition format_position_label (position_type : string) (sort_order : Z) : string :=
  match dict_get position_map position_type with
  | Some code => code
  | None => upper position_type
  end +:+ str sort_order.

(** A row of [get_locked_lineups], with the columns the export writes. *)
Record locked_lineup : Type := {
  week_number : Z;
  game_type : string;
  fantasy_team_id : Z;
  team_name : string;
  owner_name : option string;
  username : string;
  lineup_head_coach : option string;
  team_head_coach : option string
}.

(** A row of [get_lineup_positions]; the joined columns are NULL when the
    player or the team is not found. *)
Record position_row : Type := {
  position_type : string;
  sort_order : Z;
  player_name : option string;
  pos_team_code : option string;
  pos_team_name : option string;
  espn_id : option string
}.

Definition header : list string :=
  [ "Week"; "Game Type"; "Team ID"; "Fantasy Team Name";
    "Owner Name"; "Username"; "Position"; "Player"; "ESPN ID" ].

(** [x if x else y] on two nullable texts. *)
Definition or_else (x y : option string) : option string :=
  match x with
  | Some s => if truthy s then x else y
  | None => y
  end.

(** The text [csv.writer] puts in a cell. *)
Definition cell_text (o : option string) : string :=
  match o with Some s => s | None => "" end.

(** The row written for one position of a lineup. *)
Definition player_row (base_row : list string) (p : position_row) : list string :=
  let position_label := format_position_label (position_type p) (sort_order p) in
  let '(player_str, espn_id) :=
    if String.eqb (position_type p) "defense" then
      (fmt_null (pos_team_name p) +:+ " (" +:+ fmt_null (pos_team_code p) +:+ ")", "")
    else
      (fmt_null (player_name p) +:+ " (" +:+ fmt_null (pos_team_code p) +:+ ")",
       match espn_id p with
       | Some e => if truthy e then e else ""
       | None => ""
       end) in
  (base_row ++ [position_label; player_str; espn_id])%list.

(** The rows written for one lineup with its positions. *)
Definition lineup_rows (lineup : locked_lineup) (positions : list position_row)
    : list (list string) :=
  let base_row :=
    [ str (week_number lineup); game_type lineup; str (fantasy_team_id lineup);
      team_name lineup; cell_text (owner_name lineup); username lineup ] in
  let head_coach := or_else (lineup_head_coach lineup) (team_head_coach lineup) in
  (match head_coach with
   | Some coach =>
       if truthy coach then [(base_row ++ ["HeadCoach"; coach; ""])%list] else []
   | None => []
   end
   ++ map (player_row base_row) positions)%list.

(** [csv_data] of [export_lineups_structured], from the locked lineups
    and the positions fetched for each; [None] when no lineup is locked. *)
Definition export_lineups_structured
    (lineups : list (locked_lineup * list position_row)) : option (list (list string)) :=
  match lineups with
  | [] => None
  | _ => Some (header :: flat_map (fun lp => lineup_rows (fst lp) (snd lp)) lineups)
  end.

End ExportLineupSubmissions.

(* ====================================================================== *)
(** * The database

    Tables are lists of rows in storage order.  A column compared with a
    bound value ([col = %s]) selects the rows where the two are equal; a
    [NULL] column is equal to nothing.  Only the columns the scripts name
    are kept. *)
(* ====================================================================== *)

Module Db.

Record nfl_player : Type := {
  np_player_id : Z;
  np_espn_id : option string;
  np_display_name : string;
  np_position : string
}.

Record lineup_submission : Type := {
  ls_lineup_id : Z;
  ls_fantasy_team_id : Z;
  ls_week_number : Z;
  ls_game_type : string;
  ls_season_year : Z
}.

Record lineup_position : Type := {
  lp_position_id : Z;
  lp_lineup_id : Z;
  lp_position_type : string;
  lp_player_id : option Z;
  lp_nfl_team_id : option Z;
  lp_sort_order : Z
}.

Record historical_keeper : Type := {
  hk_season_year : Z;
  hk_fantasy_team_id : Z;
  hk_player_id : Z;
  hk_espn_id : option Z;
  hk_designation_date : string
}.

Record schedule_row : Type := {
  ws_week_number : Z;
  ws_season_year : Z;
  ws_game_type : string
}.

Record fantasy_team : Type := {
  ft_team_id : Z;
  ft_team_name : string
}.

Record database : Type := {
  nfl_players : list nfl_player;
  lineup_submissions : list lineup_submission;
  lineup_positions : list lineup_position;
  historical_keepers : list historical_keeper;
  weekly_schedule : list schedule_row;
  fantasy_teams : list fantasy_team
}.

(** A value bound to a [%s] placeholder. *)
Inductive param : Type :=
  | PInt (z : Z)
  | PStr (s : string)
  | PNull.

(** What [cursor.execute(text, params)] sends; a statement written to a
    [.sql] file has its text only. *)
Record statement : Type := {
  text : string;
  params : list param
}.

(** A connection with autocommit off: statements act on [pending], and
    [commit()] makes it the stored database.  [executed] lists what the
    cursor was given, oldest first. *)
Record conn : Type := {
  committed : database;
  pending : database;
  executed : list statement
}.

Definition connect (db : database) : conn :=
  {| committed := db; pending := db; executed := [] |}.

(** Code that uses a connection and may raise. *)
Definition M (A : Type) : Type := conn -> result A * conn.

Definition ret {A} (a : A) : M A := fun c => (Ok a, c).

Definition mbind {A B} (m : M A) (k : A -> M B) : M B :=
  fun c =>
    match m c with
    | (Ok a, c') => k a c'
    | (Raise, c') => (Raise, c')
    end.

(** An expression that may raise, inside connection code. *)
Definition lift {A} (r : result A) : M A := fun c => (r, c).

(** [cursor.execute] of a data-changing statement with its effect. *)
Definition execute (s : statement) (effect : database -> database) : M unit :=
  fun c => (Ok tt, {| committed := committed c;
                      pending := effect (pending c);
                      executed := (executed c ++ [s])%list |}).

(** [cursor.execute] of a [SELECT], giving the rows to fetch. *)
Definition query {R} (s : statement) (rows : database -> list R) : M (list R) :=
  fun c => (Ok (rows (pending c)),
            {| committed := committed c;
               pending := pending c;
               executed := (executed c ++ [s])%list |}).

(** [conn.commit()] *)
Definition commit : M unit :=
  fun c => (Ok tt, {| committed := pending c;
                      pending := pending c;
                      executed := executed c |}).

(** The next [AUTO_INCREMENT] value of a key column. *)
Definition next_id (ids : list Z) : Z := 1 + fold_right Z.max 0 ids.

End Db.

Notation "x <-- m ;;; k" := (Db.mbind m (fun x => k))
  (at level 100, m at next level, right associativity).
Notation "m ;;; k" := (Db.mbind m (fun _ => k))
  (at level 100, right associativity).

(* ====================================================================== *)
(** * CSV files

    [csv.DictReader] yields one [dict] of strings per line; the rows below
    are those dicts for well-formed lines (every column present). *)
(* ====================================================================== *)

Module Csv.

(** A line of a lineup export ([lineup_submissions_week*.csv], [lineups.csv]). *)
Record lineup_row : Type := {
  Week : string;
  Game_Type : string;
  Team_ID : string;
  Fantasy_Team_Name : string;
  Position : string;
  Player : string;
  ESPN_ID : string;
  player_id_col : string
}.

(** A line of [keepers.csv]. *)
Record keeper_row : Type := {
  k_Team_ID : string;
  k_player_id : string;
  k_ESPN_ID : string
}.

(** [csv.DictReader] on rows written by [csv.writer]: the first row names
    the columns, every further row is a dict by those names.  A column the
    file does not have reads as the empty text, as [row.get(name, '')]
    does. *)
Definition column (header fields : list string) (name : string) : string :=
  default "" (dict_get (combine header fields) name).

Definition dict_row (header fields : list string) : lineup_row :=
  {| Week := column header fields "Week";
     Game_Type := column header fields "Game Type";
     Team_ID := column header fields "Team ID";
     Fantasy_Team_Name := column header fields "Fantasy Team Name";
     Position := column header fields "Position";
     Player := column header fields "Player";
     ESPN_ID := column header fields "ESPN ID";
     player_id_col := column header fields "player_id" |}.

Definition dict_reader (csv_data : list (list string)) : list lineup_row :=
  match csv_data with
  | [] => []
  | header :: rows => map (dict_row header) rows
  end.

End Csv.

(* ====================================================================== *)
(** * generate_restoration_sql.py *)
(* ====================================================================== *)

Module GenerateRestorationSql.
Import Csv.

(** The two regular-expression shapes of [position_mapping]. *)
Inductive pattern : Type :=
  | Numbered (prefix : string)   (* prefix(\d+) *)
  | Exact (word : string).       (* ^word$ *)

(** [re.match(pattern, s)]: the groups of the match at the start of [s]. *)
Definition re_match (pat : pattern) (s : string) : option (list string) :=
  match pat with
  | Numbered prefix =>
      match strip_prefix prefix s with
      | Some rest =>
          match take_digits rest with
          | EmptyString => None
          | ds => Some [ds]
          end
      | None => None
      end
  | Exact word => if String.eqb word s then Some [] else None
  end.

(** [lambda m: int(m.group(1))] *)
Definition sort_func (groups : list string) : Z :=
  digits_value (nth 0 groups EmptyString).

(** [position_mapping]: key, database type, pattern, and whether the entry
    has a sort function ([None] for the simple forms). *)
Definition position_mapping : list (string * (string * pattern * bool)) :=
  [ ("QB", ("quarterback", Numbered "QB", true));
    ("RB", ("running_back", Numbered "RB", true));
    ("RC", ("receiver", Numbered "RC", true));
    ("PK", ("place_kicker", Numbered "PK", true));
    ("DEF", ("defense", Numbered "DEF", true));
    ("QB_SIMPLE", ("quarterback", Exact "QB", false));
    ("RB_SIMPLE", ("running_back", Exact "RB", false));
    ("RC_SIMPLE", ("receiver", Exact "RC", false));
    ("PK_SIMPLE", ("place_kicker", Exact "PK", false));
    ("DEF_SIMPLE", ("defense", Exact "DEF", false)) ].

Definition simple_mapping : list (string * string) :=
  [ ("QB", "quarterback"); ("RB", "running_back"); ("RC", "receiver");
    ("PK", "place_kicker"); ("DEF", "defense") ].

(** The loop "try numbered format first". *)
Fixpoint try_numbered (items : list (string * (string * pattern * bool)))
    (position_label : string) : option (string * Z) :=
  match items with
  | [] => None
  | (pos_type, (db_type, pat, has_sort_func)) :: items' =>
      if negb (contains "SIMPLE" pos_type) then
        match re_match pat position_label with
        | Some groups =>
            if has_sort_func then Some (db_type, sort_func groups)
            else try_numbered items' position_label
        | None => try_numbered items' position_label
        end
      else try_numbered items' position_label
  end.

Definition parse_position_info (position_label : string) : string * Z :=
  match try_numbered position_mapping position_label with
  | Some r => r
  | None =>
      match dict_get simple_mapping position_label with
      | Some db_type => (db_type, 1)
      | None => ("other", 1)
      end
  end.

(** An entry of the list [load_csv_with_sort_order] returns. *)
Record lineup : Type := {
  week : Z;
  game_type : string;
  team_id : Z;
  team_name : string;
  position_label : string;
  player_name : string;
  espn_id : string;
  position_type : string;
  sort_order : Z
}.

Definition simple_labels : list string := ["QB"; "RB"; "RC"; "PK"; "DEF"].

(** [position_label in ['QB', 'RB', 'RC', 'PK', 'DEF']] *)
Definition is_simple (position_label : string) : bool :=
  existsb (String.eqb position_label) simple_labels.

(** [f"{team_id}_{week}_{position_type}"] *)
Definition counter_key (team_id week : Z) (position_type : string) : string :=
  str team_id +:+ "_" +:+ str week +:+ "_" +:+ position_type.

(** One iteration of the loop over the reader: the list built so far and
    the counters, updated for [row]. *)
Definition load_row (row : lineup_row) (st : list lineup * gmap string Z)
    : result (list lineup * gmap string Z) :=
  let '(lineups, position_counters) := st in
  if String.eqb (Position row) "HeadCoach" then Ok st
  else
    team_id <- Py.int (Team_ID row) ;;
    week <- Py.int (Week row) ;;
    let position_label := Position row in
    let '(position_type, sort_order) := parse_position_info position_label in
    let '(position_counters, sort_order) :=
      if is_simple position_label then
        let key := counter_key team_id week position_type in
        let n := default 0 (position_counters !! key) + 1 in
        (<[key := n]> position_counters, n)
      else (position_counters, sort_order) in
    Ok ((lineups ++ [ {| week := week;
                        game_type := Game_Type row;
                        team_id := team_id;
                        team_name := Fantasy_Team_Name row;
                        position_label := position_label;
                        player_name := Player row;
                        espn_id := if truthy (ESPN_ID row)
                                   then strip (ESPN_ID row) else "";
                        position_type := position_type;
                        sort_order := sort_order |} ])%list,
        position_counters).

Fixpoint load_rows (rows : list lineup_row) (st : list lineup * gmap string Z)
    : result (list lineup * gmap string Z) :=
  match rows with
  | [] => Ok st
  | row :: rows' => st' <- load_row row st ;; load_rows rows' st'
  end.

(** [load_csv_with_sort_order(filename)], on the rows of the file. *)
Definition load_csv_with_sort_order (rows : list lineup_row) : result (list lineup) :=
  st <- load_rows rows ([], ∅) ;; Ok (fst st).

(** [",\n".join(values)] *)
Fixpoint join (sep : string) (l : list string) : string :=
  match l with
  | [] => ""
  | [x] => x
  | x :: l' => x +:+ sep +:+ join sep l'
  end.

Definition newline : string := String (ascii_of_nat 10) EmptyString.

(** The tuple written for one entry, with single quotes in the two names
    backslash-escaped. *)
Definition values_row (l : lineup) : string :=
  let player_name := replace_char "'" "\'" (player_name l) in
  let team_name := replace_char "'" "\'" (team_name l) in
  "(" +:+ str (week l) +:+ ", '" +:+ game_type l +:+ "', " +:+ str (team_id l)
  +:+ ", '" +:+ team_name +:+ "', '" +:+ position_label l +:+ "', '"
  +:+ player_name +:+ "', '" +:+ espn_id l +:+ "', '" +:+ position_type l
  +:+ "', " +:+ str (sort_order l) +:+ ")".

(** The [INSERT] statement of the generated file. *)
Definition insert_statement (all_lineups : list lineup) : Db.statement :=
  {| Db.text := "INSERT INTO temp_csv_lineups VALUES" +:+ newline
                +:+ join ("," +:+ newline) (map values_row all_lineups) +:+ ";";
     Db.params := [] |}.

End GenerateRestorationSql.

(* ====================================================================== *)
(** * restore_lineups.py *)
(* ====================================================================== *)

Module RestoreLineups.
Import Csv Db.

(** An entry of the list [load_csv_lineups] returns. *)
Record csv_lineup : Type := {
  week : Z;
  game_type : string;
  team_id : Z;
  team_name : string;
  position : string;
  player_name : string;
  espn_id : option string
}.

Fixpoint load_csv_lineups (rows : list lineup_row) : result (list csv_lineup) :=
  match rows with
  | [] => Ok []
  | row :: rows' =>
      if String.eqb (Position row) "HeadCoach" then load_csv_lineups rows'
      else
        week <- Py.int (Week row) ;;
        team_id <- Py.int (Team_ID row) ;;
        rest <- load_csv_lineups rows' ;;
        Ok ({| week := week;
               game_type := Game_Type row;
               team_id := team_id;
               team_name := Fantasy_Team_Name row;
               position := Position row;
               player_name := Player row;
               espn_id := if truthy (ESPN_ID row)
                          then Some (strip (ESPN_ID row)) else None |} :: rest)
  end.

(** An entry of the restoration list. *)
Record missing_player : Type := {
  m_lineup_id : Z;
  m_player_id : Z;
  m_player_name : string;
  m_team_id : Z;
  m_team_name : string;
  m_week : Z;
  m_position : string;
  m_espn_id : string
}.

(** [SELECT player_id, display_name FROM nfl_players WHERE espn_id = %s] *)
Definition select_player (db : database) (espn_id : string) : list nfl_player :=
  List.filter (fun p => bool_decide (np_espn_id p = Some espn_id)) (nfl_players db).

Definition submission_matches (team_id week : Z) (game_type : string)
    (season_year : Z) (s : lineup_submission) : bool :=
  (ls_fantasy_team_id s =? team_id)%Z && (ls_week_number s =? week)%Z
  && String.eqb (ls_game_type s) game_type && (ls_season_year s =? season_year)%Z.

(** The first row in [ORDER BY lineup_id]. *)
Fixpoint lowest_lineup_id (rows : list lineup_submission) : option lineup_submission :=
  match rows with
  | [] => None
  | s :: rows' =>
      match lowest_lineup_id rows' with
      | Some s' => if (ls_lineup_id s' <? ls_lineup_id s)%Z then Some s' else Some s
      | None => Some s
      end
  end.

(** [SELECT lineup_id FROM lineup_submissions WHERE fantasy_team_id = %s
    AND week_number = %s AND game_type = %s AND season_year = 2025
    ORDER BY lineup_id LIMIT 1] *)
Definition select_submission (db : database) (team_id week : Z) (game_type : string)
    : list lineup_submission :=
  match lowest_lineup_id
          (List.filter (submission_matches team_id week game_type 2025)
                       (lineup_submissions db)) with
  | Some s => [s]
  | None => []
  end.

(** [SELECT position_id FROM lineup_positions WHERE lineup_id = %s
    AND player_id = %s] *)
Definition select_position (db : database) (lineup_id player_id : Z)
    : list lineup_position :=
  List.filter (fun r => (lp_lineup_id r =? lineup_id)%Z
                        && bool_decide (lp_player_id r = Some player_id))
              (lineup_positions db).

(** [cursor.fetchone()] *)
Definition fetchone {R} (rows : list R) : option R := head rows.

(** The body of the loop for one entry: the record to append, if any. *)
Definition check_lineup (db : database) (lineup : csv_lineup) : option missing_player :=
  match espn_id lineup with
  | None => None
  | Some espn =>
      if negb (truthy espn) then None
      else
        match fetchone (select_player db espn) with
        | None => None
        | Some player =>
            match fetchone (select_submission db (team_id lineup) (week lineup)
                                              (game_type lineup)) with
            | None => None
            | Some lineup_sub =>
                match fetchone (select_position db (ls_lineup_id lineup_sub)
                                                (np_player_id player)) with
                | Some existing => None
                | None =>
                    Some {| m_lineup_id := ls_lineup_id lineup_sub;
                            m_player_id := np_player_id player;
                            m_player_name := np_display_name player;
                            m_team_id := team_id lineup;
                            m_team_name := team_name lineup;
                            m_week := week lineup;
                            m_position := position lineup;
                            m_espn_id := espn |}
                end
            end
        end
  end.

Fixpoint find_missing_loop (db : database) (csv_lineups : list csv_lineup)
    (missing_players : list missing_player) : list missing_player :=
  match csv_lineups with
  | [] => missing_players
  | lineup :: rest =>
      find_missing_loop db rest
        match check_lineup db lineup with
        | Some m => (missing_players ++ [m])%list
        | None => missing_players
        end
  end.

Definition find_missing_players (db : database) (csv_lineups : list csv_lineup)
    : list missing_player :=
  find_missing_loop db csv_lineups [].

(** [position_mapping] of [generate_restoration_sql]: label to position
    type and sort order. *)
Definition position_mapping : list (string * (string * Z)) :=
  [ ("QB1", ("quarterback", 1)); ("QB2", ("quarterback", 2)); ("QB3", ("quarterback", 3));
    ("QB4", ("quarterback", 4)); ("QB5", ("quarterback", 5));
    ("QB", ("quarterback", 1));
    ("RB1", ("running_back", 1)); ("RB2", ("running_back", 2)); ("RB3", ("running_back", 3));
    ("RB4", ("running_back", 4)); ("RB5", ("running_back", 5)); ("RB6", ("running_back", 6));
    ("RB", ("running_back", 1));
    ("RC1", ("receiver", 1)); ("RC2", ("receiver", 2)); ("RC3", ("receiver", 3));
    ("RC4", ("receiver", 4)); ("RC5", ("receiver", 5)); ("RC6", ("receiver", 6));
    ("RC7", ("receiver", 7));
    ("RC", ("receiver", 1));
    ("PK1", ("place_kicker", 1)); ("PK", ("place_kicker", 1));
    ("DEF1", ("defense", 1)); ("DEF2", ("defense", 2)); ("DEF", ("defense", 1)) ].

(** [position_mapping.get(position, ('other', 1))] *)
Definition position_of (position : string) : string * Z :=
  default ("other", 1) (dict_get position_mapping position).

(** The block [generate_restoration_sql] writes for one missing player. *)
Definition restore_statement (player : missing_player) : statement :=
  let '(position_type, sort_order) := position_of (m_position player) in
  {| text := "-- Restore " +:+ m_player_name player +:+ " for " +:+ m_team_name player
             +:+ " Week " +:+ str (m_week player) +:+ "
INSERT INTO lineup_positions (
    lineup_id, position_type, player_id, sort_order, created_at
) VALUES (
    " +:+ str (m_lineup_id player) +:+ ",
    '" +:+ position_type +:+ "',
    " +:+ str (m_player_id player) +:+ ",
    " +:+ str sort_order +:+ ",
    '2025-09-04 16:07:27'  -- Use original timestamp
);

";
     params := [] |}.

(** What that [INSERT] does when the file is run: one more
    [lineup_positions] row, with no NFL team. *)
Definition restore_effect (player : missing_player) (db : database) : database :=
  let '(position_type, sort_order) := position_of (m_position player) in
  {| nfl_players := nfl_players db;
     lineup_submissions := lineup_submissions db;
     lineup_positions :=
       (lineup_positions db
        ++ [ {| lp_position_id := next_id (map lp_position_id (lineup_positions db));
                lp_lineup_id := m_lineup_id player;
                lp_position_type := position_type;
                lp_player_id := Some (m_player_id player);
                lp_nfl_team_id := None;
                lp_sort_order := sort_order |} ])%list;
     historical_keepers := historical_keepers db;
     weekly_schedule := weekly_schedule db;
     fantasy_teams := fantasy_teams db |}.

(** The script written for [missing_players], after the header comment
    that carries the time of the run, and the database after running it. *)
Definition generate_restoration_sql (missing_players : list missing_player)
    : list statement :=
  map restore_statement missing_players.

Definition run_restoration (missing_players : list missing_player) (db : database)
    : database :=
  fold_left (fun d player => restore_effect player d) missing_players db.

End RestoreLineups.

(* ====================================================================== *)
(** * scripts/calculate_true_keepers.py *)
(* ====================================================================== *)

Module CalculateTrueKeepers.
Import Db.

Definition KEEPER_DATE : string := "2025-08-25 14:30:48".
Definition SEASON : Z := 2025.

(** A value of [espn_mapping]. *)
Record player_info : Type := {
  player_id : Z;
  name : string;
  position : string
}.

(** [[p for p in players if p['player_id'] not in drafted_ids]] *)
Definition not_drafted (drafted_ids : gset Z) (players : list player_info)
    : list player_info :=
  List.filter (fun p => bool_decide (player_id p ∉ drafted_ids)) players.

(** The loop over [week1_by_team.items()], filling [keepers_by_team]. *)
Definition calculate_keepers (week1_by_team : gmap Z (list player_info))
    (drafted_ids : gset Z) : gmap Z (list player_info) :=
  map_fold (fun team_id players keepers_by_team =>
              <[team_id := not_drafted drafted_ids players]> keepers_by_team)
           ∅ week1_by_team.

(** An entry of [all_keepers]. *)
Record keeper : Type := {
  k_team_id : Z;
  k_player_id : Z;
  k_espn_id : option string;
  k_name : string;
  k_position : string
}.

(** The lookup [generate_sql] executes for each keeper. *)
Definition espn_query (player_id : Z) : statement :=
  {| text := "SELECT espn_id FROM nfl_players WHERE player_id = %s";
     params := [PInt player_id] |}.

Definition newline : string := String (ascii_of_nat 10) EmptyString.

(** The line written for keeper [i] of [n]. *)
Definition keeper_line (n : nat) (i : nat) (k : keeper) : string :=
  let espn_val :=
    match k_espn_id k with
    | Some e => if truthy e then e else "NULL"
    | None => "NULL"
    end in
  let comma := if (Z.of_nat i <? Z.of_nat n - 1)%Z then "," else ";" in
  "  (" +:+ str SEASON +:+ ", " +:+ str (k_team_id k) +:+ ", "
  +:+ str (k_player_id k) +:+ ", " +:+ espn_val +:+ ", '" +:+ KEEPER_DATE
  +:+ "')" +:+ comma +:+ "  -- Team " +:+ str (k_team_id k) +:+ ": "
  +:+ k_name k +:+ " (" +:+ k_position k +:+ ")" +:+ newline.

Fixpoint keeper_lines (n : nat) (i : nat) (ks : list keeper) : string :=
  match ks with
  | [] => ""
  | k :: ks' => keeper_line n i k +:+ keeper_lines n (S i) ks'
  end.

(** The [INSERT] statement [generate_sql] writes to the file. *)
Definition insert_statement (all_keepers : list keeper) : statement :=
  {| text := "INSERT INTO historical_keepers" +:+ newline
             +:+ "  (season_year, fantasy_team_id, player_id, espn_id, designation_date)"
             +:+ newline +:+ "VALUES" +:+ newline
             +:+ keeper_lines (length all_keepers) 0 all_keepers;
     params := [] |}.





End CalculateTrueKeepers.

(* ====================================================================== *)
(** * scripts/import_keepers_from_csv.py *)
(* ====================================================================== *)

Module ImportKeepersFromCsv.
Import Csv Db.

Definition KEEPER_DATE : string := "2025-08-25 14:30:48".
Definition SEASON : Z := 2025.

(** The tuples of the list [keepers] have the shape of a table row. *)
Definition keeper_params (k : historical_keeper) : list param :=
  [ PInt (hk_season_year k); PInt (hk_fantasy_team_id k); PInt (hk_player_id k);
    match hk_espn_id k with Some e => PInt e | None => PNull end;
    PStr (hk_designation_date k) ].

Definition delete_query : statement :=
  {| text := "DELETE FROM historical_keepers WHERE season_year = %s";
     params := [PInt SEASON] |}.

Definition insert_query : string := "
        INSERT INTO historical_keepers
        (season_year, fantasy_team_id, player_id, espn_id, designation_date)
        VALUES (%s, %s, %s, %s, %s)
    ".

Definition verify_query : statement :=
  {| text := "
        SELECT
            hk.fantasy_team_id,
            ft.team_name,
            COUNT(*) as keeper_count
        FROM historical_keepers hk
        JOIN fantasy_teams ft ON hk.fantasy_team_id = ft.team_id
        WHERE hk.season_year = %s
        GROUP BY hk.fantasy_team_id, ft.team_name
        ORDER BY hk.fantasy_team_id
    ";
     params := [PInt SEASON] |}.

Definition set_keepers (db : database) (rows : list historical_keeper) : database :=
  {| nfl_players := nfl_players db;
     lineup_submissions := lineup_submissions db;
     lineup_positions := lineup_positions db;
     historical_keepers := rows;
     weekly_schedule := weekly_schedule db;
     fantasy_teams := fantasy_teams db |}.

(** [DELETE FROM historical_keepers WHERE season_year = season] *)
Definition delete_season (season : Z) (db : database) : database :=
  set_keepers db
    (List.filter (fun r => negb (hk_season_year r =? season)%Z)
                 (historical_keepers db)).

(** [INSERT INTO historical_keepers (...) VALUES (...)] of one tuple. *)
Definition insert_keeper (k : historical_keeper) (db : database) : database :=
  set_keepers db (historical_keepers db ++ [k])%list.

(** The loop over the reader that fills [keepers]. *)
Fixpoint read_keepers (rows : list keeper_row) (keepers : list historical_keeper)
    : result (list historical_keeper) :=
  match rows with
  | [] => Ok keepers
  | row :: rows' =>
      team_id <- Py.int (k_Team_ID row) ;;
      player_id <- Py.int (k_player_id row) ;;
      let espn_id := strip (k_ESPN_ID row) in
      espn_id <- (if truthy espn_id
                  then e <- Py.int espn_id ;; Ok (Some e)
                  else Ok None) ;;
      read_keepers rows'
        (keepers ++ [ {| hk_season_year := SEASON;
                         hk_fantasy_team_id := team_id;
                         hk_player_id := player_id;
                         hk_espn_id := espn_id;
                         hk_designation_date := KEEPER_DATE |} ])%list
  end.

(** [cursor.executemany(insert_query, keepers)]: the statement once per
    tuple. *)
Fixpoint executemany (keepers : list historical_keeper) : M unit :=
  match keepers with
  | [] => ret tt
  | k :: keepers' =>
      execute {| text := insert_query; params := keeper_params k |}
              (insert_keeper k) ;;;
      executemany keepers'
  end.

(** The rows of the verification query: one per team and name, with the
    number of season keepers joined to it.  The order of the result rows
    only shows in the printed report. *)
Fixpoint count_group (key : Z * string) (groups : list (Z * string * Z))
    : list (Z * string * Z) :=
  match groups with
  | [] => [(key, 1)]
  | (key', n) :: groups' =>
      if bool_decide (key' = key) then (key', n + 1) :: groups'
      else (key', n) :: count_group key groups'
  end.

Definition keepers_per_team (season : Z) (db : database) : list (Z * string * Z) :=
  fold_left
    (fun groups hk =>
       if (hk_season_year hk =? season)%Z then
         fold_left
           (fun groups ft =>
              if (ft_team_id ft =? hk_fantasy_team_id hk)%Z
              then count_group (hk_fantasy_team_id hk, ft_team_name ft) groups
              else groups)
           (fantasy_teams db) groups
       else groups)
    (historical_keepers db) [].

Definition import_keepers (csv : list keeper_row) : M Z :=
  (* Clear existing keepers for 2025 *)
  execute delete_query (delete_season SEASON) ;;;
  (* Read and import from CSV *)
  keepers <-- lift (read_keepers csv []) ;;;
  (* Batch insert *)
  executemany keepers ;;;
  commit ;;;
  (* Verify *)
  results <-- query verify_query (keepers_per_team SEASON) ;;;
  ret (fold_left (fun total r => total + snd r) results 0).

(** The script: the stored database after [main] has closed its
    connection, whether [import_keepers] returned or raised. *)
Definition main (csv : list keeper_row) (db : database) : database :=
  committed (snd (import_keepers csv (connect db))).

End ImportKeepersFromCsv.

(* ====================================================================== *)
(** * scripts/import_lineups_to_positions.py *)
(* ====================================================================== *)

Module ImportLineupsToPositions.
Import Db.

(** What the functions thread: the database as the cursor sees it and the
    module-level cache [_weeks_with_bonus_games]. *)
Record state : Type := {
  db : database;
  weeks_with_bonus_games : gmap string bool
}.

(** [f"{week}-{season_year}"] *)
Definition cache_key (week season_year : Z) : string :=
  str week +:+ "-" +:+ str season_year.

(** [SELECT COUNT( * ) FROM weekly_schedule WHERE week_number = %s
    AND season_year = %s AND game_type = 'bonus'] *)
Definition count_bonus_games (d : database) (week season_year : Z) : Z :=
  Z.of_nat (length (List.filter
    (fun r => (ws_week_number r =? week)%Z && (ws_season_year r =? season_year)%Z
              && String.eqb (ws_game_type r) "bonus")
    (weekly_schedule d))).

Definition check_week_has_bonus_games (st : state) (week season_year : Z)
    : bool * state :=
  let cache_key := cache_key week season_year in
  match weeks_with_bonus_games st !! cache_key with
  | Some cached => (cached, st)
  | None =>
      let has_bonus := (0 <? count_bonus_games (db st) week season_year)%Z in
      (has_bonus,
       {| db := db st;
          weeks_with_bonus_games := <[cache_key := has_bonus]> (weeks_with_bonus_games st) |})
  end.

(** [SELECT lineup_id FROM lineup_submissions WHERE fantasy_team_id = %s
    AND week_number = %s AND game_type = %s AND season_year = %s] *)
Definition select_submission (d : database) (team_id week : Z) (game_type : string)
    (season_year : Z) : list lineup_submission :=
  List.filter
    (fun s => (ls_fantasy_team_id s =? team_id)%Z && (ls_week_number s =? week)%Z
              && String.eqb (ls_game_type s) game_type
              && (ls_season_year s =? season_year)%Z)
    (lineup_submissions d).

Definition set_submissions (d : database) (rows : list lineup_submission) : database :=
  {| nfl_players := nfl_players d;
     lineup_submissions := rows;
     lineup_positions := lineup_positions d;
     historical_keepers := historical_keepers d;
     weekly_schedule := weekly_schedule d;
     fantasy_teams := fantasy_teams d |}.

Definition set_positions (d : database) (rows : list lineup_position) : database :=
  {| nfl_players := nfl_players d;
     lineup_submissions := lineup_submissions d;
     lineup_positions := rows;
     historical_keepers := historical_keepers d;
     weekly_schedule := weekly_schedule d;
     fantasy_teams := fantasy_teams d |}.

(** [None] is Python's [None]; otherwise the [lineup_id]. *)
Definition get_or_create_lineup_submission (st : state)
    (team_id week : Z) (game_type : string) (season_year : Z) : option Z * state :=
  (* Check if bonus games exist for this week before creating bonus lineup *)
  let '(skip, st) :=
    if String.eqb game_type "bonus" then
      let '(has_bonus, st) := check_week_has_bonus_games st week season_year in
      (negb has_bonus, st)
    else (false, st) in
  if skip then (None, st)
  else
    match head (select_submission (db st) team_id week game_type season_year) with
    | Some result => (Some (ls_lineup_id result), st)
    | None =>
        (* Create new lineup submission *)
        let lastrowid := next_id (map ls_lineup_id (lineup_submissions (db st))) in
        (Some lastrowid,
         {| db := set_submissions (db st)
                    (lineup_submissions (db st)
                     ++ [ {| ls_lineup_id := lastrowid;
                             ls_fantasy_team_id := team_id;
                             ls_week_number := week;
                             ls_game_type := game_type;
                             ls_season_year := season_year |} ])%list;
            weeks_with_bonus_games := weeks_with_bonus_games st |})
    end.

(** An entry of a group of [lineups_by_submission]. *)
Record pos : Type := {
  position_type : string;
  player_id : Z;
  nfl_team_id : option Z;
  sort_order : Z
}.

(** [DELETE FROM lineup_positions WHERE lineup_id = %s] *)
Definition delete_positions (lineup_id : Z) (d : database) : database :=
  set_positions d
    (List.filter (fun r => negb (lp_lineup_id r =? lineup_id)%Z) (lineup_positions d)).

(** [INSERT INTO lineup_positions (...) VALUES (%s, %s, %s, %s, %s, NOW())] *)
Definition insert_position (lineup_id : Z) (p : pos) (d : database) : database :=
  set_positions d
    (lineup_positions d
     ++ [ {| lp_position_id := next_id (map lp_position_id (lineup_positions d));
             lp_lineup_id := lineup_id;
             lp_position_type := position_type p;
             lp_player_id := Some (player_id p);
             lp_nfl_team_id := nfl_team_id p;
             lp_sort_order := sort_order p |} ])%list.

(** The counters of the insert loop next to the threaded state. *)
Record progress : Type := {
  cur : state;
  inserted : Z;
  updated_lineups : Z
}.

Definition season_year : Z := 2025.

(** The body of the loop over [lineups_by_submission.items()]. *)
Definition import_group (pr : progress) (group : (Z * Z * string) * list pos)
    : progress :=
  let '((team_id, week, game_type), positions) := group in
  (* Get or create lineup submission *)
  let '(lineup_id, st) :=
    get_or_create_lineup_submission (cur pr) team_id week game_type season_year in
  match lineup_id with
  | None =>
      (* Skip if lineup was not created *)
      {| cur := st; inserted := inserted pr; updated_lineups := updated_lineups pr |}
  | Some lineup_id =>
      (* Delete existing positions for this lineup, then insert positions *)
      let d := delete_positions lineup_id (db st) in
      let '(d, inserted) :=
        fold_left (fun acc p => (insert_position lineup_id p (fst acc), snd acc + 1))
                  positions (d, inserted pr) in
      {| cur := {| db := d; weeks_with_bonus_games := weeks_with_bonus_games st |};
         inserted := inserted;
         updated_lineups := updated_lineups pr + 1 |}
  end.

(** The whole insert loop. *)
Definition import_groups (st : state) (groups : list ((Z * Z * string) * list pos))
    : progress :=
  fold_left import_group groups {| cur := st; inserted := 0; updated_lineups := 0 |}.

(** One arm of [parse_position_code]: the label starts with [code]; the
    number is what follows, 1 when nothing does. *)
Definition code_arm (code db_type position : string)
    : option (result (option (string * Z))) :=
  match strip_prefix code position with
  | Some rest =>
      Some (if truthy rest
            then n <- Py.int rest ;; Ok (Some (db_type, n))
            else Ok (Some (db_type, 1)))
  | None => None
  end.

(** [parse_position_code(position)]; the pair [(None, None)] is [None].
    [int] of what follows the code may raise. *)
Definition parse_position_code (position : string) : result (option (string * Z)) :=
  if String.eqb position "HeadCoach" then Ok None
  else
    match code_arm "QB" "quarterback" position with
    | Some r => r
    | None =>
    match code_arm "RB" "running_back" position with
    | Some r => r
    | None =>
    match code_arm "RC" "receiver" position with
    | Some r => r
    | None =>
    match code_arm "PK" "place_kicker" position with
    | Some r => r
    | None =>
    match code_arm "DEF" "defense" position with
    | Some r => r
    | None => Ok None
    end end end end end.

(** [extract_nfl_team_code(player_name)]: what stands between the last
    opening and the last closing parenthesis, stripped. *)
Definition extract_nfl_team_code (player_name : string) : option string :=
  if contains "(" player_name && contains ")" player_name then
    let start := rfind_char "(" player_name in
    let end_ := rfind_char ")" player_name in
    Some (strip (slice player_name (start + 1) end_))
  else None.

(** [load_player_mappings(cursor)]: ESPN ID to player, a later row of the
    table replacing an earlier one with the same ESPN ID. *)
Definition load_player_mappings (d : database) : gmap string nfl_player :=
  fold_left (fun mappings p =>
               match np_espn_id p with
               | Some espn_id => <[espn_id := p]> mappings
               | None => mappings
               end)
            (nfl_players d) ∅.

(** What the grouping loop of [main] builds: [lineups_by_submission], in
    the order its keys were first seen, and the counts of [skipped]. *)
Record grouping : Type := {
  lineups_by_submission : list ((Z * Z * string) * list pos);
  skipped : gmap string Z
}.

(** [skipped[reason] += 1] *)
Definition skip (reason : string) (g : grouping) : grouping :=
  {| lineups_by_submission := lineups_by_submission g;
     skipped := <[reason := default 0 (skipped g !! reason) + 1]> (skipped g) |}.

(** [lineups_by_submission[key].append(p)] *)
Fixpoint append_to (key : Z * Z * string) (p : pos)
    (groups : list ((Z * Z * string) * list pos)) : list ((Z * Z * string) * list pos) :=
  match groups with
  | [] => [(key, [p])]
  | (k, ps) :: rest =>
      if bool_decide (k = key) then (k, (ps ++ [p])%list) :: rest
      else (k, ps) :: append_to key p rest
  end.

(** The body of the grouping loop for one line; [teams_by_code] is what
    [load_nfl_teams] read. *)
Definition group_row (player_mappings : gmap string nfl_player)
    (teams_by_code : gmap string Z) (row : Csv.lineup_row) (g : grouping)
    : result grouping :=
  week <- Py.int (Csv.Week row) ;;
  let game_type := lower (strip (Csv.Game_Type row)) in
  team_id <- Py.int (Csv.Team_ID row) ;;
  let position := strip (Csv.Position row) in
  let player_name := strip (Csv.Player row) in
  let espn_id := strip (Csv.ESPN_ID row) in
  let player_id_str := strip (Csv.player_id_col row) in
  (* Parse position *)
  parsed <- parse_position_code position ;;
  match parsed with
  | None => Ok (skip position g)
  | Some (position_type, sort_order) =>
      let grouped (player_id : Z) : grouping :=
        (* Extract NFL team code *)
        let nfl_team_id :=
          match extract_nfl_team_code player_name with
          | Some code => if truthy code then teams_by_code !! code else None
          | None => None
          end in
        {| lineups_by_submission :=
             append_to (team_id, week, game_type)
               {| position_type := position_type;
                  player_id := player_id;
                  nfl_team_id := nfl_team_id;
                  sort_order := sort_order |}
               (lineups_by_submission g);
           skipped := skipped g |} in
      (* use direct player_id if available, otherwise look up by ESPN ID *)
      let player_id : option Z :=
        if truthy player_id_str then
          match Py.int player_id_str with
          | Ok n => Some n
          | Raise => None
          end
        else None in
      match player_id with
      | Some (Zpos _ as n) | Some (Zneg _ as n) => Ok (grouped n)
      | Some Z0 | None =>
          (* If no direct player_id, try ESPN ID lookup *)
          if negb (truthy espn_id)
          then Ok (skip (position +:+ " (no player_id or ESPN ID)") g)
          else
            match player_mappings !! espn_id with
            | None => Ok (skip ("Unknown ESPN ID " +:+ espn_id) g)
            | Some p => Ok (grouped (np_player_id p))
            end
      end
  end.

Fixpoint group_rows (player_mappings : gmap string nfl_player)
    (teams_by_code : gmap string Z) (rows : list Csv.lineup_row) (g : grouping)
    : result grouping :=
  match rows with
  | [] => Ok g
  | row :: rows' =>
      g' <- group_row player_mappings teams_by_code row g ;;
      group_rows player_mappings teams_by_code rows' g'
  end.

End ImportLineupsToPositions.

(* ====================================================================== *)
(** * scripts/find_missing_keepers.py *)
(* ====================================================================== *)

Module FindMissingKeepers.

(** Expected counts from activity logs. *)
Definition EXPECTED_COUNTS : list (Z * Z) :=
  [ (1, 12); (2, 11); (3, 12); (4, 12); (5, 13);
    (6, 12); (7, 13); (8, 12); (9, 12); (10, 11) ].

(** [EXPECTED_COUNTS[team_id]], a [KeyError] for an absent team. *)
Fixpoint expected_count (counts : list (Z * Z)) (team_id : Z) : result Z :=
  match counts with
  | [] => Raise
  | (t, n) :: counts' => if (t =? team_id)%Z then Ok n else expected_count counts' team_id
  end.

(** A value of [espn_mapping], as listed in [week1_lineups]. *)
Record player : Type := {
  player_id : Z;
  name : string;
  position : string
}.

(** An entry of [current_keepers]. *)
Record keeper : Type := {
  kp_player_id : Z;
  kp_name : string;
  kp_espn_id : option string;
  kp_position : string
}.

(** [d[team_id]] on a [defaultdict(list)]. *)
Definition getlist {A} (d : gmap Z (list A)) (team_id : Z) : list A :=
  default [] (d !! team_id).

(** [potential_missing]: the Week-1 players of the team that are neither
    current keepers nor drafted. *)
Definition potential_missing (current : list keeper) (drafted_players : gset Z)
    (week1 : list player) : list player :=
  let current_player_ids : gset Z := list_to_set (map kp_player_id current) in
  List.filter (fun p => bool_decide (player_id p ∉ current_player_ids)
                        && bool_decide (player_id p ∉ drafted_players))
              week1.

(** [l[:n]] for [n > 0]. *)
Definition slice_to {A} (l : list A) (n : Z) : list A := take (Z.to_nat n) l.

(** What the analysis loop carries: [total_missing] and [missing_by_team]
    in insertion order. *)
Definition analysis : Type := (Z * list (Z * list player))%type.

(** The body of the loop [for team_id in range(1, 11)]. *)
Definition analyse_team (current_keepers : gmap Z (list keeper))
    (drafted_players : gset Z) (week1_lineups : gmap Z (list player))
    (acc : analysis) (team_id : Z) : result analysis :=
  let '(total_missing, missing_by_team) := acc in
  expected <- expected_count EXPECTED_COUNTS team_id ;;
  let current_count := Z.of_nat (length (getlist current_keepers team_id)) in
  let missing_count := expected - current_count in
  if (0 <? missing_count)%Z then
    let potential := potential_missing (getlist current_keepers team_id)
                       drafted_players (getlist week1_lineups team_id) in
    match potential with
    | [] => Ok acc
    | _ =>
        let proposed := slice_to potential missing_count in
        Ok (total_missing + Z.of_nat (length proposed),
            (missing_by_team ++ [(team_id, proposed)])%list)
    end
  else Ok acc.

Fixpoint analyse_teams (current_keepers : gmap Z (list keeper))
    (drafted_players : gset Z) (week1_lineups : gmap Z (list player))
    (team_ids : list Z) (acc : analysis) : result analysis :=
  match team_ids with
  | [] => Ok acc
  | team_id :: rest =>
      acc' <- analyse_team current_keepers drafted_players week1_lineups acc team_id ;;
      analyse_teams current_keepers drafted_players week1_lineups rest acc'
  end.

(** [range(1, 11)] *)
Definition team_range : list Z := [1; 2; 3; 4; 5; 6; 7; 8; 9; 10].

(** The analysis part of [main]. *)
Definition find_missing (current_keepers : gmap Z (list keeper))
    (drafted_players : gset Z) (week1_lineups : gmap Z (list player))
    : result analysis :=
  analyse_teams current_keepers drafted_players week1_lineups team_range (0, []).

(** [all_missing]: the pairs the [INSERT] lines are written from. *)
Definition all_missing (missing_by_team : list (Z * list player)) : list (Z * player) :=
  flat_map (fun tp => map (fun p => (fst tp, p)) (snd tp)) missing_by_team.

(** [missing_by_team.get(team_id, [])] *)
Fixpoint proposed_for (missing_by_team : list (Z * list player)) (team_id : Z)
    : list player :=
  match missing_by_team with
  | [] => []
  | (t, ps) :: rest => if (t =? team_id)%Z then ps else proposed_for rest team_id
  end.

End FindMissingKeepers.

(* ====================================================================== *)
(** * Sample data *)
(* ====================================================================== *)

Module Examples.
Import Db Csv.

(** A sack with a fumble recovered by the defense. *)
Definition standard_play : ImportPlayerStats.play :=
  {| ImportPlayerStats.desc :=
       Val "(12:04) J.Allen sacked at BUF 30. FUMBLES, RECOVERED by MIA-C.Wilkins.";
     ImportPlayerStats.fumble_lost := Val 1;
     ImportPlayerStats.fumble_recovery_1_team := Val "MIA";
     ImportPlayerStats.fumble_recovery_2_team := NaN;
     ImportPlayerStats.fumble_recovery_1_player_id := Val "00-0035640";
     ImportPlayerStats.fumbled_1_player_id := Val "00-0034857";
     ImportPlayerStats.fumbled_2_player_id := NoneVal |}.

(** Two entries of a Week-1 lineup file, as loaded. *)
Definition fairbairn : GenerateRestorationSql.lineup :=
  {| GenerateRestorationSql.week := 1;
     GenerateRestorationSql.game_type := "primary";
     GenerateRestorationSql.team_id := 3;
     GenerateRestorationSql.team_name := "Dick Six";
     GenerateRestorationSql.position_label := "PK1";
     GenerateRestorationSql.player_name := "Ka'imi Fairbairn (HOU)";
     GenerateRestorationSql.espn_id := "2971573";
     GenerateRestorationSql.position_type := "place_kicker";
     GenerateRestorationSql.sort_order := 1 |}.

Definition mahomes : GenerateRestorationSql.lineup :=
  {| GenerateRestorationSql.week := 1;
     GenerateRestorationSql.game_type := "primary";
     GenerateRestorationSql.team_id := 3;
     GenerateRestorationSql.team_name := "Dick Six";
     GenerateRestorationSql.position_label := "QB1";
     GenerateRestorationSql.player_name := "Patrick Mahomes (KC)";
     GenerateRestorationSql.espn_id := "3139477";
     GenerateRestorationSql.position_type := "quarterback";
     GenerateRestorationSql.sort_order := 1 |}.

(** Part of a Week-2 lineup file: simple labels, a head coach line. *)
Definition csv_line (wk team position player espn : string) : lineup_row :=
  {| Week := wk; Game_Type := "primary"; Team_ID := team;
     Fantasy_Team_Name := "Dick Six"; Position := position;
     Player := player; ESPN_ID := espn; player_id_col := "" |}.

Definition week2_rows : list lineup_row :=
  [ csv_line "2" "3" "HeadCoach" "Andy Reid" "";
    csv_line "2" "3" "QB" "Patrick Mahomes (KC)" "3139477";
    csv_line "2" "3" "RB" "Derrick Henry (BAL)" "3043078";
    csv_line "2" "3" "QB" "Jalen Hurts (PHI)" "4040715";
    csv_line "2" "3" "DEF" "Ravens (BAL)" "" ].

Definition loaded (position player espn ptype : string) (n : Z)
    : GenerateRestorationSql.lineup :=
  {| GenerateRestorationSql.week := 2;
     GenerateRestorationSql.game_type := "primary";
     GenerateRestorationSql.team_id := 3;
     GenerateRestorationSql.team_name := "Dick Six";
     GenerateRestorationSql.position_label := position;
     GenerateRestorationSql.player_name := player;
     GenerateRestorationSql.espn_id := espn;
     GenerateRestorationSql.position_type := ptype;
     GenerateRestorationSql.sort_order := n |}.

Definition hurts : GenerateRestorationSql.lineup :=
  loaded "QB" "Jalen Hurts (PHI)" "4040715" "quarterback" 2.

Definition week2_lineups : list GenerateRestorationSql.lineup :=
  [ loaded "QB" "Patrick Mahomes (KC)" "3139477" "quarterback" 1;
    loaded "RB" "Derrick Henry (BAL)" "3043078" "running_back" 1;
    hurts;
    loaded "DEF" "Ravens (BAL)" "" "defense" 1 ].

(** A small league database. *)
Definition sample_db : database :=
  {| nfl_players :=
       [ {| np_player_id := 451; np_espn_id := Some "3139477";
            np_display_name := "Patrick Mahomes"; np_position := "QB" |};
         {| np_player_id := 452; np_espn_id := Some "3043078";
            np_display_name := "Derrick Henry"; np_position := "RB" |};
         {| np_player_id := 453; np_espn_id := None;
            np_display_name := "Practice Squad"; np_position := "RC" |} ];
     lineup_submissions :=
       [ {| ls_lineup_id := 70; ls_fantasy_team_id := 3; ls_week_number := 2;
            ls_game_type := "primary"; ls_season_year := 2025 |};
         {| ls_lineup_id := 71; ls_fantasy_team_id := 3; ls_week_number := 2;
            ls_game_type := "primary"; ls_season_year := 2024 |} ];
     lineup_positions :=
       [ {| lp_position_id := 900; lp_lineup_id := 70;
            lp_position_type := "running_back"; lp_player_id := Some 452;
            lp_nfl_team_id := None; lp_sort_order := 1 |} ];
     historical_keepers :=
       [ {| hk_season_year := 2024; hk_fantasy_team_id := 3; hk_player_id := 452;
            hk_espn_id := Some 3043078; hk_designation_date := "2024-08-20 10:00:00" |};
         {| hk_season_year := 2025; hk_fantasy_team_id := 3; hk_player_id := 453;
            hk_espn_id := None; hk_designation_date := "2025-08-25 14:30:48" |} ];
     weekly_schedule :=
       [ {| ws_week_number := 2; ws_season_year := 2025; ws_game_type := "primary" |};
         {| ws_week_number := 4; ws_season_year := 2025; ws_game_type := "bonus" |} ];
     fantasy_teams := [ {| ft_team_id := 3; ft_team_name := "Dick Six" |} ] |}.

(** The importer at the start of a process: nothing cached. *)
Definition fresh_state : ImportLineupsToPositions.state :=
  {| ImportLineupsToPositions.db := sample_db;
     ImportLineupsToPositions.weeks_with_bonus_games := ∅ |}.

Definition keepers_csv : list keeper_row :=
  [ {| k_Team_ID := "3"; k_player_id := "451"; k_ESPN_ID := " 3139477 " |};
    {| k_Team_ID := "3"; k_player_id := "452"; k_ESPN_ID := "" |} ].

(** A locked lineup and two of its positions, as the export fetches them. *)
Definition locked_week1 : ExportLineupSubmissions.locked_lineup :=
  {| ExportLineupSubmissions.week_number := 1;
     ExportLineupSubmissions.game_type := "primary";
     ExportLineupSubmissions.fantasy_team_id := 3;
     ExportLineupSubmissions.team_name := "Dick Six";
     ExportLineupSubmissions.owner_name := Some "Lance James";
     ExportLineupSubmissions.username := "lance";
     ExportLineupSubmissions.lineup_head_coach := None;
     ExportLineupSubmissions.team_head_coach := Some "Andy Reid" |}.

Definition position_qb1 : ExportLineupSubmissions.position_row :=
  {| ExportLineupSubmissions.position_type := "quarterback";
     ExportLineupSubmissions.sort_order := 1;
     ExportLineupSubmissions.player_name := Some "Patrick Mahomes";
     ExportLineupSubmissions.pos_team_code := Some "KC";
     ExportLineupSubmissions.pos_team_name := Some "Kansas City Chiefs";
     ExportLineupSubmissions.espn_id := Some "3139477" |}.

Definition position_def2 : ExportLineupSubmissions.position_row :=
  {| ExportLineupSubmissions.position_type := "defense";
     ExportLineupSubmissions.sort_order := 2;
     ExportLineupSubmissions.player_name := None;
     ExportLineupSubmissions.pos_team_code := Some "BAL";
     ExportLineupSubmissions.pos_team_name := Some "Baltimore Ravens";
     ExportLineupSubmissions.espn_id := None |}.

Definition exported_week1 : list (list string) :=
  [ ExportLineupSubmissions.header;
    [ "1"; "primary"; "3"; "Dick Six"; "Lance James"; "lance";
      "HeadCoach"; "Andy Reid"; "" ];
    [ "1"; "primary"; "3"; "Dick Six"; "Lance James"; "lance";
      "QB1"; "Patrick Mahomes (KC)"; "3139477" ];
    [ "1"; "primary"; "3"; "Dick Six"; "Lance James"; "lance";
      "DEF2"; "Baltimore Ravens (BAL)"; "" ] ].

(** A quarterback who fumbles and falls on the ball himself; the second
    recovery column holds the float nan. *)
Definition own_recovery : ImportPlayerStats.play :=
  {| ImportPlayerStats.desc := Val "(3:10) J.Allen FUMBLES, recovers at BUF 28.";
     ImportPlayerStats.fumble_lost := Val 0;
     ImportPlayerStats.fumble_recovery_1_team := Val "BUF";
     ImportPlayerStats.fumble_recovery_2_team := NaN;
     ImportPlayerStats.fumble_recovery_1_player_id := Val "00-0034857";
     ImportPlayerStats.fumbled_1_player_id := Val "00-0034857";
     ImportPlayerStats.fumbled_2_player_id := NaN |}.








End Examples.

(* ====================================================================== *)
(** * Vocabulary of the properties *)
(* ====================================================================== *)

Module Spec.
Import Db.

(** An entry of the CSV is restorable when it has a non-empty ESPN ID, a
    player with that ESPN ID exists in [nfl_players], a lineup submission
    exists for its team, week, game type and season 2025, and no
    [lineup_positions] row links the submission found to the player found. *)
Definition restorable (db : database) (lineup : RestoreLineups.csv_lineup) : Prop :=
  exists espn,
    RestoreLineups.espn_id lineup = Some espn /\ espn <> "" /\
    (exists p, p ∈ nfl_players db /\ np_espn_id p = Some espn) /\
    (exists s, s ∈ lineup_submissions db
               /\ ls_fantasy_team_id s = RestoreLineups.team_id lineup
               /\ ls_week_number s = RestoreLineups.week lineup
               /\ ls_game_type s = RestoreLineups.game_type lineup
               /\ ls_season_year s = 2025) /\
    (forall player sub,
        RestoreLineups.fetchone (RestoreLineups.select_player db espn) = Some player ->
        RestoreLineups.fetchone
          (RestoreLineups.select_submission db (RestoreLineups.team_id lineup)
             (RestoreLineups.week lineup) (RestoreLineups.game_type lineup)) = Some sub ->
        forall r, r ∈ lineup_positions db ->
                  ~ (lp_lineup_id r = ls_lineup_id sub
                     /\ lp_player_id r = Some (np_player_id player))).

(** The [historical_keepers] rows of the seasons the import does not
    handle. *)
Definition other_seasons (rows : list historical_keeper) : list historical_keeper :=
  List.filter (fun r => negb (hk_season_year r =? ImportKeepersFromCsv.SEASON)%Z) rows.

(** Database [d] differs from [db] at most in the season's keepers: every
    other table is the same, the [historical_keepers] rows of the other
    seasons are the same, and the table is made of rows kept from [db],
    among them all rows of other seasons, followed by rows of the season. *)
Definition only_season_changed (db d : database) : Prop :=
  nfl_players d = nfl_players db
  /\ lineup_submissions d = lineup_submissions db
  /\ lineup_positions d = lineup_positions db
  /\ weekly_schedule d = weekly_schedule db
  /\ fantasy_teams d = fantasy_teams db
  /\ other_seasons (historical_keepers d) = other_seasons (historical_keepers db)
  /\ exists kept inserted,
       historical_keepers d = (kept ++ inserted)%list
       /\ sublist kept (historical_keepers db)
       /\ (forall r, r ∈ historical_keepers db ->
                     hk_season_year r <> ImportKeepersFromCsv.SEASON -> r ∈ kept)
       /\ Forall (fun r => hk_season_year r = ImportKeepersFromCsv.SEASON) inserted.

(** The cache of [check_week_has_bonus_games] agrees with the schedule:
    what it holds for a week and season is what the query would answer. *)
Definition cache_consistent (st : ImportLineupsToPositions.state) : Prop :=
  forall week season_year cached,
    ImportLineupsToPositions.weeks_with_bonus_games st
      !! ImportLineupsToPositions.cache_key week season_year = Some cached ->
    cached = (0 <? ImportLineupsToPositions.count_bonus_games
                     (ImportLineupsToPositions.db st) week season_year)%Z.

(** Entry [l] has a simple label and the given team, week and position
    type. *)
Definition in_slot (team_id week : Z) (position_type : string)
    (l : GenerateRestorationSql.lineup) : bool :=
  GenerateRestorationSql.is_simple (GenerateRestorationSql.position_label l)
  && (GenerateRestorationSql.team_id l =? team_id)%Z
  && (GenerateRestorationSql.week l =? week)%Z
  && String.eqb (GenerateRestorationSql.position_type l) position_type.

(** How many entries of [ls] are in the slot. *)
Definition slot_count (team_id week : Z) (position_type : string)
    (ls : list GenerateRestorationSql.lineup) : Z :=
  Z.of_nat (length (List.filter (in_slot team_id week position_type) ls)).

(** What holds of the list [load_csv_with_sort_order] has built so far
    and of its counters: each counter is the number of entries in its
    slot, each simple entry carries its rank in its slot, and each other
    entry what [parse_position_info] gives. *)
Definition load_invariant
    (st : list GenerateRestorationSql.lineup * gmap string Z) : Prop :=
  (forall t w p,
      default 0 (snd st !! GenerateRestorationSql.counter_key t w p)
      = slot_count t w p (fst st))
  /\ (forall i l,
        fst st !! i = Some l ->
        GenerateRestorationSql.is_simple (GenerateRestorationSql.position_label l) = true ->
        GenerateRestorationSql.sort_order l
        = slot_count (GenerateRestorationSql.team_id l) (GenerateRestorationSql.week l)
            (GenerateRestorationSql.position_type l) (take (S i) (fst st)))
  /\ (forall l,
        l ∈ fst st ->
        GenerateRestorationSql.is_simple (GenerateRestorationSql.position_label l) = false ->
        (GenerateRestorationSql.position_type l, GenerateRestorationSql.sort_order l)
        = GenerateRestorationSql.parse_position_info
            (GenerateRestorationSql.position_label l)).

(** What the analysis records for one team, if anything. *)
Definition proposal (current_keepers : gmap Z (list FindMissingKeepers.keeper))
    (drafted_players : gset Z) (week1_lineups : gmap Z (list FindMissingKeepers.player))
    (team_id expected : Z) : option (list FindMissingKeepers.player) :=
  let current_count :=
    Z.of_nat (length (FindMissingKeepers.getlist current_keepers team_id)) in
  if (0 <? expected - current_count)%Z then
    match FindMissingKeepers.potential_missing
            (FindMissingKeepers.getlist current_keepers team_id) drafted_players
            (FindMissingKeepers.getlist week1_lineups team_id) with
    | [] => None
    | potential => Some (take (Z.to_nat (expected - current_count)) potential)
    end
  else None.

(** The entry a team adds to [missing_by_team], if any. *)
Definition entry_of (current_keepers : gmap Z (list FindMissingKeepers.keeper))
    (drafted_players : gset Z) (week1_lineups : gmap Z (list FindMissingKeepers.player))
    (team_id : Z) : option (Z * list FindMissingKeepers.player) :=
  match FindMissingKeepers.expected_count FindMissingKeepers.EXPECTED_COUNTS team_id with
  | Ok expected =>
      pair team_id <$> proposal current_keepers drafted_players week1_lineups
                                team_id expected
  | Raise => None
  end.

(** A way of building a statement from data is parameterized when the
    statement text is the same whatever the data: the values travel in
    [params] only. *)
Definition parameterized {D : Type} (build : D -> statement) : Prop :=
  forall d1 d2, text (build d1) = text (build d2).

(** The texts of the nine values of an entry, as the generated file shows
    them. *)
Definition lineup_values (l : GenerateRestorationSql.lineup) : list string :=
  [ str (GenerateRestorationSql.week l);
    GenerateRestorationSql.game_type l;
    str (GenerateRestorationSql.team_id l);
    replace_char "'" "\'" (GenerateRestorationSql.team_name l);
    GenerateRestorationSql.position_label l;
    replace_char "'" "\'" (GenerateRestorationSql.player_name l);
    GenerateRestorationSql.espn_id l;
    GenerateRestorationSql.position_type l;
    str (GenerateRestorationSql.sort_order l) ].

(** The texts of the values of a keeper, as the generated file shows them. *)
Definition keeper_values (k : CalculateTrueKeepers.keeper) : list string :=
  [ str (CalculateTrueKeepers.k_team_id k);
    str (CalculateTrueKeepers.k_player_id k);
    match CalculateTrueKeepers.k_espn_id k with
    | Some e => if truthy e then e else "NULL"
    | None => "NULL"
    end;
    CalculateTrueKeepers.k_name k;
    CalculateTrueKeepers.k_position k ].

(** The entry [load_csv_with_sort_order] builds from the line the export
    writes for position [p] of [lineup]. *)
Definition reloaded (lineup : ExportLineupSubmissions.locked_lineup)
    (p : ExportLineupSubmissions.position_row) : GenerateRestorationSql.lineup :=
  let fields :=
    ExportLineupSubmissions.player_row
      [ str (ExportLineupSubmissions.week_number lineup);
        ExportLineupSubmissions.game_type lineup;
        str (ExportLineupSubmissions.fantasy_team_id lineup);
        ExportLineupSubmissions.team_name lineup;
        ExportLineupSubmissions.cell_text (ExportLineupSubmissions.owner_name lineup);
        ExportLineupSubmissions.username lineup ] p in
  let row := Csv.dict_row ExportLineupSubmissions.header fields in
  {| GenerateRestorationSql.week := ExportLineupSubmissions.week_number lineup;
     GenerateRestorationSql.game_type := ExportLineupSubmissions.game_type lineup;
     GenerateRestorationSql.team_id := ExportLineupSubmissions.fantasy_team_id lineup;
     GenerateRestorationSql.team_name := ExportLineupSubmissions.team_name lineup;
     GenerateRestorationSql.position_label := Csv.Position row;
     GenerateRestorationSql.player_name := Csv.Player row;
     GenerateRestorationSql.espn_id :=
       if truthy (Csv.ESPN_ID row) then strip (Csv.ESPN_ID row) else "";
     GenerateRestorationSql.position_type := ExportLineupSubmissions.position_type p;
     GenerateRestorationSql.sort_order := ExportLineupSubmissions.sort_order p |}.

(** A [lineup_positions] row without its key. *)
Definition position_content (r : lineup_position)
    : Z * string * option Z * option Z * Z :=
  (lp_lineup_id r, lp_position_type r, lp_player_id r, lp_nfl_team_id r,
   lp_sort_order r).

(** The content the importer stores for entry [p] of a group. *)
Definition stored_content (lineup_id : Z) (p : ImportLineupsToPositions.pos)
    : Z * string * option Z * option Z * Z :=
  (lineup_id, ImportLineupsToPositions.position_type p,
   Some (ImportLineupsToPositions.player_id p),
   ImportLineupsToPositions.nfl_team_id p, ImportLineupsToPositions.sort_order p).




(** The [fantasy_teams] rows a keeper is joined to. *)
Definition teams_of (db : database) (k : historical_keeper) : list fantasy_team :=
  List.filter (fun ft => (ft_team_id ft =? hk_fantasy_team_id k)%Z) (fantasy_teams db).

(** How many lines the grouping loop has put in a group, and how many it
    has counted as skipped. *)
Definition grouped_count (g : ImportLineupsToPositions.grouping) : Z :=
  Z.of_nat (length (flat_map snd (ImportLineupsToPositions.lineups_by_submission g))).

Definition skipped_count (g : ImportLineupsToPositions.grouping) : Z :=
  map_fold (fun _ n total => n + total) 0 (ImportLineupsToPositions.skipped g).

(** The text has no whitespace character. *)
Fixpoint no_space (s : string) : bool :=
  match s with
  | EmptyString => true
  | String c s' => negb (Py.is_space c) && no_space s'
  end.

(** The text begins with a decimal digit. *)
Definition starts_with_digit (s : string) : bool :=
  match s with
  | EmptyString => false
  | String c _ => is_digit c
  end.


End Spec.

(* ====================================================================== *)
(** * Properties *)
(* ====================================================================== *)

(** ** Facts about the Python primitives *)

Module PyFacts.

Lemma all_digits_string_of_uint d : all_digits (NilEmpty.string_of_uint d) = true.
Proof. induction d; simpl; auto. Qed.

Lemma take_digits_all s : all_digits s = true -> take_digits s = s.
Proof.
  induction s as [|c s IH]; simpl; [done|].
  intros [Hc Hs]%andb_true_iff. rewrite Hc, IH; done.
Qed.

(** The text of a non-negative integer is its decimal digits, at least one. *)
Lemma str_nonneg n :
  0 <= n ->
  exists d, str n = NilEmpty.string_of_uint d /\ d <> Decimal.Nil /\ Z.of_uint d = n.
Proof.
  intros Hn. destruct n as [|p|p]; [| |lia].
  - exists Decimal.zero. repeat split; done.
  - exists (Pos.to_uint p). repeat split.
    + apply DecimalPos.Unsigned.to_uint_nonnil.
    + unfold Z.of_uint. rewrite DecimalPos.Unsigned.of_to. done.
Qed.

Lemma digits_value_str n : 0 <= n -> digits_value (str n) = n.
Proof.
  intros (d & -> & _ & Hd)%str_nonneg.
  unfold digits_value. rewrite NilEmpty.usu. done.
Qed.

Lemma all_digits_str n : 0 <= n -> all_digits (str n) = true.
Proof. intros (d & -> & _)%str_nonneg. apply all_digits_string_of_uint. Qed.

Lemma str_nonempty n : str n <> "".
Proof.
  destruct n as [|p|p]; [done| |done].
  unfold str; simpl. pose proof (DecimalPos.Unsigned.to_uint_nonnil p).
  destruct (Pos.to_uint p); done.
Qed.

Lemma strip_prefix_app p s : strip_prefix p (p +:+ s) = Some s.
Proof. induction p as [|c p IH]; simpl; [done|]. rewrite Ascii.eqb_refl. done. Qed.

Lemma str_inj a b : str a = str b -> a = b.
Proof.
  unfold str. intros H. apply DecimalZ.to_int_inj.
  assert (Hs : Some (Z.to_int a) = Some (Z.to_int b)).
  { rewrite <- !NilEmpty.isi. by rewrite H. }
  by injection Hs.
Qed.

(** Two digit strings followed by the same non-digit. *)
Lemma digits_sep_inj c d1 d2 x y :
  is_digit c = false -> all_digits d1 = true -> all_digits d2 = true ->
  d1 +:+ String c x = d2 +:+ String c y -> d1 = d2 /\ x = y.
Proof.
  intros Hc. revert d2. induction d1 as [|e d1 IH]; intros [|e' d2]; simpl.
  - intros _ _ [= ->]. done.
  - intros _ [He _]%andb_true_iff [= -> _]. congruence.
  - intros [He _]%andb_true_iff _ [= <- _]. congruence.
  - intros [_ H1]%andb_true_iff [_ H2]%andb_true_iff [= -> Heq].
    destruct (IH d2 H1 H2 Heq) as [-> ->]. done.
Qed.

(** The text of an integer: an optional minus sign and digits, at least one. *)
Lemma str_shape n :
  exists ds, all_digits ds = true /\ ds <> ""
             /\ str n = if (n <? 0)%Z then String "-" ds else ds.
Proof.
  destruct n as [|p|p]; simpl.
  - by exists "0".
  - exists (str (Z.pos p)). split_and!; [by apply all_digits_str|apply str_nonempty|done].
  - exists (str (Z.pos p)). split_and!; [by apply all_digits_str|apply str_nonempty|done].
Qed.

(** An integer's text followed by a non-digit can be read back. *)
Lemma str_sep_inj c a b x y :
  is_digit c = false ->
  str a +:+ String c x = str b +:+ String c y -> a = b /\ x = y.
Proof.
  intros Hc Heq.
  destruct (str_shape a) as (da & Hda & Hnea & Ha).
  destruct (str_shape b) as (db & Hdb & Hneb & Hb).
  assert (Hstr : str a = str b /\ x = y).
  { rewrite Ha, Hb in Heq |- *.
    destruct (a <? 0)%Z, (b <? 0)%Z; simpl in Heq.
    - injection Heq as Heq. destruct (digits_sep_inj _ _ _ _ _ Hc Hda Hdb Heq) as [-> ->]. done.
    - destruct db as [|e db]; [done|]. simpl in Hdb, Heq.
      apply andb_true_iff in Hdb as [He _]. injection Heq as <- _. done.
    - destruct da as [|e da]; [done|]. simpl in Hda, Heq.
      apply andb_true_iff in Hda as [He _]. injection Heq as -> _. done.
    - apply (digits_sep_inj _ _ _ _ _ Hc Hda Hdb Heq). }
  destruct Hstr as [Hs ->]. split; [by apply str_inj|done].
Qed.
End PyFacts.

(** ** Fumble attribution (import_player_stats.py) *)

Section FumbleAttribution.
Import ImportPlayerStats Examples.

(** C1. For the first fumbler, when a first recovery team is recorded, no
    second fumbler and no second recovery team are recorded, and the
    lower-cased description does not contain both 'fumbles' and
    'recovers', the attribution is 0 if the first recovery team equals the
    fumbler's team and 1 otherwise. *)
Theorem standard_case_uses_first_recovery
    (p : play) (player_id team : cell string) :
  notna (fumble_recovery_1_team p) = true ->
  isna (fumbled_2_player_id p) = true ->
  isna (fumble_recovery_2_team p) = true ->
  ~ (contains "fumbles" (lower (cell_str (desc p))) = true
     /\ contains "recovers" (lower (cell_str (desc p))) = true) ->
  calculate_fumble_lost_attribution p player_id team 1
  = Ok (if same (fumble_recovery_1_team p) team then 0 else 1).
Proof.
  intros Hr1 Hf2 Hr2 Hdesc.
  unfold calculate_fumble_lost_attribution, notna, zero_if in *.
  apply negb_true_iff in Hr1. rewrite Hr1, Hf2, Hr2. simpl.
  rewrite !andb_false_r. simpl.
  destruct (contains "fumbles" _) eqn:Hfum;
    destruct (contains "recovers" _) eqn:Hrec; simpl;
    rewrite ?andb_false_r; simpl; try reflexivity.
  exfalso. apply Hdesc. split; reflexivity.
Qed.

Lemma standard_case_uses_first_recovery_witness :
  calculate_fumble_lost_attribution standard_play (Val "00-0034857") (Val "BUF") 1
  = Ok 1.
Proof.
  apply (standard_case_uses_first_recovery standard_play (Val "00-0034857") (Val "BUF"));
    [reflexivity | reflexivity | reflexivity |].
  vm_compute. intros [_ H]. discriminate H.
Defined.

End FumbleAttribution.

(** ** Position labels (export_lineup_submissions.py, generate_restoration_sql.py) *)

Section LabelRoundTrip.
Import GenerateRestorationSql ExportLineupSubmissions.

Lemma re_match_numbered prefix n :
  0 <= n -> re_match (Numbered prefix) (prefix +:+ str n) = Some [str n].
Proof.
  intros Hn. unfold re_match. rewrite PyFacts.strip_prefix_app.
  rewrite PyFacts.take_digits_all by (apply PyFacts.all_digits_str; done).
  pose proof (PyFacts.str_nonempty n). destruct (str n); done.
Qed.

Lemma sort_func_str n : 0 <= n -> sort_func [str n] = n.
Proof. intros Hn. unfold sort_func. simpl. apply PyFacts.digits_value_str; done. Qed.

(** A numbered label is read back as its type and number. *)
Lemma parse_position_info_numbered (position_type code : string) (n : Z) :
  In (position_type, code) position_map -> 0 <= n ->
  parse_position_info (code +:+ str n) = (position_type, n).
Proof.
  intros Hin H0.
  pose proof (sort_func_str n H0) as Hs.
  unfold parse_position_info, position_mapping.
  simpl in Hin.
  destruct Hin as [[= <- <-]|[[= <- <-]|[[= <- <-]|[[= <- <-]|[[= <- <-]|[]]]]]];
    match goal with
    | |- context [?p +:+ str n] =>
        pose proof (re_match_numbered p n H0) as Hm
    end;
    revert Hm Hs; generalize (str n); intros s Hm Hs;
    cbn in Hm |- *; rewrite Hm, Hs; reflexivity.
Qed.

(** A numbered label is not one of the simple forms. *)
Lemma numbered_not_simple (position_type code : string) (n : Z) :
  In (position_type, code) position_map -> is_simple (code +:+ str n) = false.
Proof.
  intros Hin. pose proof (PyFacts.str_nonempty n) as Hne. simpl in Hin.
  destruct (str n) as [|c s]; [done|].
  destruct Hin as [[= <- <-]|[[= <- <-]|[[= <- <-]|[[= <- <-]|[[= <- <-]|[]]]]]];
    reflexivity.
Qed.

(** C5. Formatting then parsing a position label is the identity: for
    every position type the export knows (quarterback, running_back,
    receiver, place_kicker, defense) and every sort order n >= 1,
    parse_position_info (format_position_label type n) = (type, n). *)
Theorem parse_format_position_label (position_type : string) (n : Z) :
  In position_type (map fst position_map) -> 1 <= n ->
  parse_position_info (format_position_label position_type n) = (position_type, n).
Proof.
  intros Hin Hn. apply in_map_iff in Hin as ([type code] & <- & Hin). simpl.
  assert (Hget : dict_get position_map type = Some code).
  { simpl in Hin.
    destruct Hin as [[= <- <-]|[[= <- <-]|[[= <- <-]|[[= <- <-]|[[= <- <-]|[]]]]]];
      reflexivity. }
  unfold format_position_label. rewrite Hget.
  apply parse_position_info_numbered; [done|lia].
Qed.

Lemma parse_format_position_label_witness :
  parse_position_info (format_position_label "receiver" 3) = ("receiver", 3).
Proof.
  apply (parse_format_position_label "receiver" 3); [simpl; tauto | lia].
Defined.

End LabelRoundTrip.

(** ** Keepers as a difference (calculate_true_keepers.py) *)

Section TrueKeepers.
Import CalculateTrueKeepers.

Lemma calculate_keepers_fmap (week1_by_team : gmap Z (list player_info))
    (drafted_ids : gset Z) :
  calculate_keepers week1_by_team drafted_ids
  = not_drafted drafted_ids <$> week1_by_team.
Proof.
  unfold calculate_keepers.
  apply (map_fold_weak_ind (fun r m => r = not_drafted drafted_ids <$> m)).
  - by rewrite fmap_empty.
  - intros i x m r _ ->. by rewrite fmap_insert.
Qed.

Lemma elem_of_not_drafted drafted_ids players p :
  p ∈ not_drafted drafted_ids players
  <-> p ∈ players /\ player_id p ∉ drafted_ids.
Proof.
  unfold not_drafted. rewrite !list_elem_of_In, filter_In, bool_decide_eq_true. done.
Qed.

Lemma not_drafted_sublist drafted_ids players :
  sublist (not_drafted drafted_ids players) players.
Proof.
  unfold not_drafted. induction players as [|p ps IH]; simpl; [constructor|].
  destruct (bool_decide _); by constructor.
Qed.

(** C3. For every team, calculate_keepers returns the Week-1 list of the
    team without the drafted players: a player is in the team's keeper
    list if and only if the player is in the team's Week-1 list and the
    player_id is not in the drafted set, and the order of the Week-1 list
    is kept; a team without a Week-1 list gets no keeper list. *)
Theorem calculate_keepers_is_difference
    (week1_by_team : gmap Z (list player_info)) (drafted_ids : gset Z) (team_id : Z) :
  match week1_by_team !! team_id with
  | Some players =>
      exists keepers,
        calculate_keepers week1_by_team drafted_ids !! team_id = Some keepers
        /\ keepers = List.filter (fun p => bool_decide (player_id p ∉ drafted_ids)) players
        /\ (forall p, p ∈ keepers <-> p ∈ players /\ player_id p ∉ drafted_ids)
        /\ sublist keepers players
  | None => calculate_keepers week1_by_team drafted_ids !! team_id = None
  end.
Proof.
  rewrite calculate_keepers_fmap, lookup_fmap.
  destruct (week1_by_team !! team_id) as [players|]; simpl; [|done].
  exists (not_drafted drafted_ids players). split_and!; [done|done| |].
  - intros p. apply elem_of_not_drafted.
  - apply not_drafted_sublist.
Qed.

End TrueKeepers.

(** ** Missing lineup positions (restore_lineups.py) *)

Section RestoreMissing.
Import Db RestoreLineups.

Lemma head_filter_Some {A} (f : A -> bool) (l : list A) :
  is_Some (head (List.filter f l)) <-> exists x, x ∈ l /\ f x = true.
Proof.
  split.
  - intros [x Hx]. exists x.
    assert (Hin : In x (List.filter f l)).
    { destruct (List.filter f l); simplify_eq/=. by left. }
    apply filter_In in Hin as [Hin Hf]. by rewrite list_elem_of_In.
  - intros (x & Hin & Hf).
    assert (Hx : In x (List.filter f l)).
    { apply filter_In. by rewrite <- list_elem_of_In. }
    destruct (List.filter f l); [done|]. by eexists.
Qed.

Lemma head_filter_None {A} (f : A -> bool) (l : list A) :
  head (List.filter f l) = None <-> forall x, x ∈ l -> f x = false.
Proof.
  rewrite eq_None_not_Some, head_filter_Some. split.
  - intros Hno x Hin. destruct (f x) eqn:Hf; [|done]. destruct Hno; eauto.
  - intros Hall (x & Hin & Hf). rewrite (Hall x Hin) in Hf. done.
Qed.

Lemma lowest_lineup_id_Some rows : rows <> [] -> is_Some (lowest_lineup_id rows).
Proof.
  destruct rows as [|s rows]; [done|]. intros _. simpl.
  destruct (lowest_lineup_id rows) as [s'|]; [|by eexists].
  destruct (_ <? _)%Z; by eexists.
Qed.

Lemma select_submission_Some db team_id week game_type :
  is_Some (fetchone (select_submission db team_id week game_type))
  <-> exists s, s ∈ lineup_submissions db
                /\ ls_fantasy_team_id s = team_id /\ ls_week_number s = week
                /\ ls_game_type s = game_type /\ ls_season_year s = 2025.
Proof.
  unfold select_submission, fetchone.
  set (rows := List.filter _ _).
  assert (Hrows : rows <> [] <-> exists s, s ∈ lineup_submissions db
                /\ ls_fantasy_team_id s = team_id /\ ls_week_number s = week
                /\ ls_game_type s = game_type /\ ls_season_year s = 2025).
  { pose proof (head_filter_Some (submission_matches team_id week game_type 2025)
                                 (lineup_submissions db)) as Hh.
    fold rows in Hh. rewrite <- head_is_Some, Hh.
    apply exist_proper; intros s. unfold submission_matches.
    rewrite !andb_true_iff, !Z.eqb_eq, String.eqb_eq. tauto. }
  rewrite <- Hrows. split.
  - intros [s Hs] ->. simpl in Hs. done.
  - intros Hne. destruct (lowest_lineup_id_Some rows Hne) as [s ->]. by eexists.
Qed.

Lemma select_player_Some db espn :
  is_Some (fetchone (select_player db espn))
  <-> exists p, p ∈ nfl_players db /\ np_espn_id p = Some espn.
Proof.
  unfold fetchone, select_player. rewrite head_filter_Some.
  apply exist_proper; intros p. by rewrite bool_decide_eq_true.
Qed.

Lemma select_position_None db lineup_id player_id :
  fetchone (select_position db lineup_id player_id) = None
  <-> forall r, r ∈ lineup_positions db ->
                ~ (lp_lineup_id r = lineup_id /\ lp_player_id r = Some player_id).
Proof.
  unfold fetchone, select_position. rewrite head_filter_None.
  apply forall_proper; intros r. apply forall_proper; intros _.
  rewrite <- not_true_iff_false, andb_true_iff, Z.eqb_eq, bool_decide_eq_true. done.
Qed.

Lemma truthy_nonempty s : truthy s = true <-> s <> "".
Proof. destruct s; simpl; split; done. Qed.

Lemma check_lineup_restorable db lineup :
  is_Some (check_lineup db lineup) <-> Spec.restorable db lineup.
Proof.
  unfold check_lineup, Spec.restorable. split.
  - destruct (espn_id lineup) as [espn|]; [|by intros [? ?]].
    destruct (truthy espn) eqn:Ht; simpl; [|by intros [? ?]].
    destruct (fetchone (select_player db espn)) as [player|] eqn:Hp; [|by intros [? ?]].
    destruct (fetchone (select_submission _ _ _ _)) as [sub|] eqn:Hs; [|by intros [? ?]].
    destruct (fetchone (select_position _ _ _)) as [r|] eqn:Hr; [by intros [? ?]|].
    intros _. exists espn. split_and!; [done|by apply truthy_nonempty| | |].
    + apply select_player_Some. by rewrite Hp.
    + apply select_submission_Some. by rewrite Hs.
    + intros player' sub' Hp' Hs'. rewrite Hp in Hp'.
      simplify_eq. by apply select_position_None.
  - intros (espn & -> & Hne & Hp & Hs & Hr).
    apply truthy_nonempty in Hne. rewrite Hne. simpl.
    apply select_player_Some in Hp as [player Hp].
    apply select_submission_Some in Hs as [sub Hs].
    rewrite Hp, Hs. specialize (Hr player sub Hp Hs).
    apply select_position_None in Hr. rewrite Hr. by eexists.
Qed.

Lemma find_missing_loop_omap db csv_lineups acc :
  find_missing_loop db csv_lineups acc
  = (acc ++ omap (check_lineup db) csv_lineups)%list.
Proof.
  revert acc. induction csv_lineups as [|l ls IH]; intros acc; simpl.
  - by rewrite app_nil_r.
  - rewrite IH. destruct (check_lineup db l); [|done]. by rewrite <- app_assoc.
Qed.

(** C4. find_missing_players yields, in CSV order, one restoration record
    for each restorable entry (non-empty ESPN ID, a player with that ESPN
    ID in nfl_players, a lineup submission for the team, week, game type
    and season 2025, no lineup_positions row linking the two) and nothing
    for any other entry. *)
Theorem find_missing_players_restorable (db : database) (csv_lineups : list csv_lineup) :
  find_missing_players db csv_lineups = omap (check_lineup db) csv_lineups
  /\ forall lineup, is_Some (check_lineup db lineup) <-> Spec.restorable db lineup.
Proof.
  split.
  - unfold find_missing_players. by rewrite find_missing_loop_omap.
  - apply check_lineup_restorable.
Qed.

End RestoreMissing.

(** ** Importing the keeper list (import_keepers_from_csv.py) *)

Section ImportKeepers.
Import Db Csv ImportKeepersFromCsv Spec.

Lemma read_keepers_acc rows acc :
  read_keepers rows acc
  = match read_keepers rows [] with
    | Ok new => Ok (acc ++ new)%list
    | Raise => Raise
    end.
Proof.
  revert acc. induction rows as [|row rows IH]; intros acc; simpl.
  - by rewrite app_nil_r.
  - destruct (Py.int (k_Team_ID row)) as [team_id|]; simpl; [|done].
    destruct (Py.int (k_player_id row)) as [player_id|]; simpl; [|done].
    destruct (if truthy _ then _ else _) as [espn_id|]; simpl; [|done].
    rewrite (IH (acc ++ _)%list), (IH [_]).
    destruct (read_keepers rows []); [|done]. by rewrite <- app_assoc.
Qed.

(** The tuples read from the file: one per record, all of the season. *)
Lemma read_keepers_season rows keepers :
  read_keepers rows [] = Ok keepers ->
  Forall (fun r => hk_season_year r = SEASON) keepers
  /\ length keepers = length rows.
Proof.
  revert keepers. induction rows as [|row rows IH]; intros keepers; simpl.
  - intros [= <-]. by split.
  - destruct (Py.int (k_Team_ID row)) as [team_id|]; simpl; [|done].
    destruct (Py.int (k_player_id row)) as [player_id|]; simpl; [|done].
    destruct (if truthy _ then _ else _) as [espn_id|]; simpl; [|done].
    rewrite read_keepers_acc.
    destruct (read_keepers rows []) as [new|]; [|done].
    intros [= <-]. destruct (IH new eq_refl) as [Hall Hlen].
    split; [by constructor|]. simpl. by rewrite Hlen.
Qed.

(** What the batch insert leaves behind. *)
Lemma executemany_spec keepers c :
  executemany keepers c
  = (Ok tt,
     {| committed := committed c;
        pending := set_keepers (pending c) (historical_keepers (pending c) ++ keepers);
        executed := executed c
                    ++ map (fun k => {| text := insert_query; params := keeper_params k |})
                           keepers |}).
Proof.
  revert c. induction keepers as [|k ks IH]; intros c; simpl.
  - unfold ret. rewrite !app_nil_r. by destruct c as [? [] ?].
  - unfold mbind, execute. rewrite IH. simpl.
    unfold insert_keeper, set_keepers. simpl. by rewrite <- !app_assoc.
Qed.

(** The stored database after the script. *)
Lemma main_spec csv db :
  main csv db
  = match read_keepers csv [] with
    | Ok keepers =>
        set_keepers db (other_seasons (historical_keepers db) ++ keepers)
    | Raise => db
    end.
Proof.
  unfold main, import_keepers, mbind, execute, lift, commit, query, ret, connect. simpl.
  destruct (read_keepers csv []) as [keepers|]; simpl; [|done].
  rewrite executemany_spec. simpl. done.
Qed.

Lemma other_seasons_app rows new :
  Forall (fun r => hk_season_year r = SEASON) new ->
  other_seasons (rows ++ new) = other_seasons rows.
Proof.
  intros Hall. unfold other_seasons. rewrite List.filter_app.
  replace (List.filter _ new) with (@nil historical_keeper); [by rewrite app_nil_r|].
  induction Hall as [|r new Hr _ IH]; simpl; [done|].
  rewrite Hr, Z.eqb_refl. done.
Qed.

Lemma other_seasons_idemp rows : other_seasons (other_seasons rows) = other_seasons rows.
Proof.
  unfold other_seasons. induction rows as [|r rows IH]; simpl; [done|].
  destruct (negb _) eqn:Hr; simpl; [|done]. by rewrite Hr, IH.
Qed.

Lemma other_seasons_sublist rows : sublist (other_seasons rows) rows.
Proof.
  unfold other_seasons. induction rows as [|r rows IH]; simpl; [constructor|].
  destruct (negb _); by constructor.
Qed.

(** C6. import_keepers deletes only historical_keepers rows of season
    2025 and inserts only rows of season 2025: in the database the cursor
    sees and in the stored one, the rows of every other season are the
    ones that were there, in their order, every other table is the same,
    and what was added has season_year 2025. *)
Theorem import_keepers_touches_only_its_season (csv : list keeper_row) (db : database) :
  let c := snd (import_keepers csv (connect db)) in
  only_season_changed db (pending c) /\ only_season_changed db (committed c).
Proof.
  assert (Hkept : forall r, r ∈ historical_keepers db -> hk_season_year r <> SEASON ->
                            r ∈ other_seasons (historical_keepers db)).
  { intros r Hin Hr. unfold other_seasons. rewrite list_elem_of_In, filter_In.
    rewrite <- list_elem_of_In. split; [done|]. apply negb_true_iff, Z.eqb_neq. done. }
  assert (Hdel : forall new, Forall (fun r => hk_season_year r = SEASON) new ->
            only_season_changed db
              (set_keepers db (other_seasons (historical_keepers db) ++ new))).
  { intros new Hall. unfold only_season_changed. simpl. split_and!; try done.
    - by rewrite other_seasons_app, other_seasons_idemp.
    - exists (other_seasons (historical_keepers db)), new.
      split_and!; [done|apply other_seasons_sublist|done|done]. }
  assert (Hsame : only_season_changed db db).
  { unfold only_season_changed. split_and!; try done.
    exists (historical_keepers db), []. rewrite app_nil_r. split_and!; done. }
  unfold import_keepers, mbind, execute, lift, commit, query, ret, connect. simpl.
  destruct (read_keepers csv []) as [keepers|] eqn:Hread; simpl.
  - rewrite executemany_spec. simpl.
    destruct (read_keepers_season _ _ Hread) as [Hall _].
    split; by apply Hdel.
  - split; [|done]. specialize (Hdel [] (List.Forall_nil _)).
    rewrite app_nil_r in Hdel. exact Hdel.
Qed.

(** C7. Running the import twice with the same file leaves the database
    as running it once; when the file is read without error the stored
    historical_keepers are the rows of the other seasons followed by one
    row per CSV record, whatever season-2025 keepers existed before. *)
Theorem import_keepers_idempotent (csv : list keeper_row) (db : database) :
  main csv (main csv db) = main csv db
  /\ forall keepers, read_keepers csv [] = Ok keepers ->
       length keepers = length csv
       /\ forall db',
            other_seasons (historical_keepers db') = other_seasons (historical_keepers db) ->
            historical_keepers (main csv db')
            = (other_seasons (historical_keepers db) ++ keepers)%list.
Proof.
  split.
  - rewrite !main_spec. destruct (read_keepers csv []) as [keepers|] eqn:Hread; [|done].
    destruct (read_keepers_season _ _ Hread) as [Hall _].
    unfold set_keepers; simpl. by rewrite other_seasons_app, other_seasons_idemp.
  - intros keepers Hread. destruct (read_keepers_season _ _ Hread) as [_ Hlen].
    split; [done|]. intros db' Hsame. rewrite main_spec, Hread. simpl. by rewrite Hsame.
Qed.

End ImportKeepers.

(** ** Bonus lineups without bonus games (import_lineups_to_positions.py) *)

Section BonusLineups.
Import Db ImportLineupsToPositions Spec Examples.

Lemma cache_key_inj w s w' s' : cache_key w s = cache_key w' s' -> w = w' /\ s = s'.
Proof.
  unfold cache_key. intros H.
  apply (PyFacts.str_sep_inj "-") in H as [-> H]; [|done].
  split; [done|]. by apply PyFacts.str_inj.
Qed.

(** A process starts with an empty cache. *)
Lemma cache_consistent_empty d :
  cache_consistent {| db := d; weeks_with_bonus_games := ∅ |}.
Proof. intros w s b. simpl. by rewrite lookup_empty. Qed.

Lemma check_week_has_bonus_games_spec st week season_year :
  cache_consistent st ->
  let '(has_bonus, st') := check_week_has_bonus_games st week season_year in
  has_bonus = (0 <? count_bonus_games (db st) week season_year)%Z
  /\ db st' = db st /\ cache_consistent st'.
Proof.
  intros Hc. unfold check_week_has_bonus_games.
  destruct (weeks_with_bonus_games st !! cache_key week season_year) as [b|] eqn:Hb.
  - split_and!; [by apply Hc|done|done].
  - split_and!; [done|done|]. intros w s b. simpl.
    destruct (decide (cache_key week season_year = cache_key w s)) as [Heq|Hne].
    + rewrite Heq, lookup_insert_eq. apply cache_key_inj in Heq as [-> ->]. by intros [= <-].
    + rewrite lookup_insert_ne by done. apply Hc.
Qed.

Lemma get_or_create_lineup_submission_spec st team_id week game_type season_year :
  cache_consistent st ->
  let '(lineup_id, st') :=
    get_or_create_lineup_submission st team_id week game_type season_year in
  (lineup_id = None
   <-> game_type = "bonus" /\ count_bonus_games (db st) week season_year = 0)
  /\ (lineup_id = None -> db st' = db st)
  /\ weekly_schedule (db st') = weekly_schedule (db st)
  /\ cache_consistent st'.
Proof.
  intros Hc. unfold get_or_create_lineup_submission.
  assert (Hcount : forall b, b = (0 <? count_bonus_games (db st) week season_year)%Z ->
            negb b = true <-> count_bonus_games (db st) week season_year = 0).
  { intros b ->. rewrite negb_true_iff, Z.ltb_ge. unfold count_bonus_games. lia. }
  destruct (String.eqb game_type "bonus") eqn:Hgt.
  - apply String.eqb_eq in Hgt as ->.
    pose proof (check_week_has_bonus_games_spec st week season_year Hc) as Hchk.
    destruct (check_week_has_bonus_games st week season_year) as [has_bonus st1].
    destruct Hchk as (Hhas & Hdb & Hc1). specialize (Hcount _ Hhas).
    destruct (negb has_bonus) eqn:Hskip.
    + split_and!; [|done|by rewrite Hdb|done]. split; [|done]. intros _. split; [done|].
      by apply Hcount.
    + assert (Hno : ~ count_bonus_games (db st) week season_year = 0).
      { intros H0. apply Hcount in H0. done. }
      destruct (head _) as [row|]; simpl.
      * split_and!; [|done|by rewrite Hdb|done]. split; [done|]. intros [_ ?]. done.
      * split_and!; [|done|by rewrite Hdb|]. { split; [done|]. intros [_ ?]. done. }
        intros w s b Hb. exact (Hc1 w s b Hb).
  - apply String.eqb_neq in Hgt.
    destruct (head _) as [row|]; simpl.
    + split_and!; [|done|done|done]. split; [done|]. intros [? _]. done.
    + split_and!; [|done|done|]. { split; [done|]. intros [? _]. done. }
      intros w s b Hb. exact (Hc w s b Hb).
Qed.

Lemma fold_insert_position_schedule lineup_id positions d n :
  weekly_schedule
    (fst (fold_left (fun acc p => (insert_position lineup_id p (fst acc), snd acc + 1))
                    positions (d, n)))
  = weekly_schedule d.
Proof.
  revert d n. induction positions as [|p ps IH]; intros d n; simpl; [done|].
  by rewrite IH.
Qed.

(** One pass of the insert loop keeps the schedule and the agreement of
    the cache with it. *)
Lemma import_group_consistent pr group :
  cache_consistent (cur pr) ->
  weekly_schedule (db (cur (import_group pr group))) = weekly_schedule (db (cur pr))
  /\ cache_consistent (cur (import_group pr group)).
Proof.
  intros Hc. destruct group as [[[team_id week] game_type] positions].
  unfold import_group.
  pose proof (get_or_create_lineup_submission_spec (cur pr) team_id week game_type
                season_year Hc) as Hg.
  destruct (get_or_create_lineup_submission _ _ _ _ _) as [[lineup_id|] st].
  - destruct Hg as (_ & _ & Hws & Hc').
    destruct (fold_left _ positions _) as [d n] eqn:Hfold. simpl.
    assert (Hd : weekly_schedule d = weekly_schedule (db st)).
    { pose proof (fold_insert_position_schedule lineup_id positions
                    (delete_positions lineup_id (db st)) (inserted pr)) as H.
      rewrite Hfold in H. done. }
    split; [by rewrite Hd|].
    intros w s b Hb. simpl in *. rewrite (Hc' w s b Hb).
    unfold count_bonus_games. by rewrite Hd.
  - destruct Hg as (_ & _ & Hws & Hc'). simpl. done.
Qed.

Lemma import_groups_consistent groups pr :
  cache_consistent (cur pr) ->
  weekly_schedule (db (cur (fold_left import_group groups pr)))
  = weekly_schedule (db (cur pr))
  /\ cache_consistent (cur (fold_left import_group groups pr)).
Proof.
  revert pr. induction groups as [|g gs IH]; intros pr Hc; simpl; [done|].
  destruct (import_group_consistent pr g Hc) as [Hws Hc'].
  destruct (IH _ Hc') as [Hws' Hc'']. split; [congruence|done].
Qed.

(** The caller's side of a [None]. *)
Lemma import_group_skips pr team_id week game_type positions :
  cache_consistent (cur pr) ->
  game_type = "bonus" /\ count_bonus_games (db (cur pr)) week season_year = 0 ->
  let pr' := import_group pr ((team_id, week, game_type), positions) in
  db (cur pr') = db (cur pr)
  /\ inserted pr' = inserted pr /\ updated_lineups pr' = updated_lineups pr.
Proof.
  intros Hc Hskip. unfold import_group.
  pose proof (get_or_create_lineup_submission_spec (cur pr) team_id week game_type
                season_year Hc) as Hg.
  destruct (get_or_create_lineup_submission _ _ _ _ _) as [lineup_id st'].
  destruct Hg as (Hnone & Hdb & _). apply Hnone in Hskip as ->. simpl.
  rewrite (Hdb eq_refl). done.
Qed.

(** In a run of the whole loop from a fresh process, a bonus group of a
    week without bonus games changes nothing, wherever it comes. *)
Lemma import_groups_skip d before team_id week positions :
  count_bonus_games d week season_year = 0 ->
  let st := {| db := d; weeks_with_bonus_games := ∅ |} in
  let pr := import_groups st before in
  let pr' := import_groups st (before ++ [((team_id, week, "bonus"), positions)]) in
  db (cur pr') = db (cur pr)
  /\ inserted pr' = inserted pr /\ updated_lineups pr' = updated_lineups pr.
Proof.
  intros Hcount st pr pr'. subst pr'. unfold import_groups. rewrite fold_left_app. simpl.
  fold (import_groups st before). fold pr.
  destruct (import_groups_consistent before {| cur := st; inserted := 0; updated_lineups := 0 |}
              (cache_consistent_empty d)) as [Hws Hc].
  fold (import_groups st before) in Hws, Hc. fold pr in Hws, Hc. simpl in Hws.
  assert (Hcount' : count_bonus_games (db (cur pr)) week season_year = 0).
  { unfold count_bonus_games in *. by rewrite Hws. }
  apply (import_group_skips pr team_id week "bonus" positions Hc (conj eq_refl Hcount')).
Qed.

(** C8. With the cache in agreement with the schedule,
    get_or_create_lineup_submission returns None exactly when the
    game_type is 'bonus' and weekly_schedule has no bonus game for the week
    and season; the caller then skips the group: the database, and with it
    lineup_submissions and lineup_positions, is as before, and so are the
    two counters. *)
Theorem bonus_lineup_without_bonus_games_is_skipped
    (st : state) (team_id week : Z) (game_type : string) :
  cache_consistent st ->
  (forall season_year,
      fst (get_or_create_lineup_submission st team_id week game_type season_year) = None
      <-> game_type = "bonus" /\ count_bonus_games (db st) week season_year = 0)
  /\ (forall pr positions,
        cur pr = st ->
        game_type = "bonus" /\ count_bonus_games (db st) week season_year = 0 ->
        let pr' := import_group pr ((team_id, week, game_type), positions) in
        db (cur pr') = db st
        /\ lineup_submissions (db (cur pr')) = lineup_submissions (db st)
        /\ lineup_positions (db (cur pr')) = lineup_positions (db st)
        /\ inserted pr' = inserted pr
        /\ updated_lineups pr' = updated_lineups pr).
Proof.
  intros Hc. split.
  - intros season_year.
    pose proof (get_or_create_lineup_submission_spec st team_id week game_type
                  season_year Hc) as Hg.
    destruct (get_or_create_lineup_submission _ _ _ _ _) as [lineup_id st'].
    simpl. tauto.
  - intros pr positions <- Hskip.
    destruct (import_group_skips pr team_id week game_type positions Hc Hskip)
      as (Hdb & Hins & Hupd).
    cbv zeta in Hdb, Hins, Hupd |- *. rewrite Hdb. done.
Qed.

Lemma bonus_lineup_without_bonus_games_is_skipped_witness :
  fst (get_or_create_lineup_submission fresh_state 3 2 "bonus" season_year) = None
  /\ db (cur (import_group {| cur := fresh_state; inserted := 0; updated_lineups := 0 |}
                           ((3, 2, "bonus"), [])))
     = sample_db.
Proof.
  assert (Hfresh : cache_consistent fresh_state).
  { intros w s b H. simpl in H. rewrite lookup_empty in H. discriminate H. }
  destruct (bonus_lineup_without_bonus_games_is_skipped fresh_state 3 2 "bonus" Hfresh)
    as [Hnone Hskip].
  split.
  - apply Hnone. split; reflexivity.
  - apply (Hskip {| cur := fresh_state; inserted := 0; updated_lineups := 0 |} []);
      [reflexivity | split; reflexivity].
Defined.

End BonusLineups.

(** ** Sort orders of the simple labels (generate_restoration_sql.py) *)

Section SortOrders.
Import Csv GenerateRestorationSql Spec Examples.

Lemma counter_key_inj t w p t' w' p' :
  counter_key t w p = counter_key t' w' p' -> t = t' /\ w = w' /\ p = p'.
Proof.
  unfold counter_key. intros H.
  apply (PyFacts.str_sep_inj "_") in H as [-> H]; [|done].
  apply (PyFacts.str_sep_inj "_") in H as [-> ->]; done.
Qed.

Lemma slot_count_app t w p l1 l2 :
  slot_count t w p (l1 ++ l2) = slot_count t w p l1 + slot_count t w p l2.
Proof. unfold slot_count. rewrite List.filter_app, length_app. lia. Qed.

Lemma load_invariant_init : load_invariant ([], ∅).
Proof.
  split_and!; simpl.
  - intros t w p. by rewrite lookup_empty.
  - intros i l Hl. by rewrite lookup_nil in Hl.
  - intros l Hl. by apply not_elem_of_nil in Hl.
Qed.

Lemma load_invariant_append lineups counters counters' l :
  load_invariant (lineups, counters) ->
  (forall t w p, default 0 (counters' !! counter_key t w p)
                 = slot_count t w p lineups + slot_count t w p [l]) ->
  (is_simple (position_label l) = true ->
     sort_order l = slot_count (team_id l) (week l) (position_type l) lineups + 1) ->
  (is_simple (position_label l) = false ->
     (position_type l, sort_order l) = parse_position_info (position_label l)) ->
  load_invariant ((lineups ++ [l])%list, counters').
Proof.
  intros (I1 & I2 & I3) Hcnt Hsimple Hnum. split_and!; simpl in *.
  - intros t w p. by rewrite slot_count_app.
  - intros i l' Hl' Hs. destruct (decide (i < length lineups)%nat) as [Hlt|Hge].
    + rewrite lookup_app_l in Hl' by done.
      rewrite take_app_le by lia. by apply I2.
    + rewrite lookup_app_r in Hl' by lia.
      destruct (i - length lineups)%nat eqn:Hi;
        [|simpl in Hl'; by rewrite lookup_nil in Hl'].
      simpl in Hl'. injection Hl' as <-.
      rewrite take_ge by (rewrite length_app; simpl; lia).
      rewrite slot_count_app, (Hsimple Hs). f_equal.
      unfold slot_count, in_slot. simpl. rewrite Hs, !Z.eqb_refl, String.eqb_refl. done.
  - intros l' [Hin| ->%list_elem_of_singleton]%elem_of_app; [by apply I3|done].
Qed.

Lemma slot_count_singleton t w p l :
  slot_count t w p [l] = if in_slot t w p l then 1 else 0.
Proof. unfold slot_count. simpl. by destruct (in_slot t w p l). Qed.

Lemma load_row_invariant row st st' :
  load_row row st = Ok st' -> load_invariant st -> load_invariant st'.
Proof.
  destruct st as [lineups counters]. unfold load_row.
  destruct (String.eqb (Position row) "HeadCoach"); [by intros [= <-]|].
  destruct (Py.int (Team_ID row)) as [t|]; simpl; [|done].
  destruct (Py.int (Week row)) as [w|]; simpl; [|done].
  destruct (parse_position_info (Position row)) as [ptype so] eqn:Hparse.
  destruct (is_simple (Position row)) eqn:Hsimple; intros [= <-] Hinv.
  - pose proof Hinv as (I1 & _ & _). simpl in I1.
    apply (load_invariant_append lineups counters); simpl; [done| |by rewrite I1|by rewrite Hsimple].
    intros t' w' p'.
    destruct (decide (counter_key t w ptype = counter_key t' w' p')) as [Heq|Hne].
    + rewrite Heq, lookup_insert_eq. simpl.
      apply counter_key_inj in Heq as (<- & <- & <-). rewrite I1. f_equal.
      rewrite slot_count_singleton. unfold in_slot. cbn [position_label team_id week position_type].
      by rewrite Hsimple, !Z.eqb_refl, String.eqb_refl.
    + rewrite lookup_insert_ne by done. rewrite I1, slot_count_singleton.
      unfold in_slot. cbn [position_label team_id week position_type].
      rewrite Hsimple. cbn [andb].
      destruct (_ && _ && _) eqn:Hslot; [|lia].
      exfalso. apply Hne.
      apply andb_true_iff in Hslot as [[->%Z.eqb_eq ->%Z.eqb_eq]%andb_true_iff
                                         ->%String.eqb_eq].
      done.
  - pose proof Hinv as (I1 & _ & _). simpl in I1.
    apply (load_invariant_append lineups counters); simpl; [done| |by rewrite Hsimple|done].
    intros t' w' p'. rewrite I1, slot_count_singleton.
    unfold in_slot. cbn [position_label team_id week position_type].
    rewrite Hsimple. cbn [andb]. lia.
Qed.

Lemma load_rows_invariant rows st st' :
  load_rows rows st = Ok st' -> load_invariant st -> load_invariant st'.
Proof.
  revert st. induction rows as [|row rows IH]; intros st; simpl.
  - by intros [= <-].
  - destruct (load_row row st) as [st1|] eqn:Hrow; simpl; [|done].
    intros Hrows Hinv. apply (IH st1 Hrows). by apply (load_row_invariant row st).
Qed.

(** C9. In the list load_csv_with_sort_order returns, an entry with one
    of the simple labels QB, RB, RC, PK, DEF has as sort_order its rank,
    counted from 1, among the entries with a simple label and the same
    team_id, week and position type, in CSV order; an entry with a
    numbered label such as QB2 has the number of the label. *)
Theorem simple_labels_sort_order_is_rank (rows : list lineup_row) (lineups : list lineup) :
  load_csv_with_sort_order rows = Ok lineups ->
  (forall i l,
      lineups !! i = Some l -> is_simple (position_label l) = true ->
      sort_order l
      = slot_count (team_id l) (week l) (position_type l) (take (S i) lineups)
      /\ 1 <= sort_order l)
  /\ (forall l position_type code n,
        l ∈ lineups -> In (position_type, code) ExportLineupSubmissions.position_map ->
        0 <= n -> position_label l = code +:+ str n ->
        sort_order l = n)
  /\ (forall l,
        l ∈ lineups -> is_simple (position_label l) = false ->
        sort_order l = snd (parse_position_info (position_label l))).
Proof.
  unfold load_csv_with_sort_order.
  destruct (load_rows rows ([], ∅)) as [st|] eqn:Hload; simpl; [|done].
  intros [= <-].
  destruct (load_rows_invariant rows _ _ Hload load_invariant_init) as (_ & I2 & I3).
  split_and!.
  - intros i l Hl Hs. split; [by apply I2|].
    rewrite (I2 i l Hl Hs).
    assert (Hin : In l (List.filter (in_slot (team_id l) (week l) (position_type l))
                                    (take (S i) (fst st)))).
    { apply filter_In. split.
      - apply list_elem_of_In, list_elem_of_lookup. exists i.
        rewrite lookup_take_lt by lia. done.
      - unfold in_slot. by rewrite Hs, !Z.eqb_refl, String.eqb_refl. }
    unfold slot_count. destruct (List.filter _ _); [done|]. simpl. lia.
  - intros l ptype code n Hl Hcode Hn Hlabel.
    assert (Hns : is_simple (position_label l) = false).
    { rewrite Hlabel. by apply (numbered_not_simple ptype). }
    pose proof (I3 l Hl Hns) as Hp.
    rewrite Hlabel, (parse_position_info_numbered ptype code n Hcode Hn) in Hp.
    by injection Hp.
  - intros l Hl Hns. by rewrite <- (I3 l Hl Hns).
Qed.

Lemma simple_labels_sort_order_is_rank_witness :
  sort_order hurts
  = slot_count (team_id hurts) (week hurts) (position_type hurts) (take 3 week2_lineups)
  /\ 1 <= sort_order hurts.
Proof.
  assert (Hload : load_csv_with_sort_order week2_rows = Ok week2_lineups)
    by (vm_compute; reflexivity).
  destruct (simple_labels_sort_order_is_rank week2_rows week2_lineups Hload) as [Hrank _].
  apply (Hrank 2%nat hurts); reflexivity.
Defined.


End SortOrders.

(** ** Missing keepers per team (find_missing_keepers.py) *)

Section MissingKeepers.
Import FindMissingKeepers Spec.

Context (current_keepers : gmap Z (list keeper)) (drafted_players : gset Z)
        (week1_lineups : gmap Z (list player)).

#[local] Abbreviation proposal_of :=
  (proposal current_keepers drafted_players week1_lineups).
#[local] Abbreviation entry := (entry_of current_keepers drafted_players week1_lineups).

Lemma analyse_team_spec total missing_by_team team_id expected :
  expected_count EXPECTED_COUNTS team_id = Ok expected ->
  analyse_team current_keepers drafted_players week1_lineups
               (total, missing_by_team) team_id
  = Ok match proposal_of team_id expected with
       | Some proposed =>
           (total + Z.of_nat (length proposed),
            (missing_by_team ++ [(team_id, proposed)])%list)
       | None => (total, missing_by_team)
       end.
Proof.
  intros He. unfold analyse_team, proposal, slice_to. rewrite He. simpl.
  destruct (0 <? _)%Z; [|done].
  destruct (potential_missing _ _ _); done.
Qed.

Lemma analyse_teams_spec team_ids total missing_by_team :
  Forall (fun t => exists e, expected_count EXPECTED_COUNTS t = Ok e) team_ids ->
  analyse_teams current_keepers drafted_players week1_lineups team_ids
                (total, missing_by_team)
  = Ok (total + Z.of_nat (length (all_missing (omap entry team_ids))),
        (missing_by_team ++ omap entry team_ids)%list).
Proof.
  intros Hall. revert total missing_by_team.
  induction Hall as [|t ts [e He] _ IH]; intros total missing_by_team;
    cbn [analyse_teams omap list_omap].
  - simpl. by rewrite Z.add_0_r, app_nil_r.
  - rewrite (analyse_team_spec _ _ _ _ He). cbn [bind].
    assert (Hentry : entry t = pair t <$> proposal_of t e).
    { unfold entry_of. by rewrite He. }
    rewrite Hentry.
    destruct (proposal_of t e) as [proposed|]; cbn [fmap option_fmap option_map].
    + rewrite IH. f_equal. f_equal.
      * unfold all_missing. simpl. rewrite length_app, length_map. lia.
      * by rewrite <- app_assoc.
    + by rewrite IH.
Qed.

Lemma entry_key team_id e : entry team_id = Some e -> fst e = team_id.
Proof.
  unfold entry_of. destruct (expected_count _ _); [|done].
  destruct (proposal_of _ _); simpl; [|done]. by intros [= <-].
Qed.

Lemma omap_entry_keys team_ids k :
  In k (map fst (omap entry team_ids)) -> k ∈ team_ids /\ is_Some (entry k).
Proof.
  induction team_ids as [|t ts IH]; simpl; [done|].
  destruct (entry t) as [e|] eqn:He; simpl.
  - intros [<-|Hin].
    + rewrite (entry_key _ _ He). split; [left|by rewrite He].
    + destruct (IH Hin). split; [by right|done].
  - intros Hin. destruct (IH Hin). split; [by right|done].
Qed.

Lemma proposed_for_absent missing_by_team team_id :
  ~ In team_id (map fst missing_by_team) -> proposed_for missing_by_team team_id = [].
Proof.
  induction missing_by_team as [|[t ps] rest IH]; simpl; [done|].
  intros Hnot. destruct (Z.eqb_spec t team_id) as [->|Hne]; [tauto|].
  apply IH. tauto.
Qed.

Lemma proposed_for_omap team_ids team_id :
  NoDup team_ids -> team_id ∈ team_ids ->
  proposed_for (omap entry team_ids) team_id
  = match entry team_id with Some e => snd e | None => [] end
  /\ (In team_id (map fst (omap entry team_ids)) <-> is_Some (entry team_id)).
Proof.
  intros Hnd. induction Hnd as [|t ts Hnotin Hnd IH]; [by intros ?%not_elem_of_nil|].
  intros Hin. cbn [omap list_omap].
  destruct (decide (t = team_id)) as [->|Hne].
  - assert (Hno : ~ In team_id (map fst (omap entry ts))).
    { intros [? _]%omap_entry_keys. done. }
    destruct (entry team_id) as [[k ps]|] eqn:He; simpl.
    + pose proof (entry_key _ _ He) as Hk. simpl in Hk. subst k.
      rewrite Z.eqb_refl. split; [done|]. split; [by eexists|by left].
    + rewrite (proposed_for_absent _ _ Hno). split; [done|].
      split; [done|by intros [? ?]].
  - apply elem_of_cons in Hin as [->|Hin]; [done|].
    destruct (IH Hin) as [IH1 IH2].
    destruct (entry t) as [[k ps]|] eqn:He; simpl; [|done].
    pose proof (entry_key _ _ He) as Hk. simpl in Hk. subst k.
    destruct (Z.eqb_spec t team_id) as [?|_]; [done|].
    split; [done|]. rewrite <- IH2. split; [intros [?|?]; done|by right].
Qed.

Lemma team_range_expected :
  Forall (fun t => exists e, expected_count EXPECTED_COUNTS t = Ok e) team_range.
Proof. repeat constructor; eexists; reflexivity. Qed.

Lemma team_range_NoDup : NoDup team_range.
Proof. apply (@bool_decide_unpack _ (NoDup_dec team_range)). vm_compute. exact I. Qed.

(** C10. The analysis returns, and for every team it proposes at most
    max(0, expected - current) missing keepers: with current >= expected
    nothing is recorded for the team, and otherwise its candidates
    (Week-1 players neither among the current keepers nor drafted) are cut
    to the first expected - current; the INSERT lines are written from
    exactly these proposals, total_missing of them. *)
Theorem proposals_bounded_by_shortfall :
  exists total_missing missing_by_team,
    find_missing current_keepers drafted_players week1_lineups
    = Ok (total_missing, missing_by_team)
    /\ total_missing = Z.of_nat (length (all_missing missing_by_team))
    /\ forall team_id expected,
         team_id ∈ team_range ->
         expected_count EXPECTED_COUNTS team_id = Ok expected ->
         let current_count := Z.of_nat (length (getlist current_keepers team_id)) in
         let candidates :=
           potential_missing (getlist current_keepers team_id) drafted_players
                             (getlist week1_lineups team_id) in
         let proposed := proposed_for missing_by_team team_id in
         Z.of_nat (length proposed) <= Z.max 0 (expected - current_count)
         /\ (expected <= current_count ->
               ~ In team_id (map fst missing_by_team) /\ proposed = [])
         /\ (current_count < expected ->
               proposed = take (Z.to_nat (expected - current_count)) candidates).
Proof.
  unfold find_missing. rewrite (analyse_teams_spec _ _ _ team_range_expected).
  eexists _, _. split; [reflexivity|]. split; [simpl; lia|].
  intros team_id expected Hin He. rewrite app_nil_l.
  set (current_count := Z.of_nat (length (getlist current_keepers team_id))).
  set (candidates := potential_missing _ _ _).
  destruct (proposed_for_omap team_range team_id team_range_NoDup Hin) as [-> Hkey].
  rewrite Hkey. unfold entry_of. rewrite He. unfold proposal.
  fold current_count. fold candidates.
  destruct (Z.ltb_spec 0 (expected - current_count)) as [Hlt|Hge].
  - destruct candidates as [|p ps] eqn:Hc; simpl.
    + split_and!; [lia|lia|]. intros _. by rewrite take_nil.
    + split_and!; [|lia|done]. rewrite length_take. simpl length. lia.
  - simpl. split_and!; [lia| |lia]. intros _. split; [by intros [? ?]|done].
Qed.

End MissingKeepers.

(** ** Statement texts and bound values *)

Section Statements.
Import Db Spec.

Lemma startswith_app s t : startswith (s +:+ t) s = true.
Proof. unfold startswith. by rewrite PyFacts.strip_prefix_app. Qed.

Lemma contains_here needle rest : contains needle (needle +:+ rest) = true.
Proof.
  destruct (needle +:+ rest) eqn:Heq; simpl; rewrite <- Heq, startswith_app; done.
Qed.

Lemma contains_later needle before hay :
  contains needle hay = true -> contains needle (before +:+ hay) = true.
Proof.
  intros H. induction before as [|c before IH]; simpl; [done|].
  rewrite IH. apply orb_true_r.
Qed.

Lemma contains_end needle : contains needle needle = true.
Proof.
  destruct needle eqn:Heq; simpl; [done|]. rewrite <- Heq.
  unfold startswith.
  replace (strip_prefix needle needle) with (Some "").
  { done. }
  clear. induction needle as [|c s IH]; simpl; [done|]. by rewrite Ascii.eqb_refl.
Qed.

Lemma strip_prefix_app_l p s t r :
  strip_prefix p s = Some r -> strip_prefix p (s +:+ t) = Some (r +:+ t).
Proof.
  revert s. induction p as [|a p IH]; intros s; simpl; [by intros [= ->]|].
  destruct s as [|b s]; [done|]. simpl. destruct (Ascii.eqb a b); [apply IH|done].
Qed.

Lemma contains_before needle hay after :
  contains needle hay = true -> contains needle (hay +:+ after) = true.
Proof.
  assert (Hs : forall h, startswith h needle = true ->
                         startswith (h +:+ after) needle = true).
  { intros h. unfold startswith.
    destruct (strip_prefix needle h) as [r|] eqn:Hr; [|done].
    by rewrite (strip_prefix_app_l _ _ after _ Hr). }
  induction hay as [|c hay IH].
  - cbn [contains]. rewrite orb_false_r. intros H%Hs.
    change ("" +:+ after) with after in *.
    destruct after; cbn [contains]; rewrite H; done.
  - cbn [contains]. intros [H%Hs|H%IH]%orb_true_iff.
    + change (String c hay +:+ after) with (String c (hay +:+ after)) in *.
      cbn [contains]. rewrite H. done.
    + change (String c hay +:+ after) with (String c (hay +:+ after)).
      cbn [contains]. rewrite H. apply orb_true_r.
Qed.

Ltac find_part :=
  first [ apply contains_end
        | apply contains_here
        | apply contains_later; find_part ].

Section Restoration.
Import GenerateRestorationSql.

Lemma values_row_shows l :
  Forall (fun v => contains v (values_row l) = true) (lineup_values l).
Proof. unfold values_row, lineup_values. repeat constructor; find_part. Qed.

Lemma join_shows sep x l v :
  In x l -> contains v x = true -> contains v (join sep l) = true.
Proof.
  intros Hin Hv. induction l as [|y l IH]; [done|].
  destruct Hin as [->|Hin].
  - destruct l; simpl; [done|]. by apply contains_before.
  - specialize (IH Hin). destruct l as [|z l]; [done|].
    change (join sep (y :: z :: l)) with (y +:+ sep +:+ join sep (z :: l)).
    by do 2 apply contains_later.
Qed.

Lemma restoration_insert_shows all_lineups l :
  In l all_lineups ->
  Forall (fun v => contains v (text (insert_statement all_lineups)) = true)
         (lineup_values l).
Proof.
  intros Hin. eapply Forall_impl; [apply values_row_shows|].
  intros v Hv. unfold insert_statement. cbn [text].
  do 2 apply contains_later. apply contains_before.
  apply (join_shows _ (values_row l)); [|done]. by apply in_map.
Qed.

End Restoration.

Section KeeperFile.
Import CalculateTrueKeepers.

Lemma keeper_line_shows n i k :
  Forall (fun v => contains v (keeper_line n i k) = true) (keeper_values k).
Proof. unfold keeper_line, keeper_values. repeat constructor; find_part. Qed.

Lemma keeper_lines_shows n i ks k v :
  In k ks -> (forall j, contains v (keeper_line n j k) = true) ->
  contains v (keeper_lines n i ks) = true.
Proof.
  intros Hin Hv. revert i. induction ks as [|k' ks IH]; intros i; [done|].
  cbn [keeper_lines]. destruct Hin as [->|Hin].
  - apply contains_before, Hv.
  - apply contains_later, IH, Hin.
Qed.

Lemma keepers_insert_shows all_keepers k :
  In k all_keepers ->
  Forall (fun v => contains v (text (insert_statement all_keepers)) = true)
         (keeper_values k).
Proof.
  intros Hin.
  assert (Hall : forall j, Forall (fun v => contains v (keeper_line (length all_keepers) j k) = true)
                                  (keeper_values k)) by (intros j; apply keeper_line_shows).
  unfold insert_statement. cbn [text].
  induction (keeper_values k) as [|v vs IH]; constructor.
  - do 6 apply contains_later. apply (keeper_lines_shows _ _ _ k); [done|].
    intros j. specialize (Hall j). by inversion Hall.
  - apply IH. intros j. specialize (Hall j). by inversion Hall.
Qed.

End KeeperFile.

Section Executed.
Import ImportKeepersFromCsv.

(** What the cursor of import_keepers was given. *)
Lemma import_keepers_executed csv db :
  executed (snd (import_keepers csv (connect db)))
  = match read_keepers csv [] with
    | Ok keepers =>
        (delete_query
         :: map (fun k => {| text := insert_query; params := keeper_params k |}) keepers
         ++ [verify_query])%list
    | Raise => [delete_query]
    end.
Proof.
  unfold import_keepers, mbind, execute, lift, commit, query, ret, connect. simpl.
  destruct (read_keepers csv []) as [keepers|]; simpl; [|done].
  rewrite executemany_spec. simpl. done.
Qed.

End Executed.

(** C2, as the scripts have it. The statements given to the cursor are
    parameterized: import_keepers executes its DELETE, one INSERT per
    keeper with the fixed text of insert_query and the keeper's values as
    bound parameters, and the verification SELECT; the ESPN-ID lookup of
    generate_sql has one text for every player_id. The INSERT statements
    written to .sql files by generate_restoration_sql and by generate_sql
    of calculate_true_keepers have no bound parameters: the text shows the
    values of every row (quotes in the two names backslash-escaped in the
    former). *)
Theorem executed_parameterized_generated_embedded :
  (forall csv db,
      executed (snd (ImportKeepersFromCsv.import_keepers csv (connect db)))
      = match ImportKeepersFromCsv.read_keepers csv [] with
        | Ok keepers =>
            (ImportKeepersFromCsv.delete_query
             :: map (fun k => {| text := ImportKeepersFromCsv.insert_query;
                                 params := ImportKeepersFromCsv.keeper_params k |})
                    keepers
             ++ [ImportKeepersFromCsv.verify_query])%list
        | Raise => [ImportKeepersFromCsv.delete_query]
        end)
  /\ parameterized (fun k => {| text := ImportKeepersFromCsv.insert_query;
                                params := ImportKeepersFromCsv.keeper_params k |})
  /\ parameterized CalculateTrueKeepers.espn_query
  /\ (forall all_lineups,
        params (GenerateRestorationSql.insert_statement all_lineups) = []
        /\ Forall (fun l =>
                     Forall (fun v => contains v
                               (text (GenerateRestorationSql.insert_statement all_lineups))
                             = true)
                            (lineup_values l))
                  all_lineups)
  /\ (forall all_keepers,
        params (CalculateTrueKeepers.insert_statement all_keepers) = []
        /\ Forall (fun k =>
                     Forall (fun v => contains v
                               (text (CalculateTrueKeepers.insert_statement all_keepers))
                             = true)
                            (keeper_values k))
                  all_keepers).
Proof.
  split_and!.
  - apply import_keepers_executed.
  - by intros k1 k2.
  - by intros p1 p2.
  - intros all_lineups. split; [done|]. apply List.Forall_forall.
    intros l Hl. by apply restoration_insert_shows.
  - intros all_keepers. split; [done|]. apply List.Forall_forall.
    intros k Hk. by apply keepers_insert_shows.
Qed.

(** C2, where it fails. Not every statement is parameterized: the one
    generate_restoration_sql writes for a one-entry lineup has the entry's
    values in its text and nothing bound, and another entry gives another
    text. *)
Lemma generated_insert_not_parameterized :
  GenerateRestorationSql.insert_statement [Examples.fairbairn]
  = {| text := "INSERT INTO temp_csv_lineups VALUES
(1, 'primary', 3, 'Dick Six', 'PK1', 'Ka\'imi Fairbairn (HOU)', '2971573', 'place_kicker', 1);";
       params := [] |}
  /\ ~ parameterized GenerateRestorationSql.insert_statement.
Proof.
  split; [reflexivity|].
  intros H. specialize (H [Examples.fairbairn] [Examples.mahomes]).
  vm_compute in H. discriminate H.
Qed.

End Statements.

(** ** Sample runs *)

Section SampleRuns.
Import Examples.

Example parse_numbered : GenerateRestorationSql.parse_position_info "RC12" = ("receiver", 12).
Proof. reflexivity. Qed.

Example parse_simple : GenerateRestorationSql.parse_position_info "DEF" = ("defense", 1).
Proof. reflexivity. Qed.

Example parse_unknown : GenerateRestorationSql.parse_position_info "HeadCoach" = ("other", 1).
Proof. reflexivity. Qed.

Example format_receiver : ExportLineupSubmissions.format_position_label "receiver" 3 = "RC3".
Proof. reflexivity. Qed.

Example int_with_blanks : Py.int " 3139477 " = Ok 3139477.
Proof. reflexivity. Qed.

Example int_of_name : Py.int "Dick Six" = Raise.
Proof. reflexivity. Qed.

Example week2_loaded :
  GenerateRestorationSql.load_csv_with_sort_order week2_rows = Ok week2_lineups.
Proof. vm_compute. reflexivity. Qed.

Example mahomes_is_missing :
  match RestoreLineups.load_csv_lineups week2_rows with
  | Ok csv_lineups =>
      map RestoreLineups.m_player_id
          (RestoreLineups.find_missing_players sample_db csv_lineups)
  | Raise => []
  end = [451].
Proof. vm_compute. reflexivity. Qed.

Example keepers_after_import :
  map Db.hk_player_id
      (Db.historical_keepers (ImportKeepersFromCsv.main keepers_csv sample_db))
  = [452; 451; 452].
Proof. vm_compute. reflexivity. Qed.

Example bonus_week_gets_a_lineup :
  fst (ImportLineupsToPositions.get_or_create_lineup_submission fresh_state 3 4 "bonus" 2025)
  = Some 72.
Proof. vm_compute. reflexivity. Qed.

Example double_fumble_own_recovery :
  ImportPlayerStats.calculate_fumble_lost_attribution
    {| ImportPlayerStats.desc := Val "J.Allen FUMBLES, recovers at BUF 28.";
       ImportPlayerStats.fumble_lost := Val 0;
       ImportPlayerStats.fumble_recovery_1_team := Val "BUF";
       ImportPlayerStats.fumble_recovery_2_team := NoneVal;
       ImportPlayerStats.fumble_recovery_1_player_id := Val "00-0034857";
       ImportPlayerStats.fumbled_1_player_id := Val "00-0034857";
       ImportPlayerStats.fumbled_2_player_id := NoneVal |}
    (Val "00-0034857") (Val "BUF") 1
  = Ok 0.
Proof. vm_compute. reflexivity. Qed.

End SampleRuns.

(** ** More facts about the Python primitives *)

Module PyMore.
Import Spec.

Lemma is_digit_cases c :
  is_digit c = true ->
  (c = "0" \/ c = "1" \/ c = "2" \/ c = "3" \/ c = "4"
   \/ c = "5" \/ c = "6" \/ c = "7" \/ c = "8" \/ c = "9")%char.
Proof.
  destruct c as [[|] [|] [|] [|] [|] [|] [|] [|]]; vm_compute; intros H;
    try discriminate H; tauto.
Qed.

Lemma digit_not_space c : is_digit c = true -> is_space c = false.
Proof. intros H. destruct (is_digit_cases c H) as [->|[->|[->|[->|[->|[->|[->|[->|[->| ->]]]]]]]]]; reflexivity. Qed.

Lemma rstrip_no_space s : no_space s = true -> rstrip s = s.
Proof.
  induction s as [|c s IH]; simpl; [done|].
  intros [Hc Hs]%andb_true_iff. rewrite (IH Hs).
  apply negb_true_iff in Hc. rewrite Hc. by destruct s.
Qed.

Lemma lstrip_no_space s : no_space s = true -> lstrip s = s.
Proof.
  destruct s as [|c s]; simpl; [done|].
  intros [Hc _]%andb_true_iff. apply negb_true_iff in Hc. by rewrite Hc.
Qed.

Lemma strip_no_space s : no_space s = true -> strip s = s.
Proof. intros H. unfold strip. by rewrite lstrip_no_space, rstrip_no_space. Qed.

Lemma all_digits_no_space s : all_digits s = true -> no_space s = true.
Proof.
  induction s as [|c s IH]; simpl; [done|].
  intros [Hc Hs]%andb_true_iff. rewrite (digit_not_space c Hc), (IH Hs). done.
Qed.

Lemma drop_underscores_digits s b :
  all_digits s = true -> (s <> "" \/ b = true) -> drop_underscores b s = Some s.
Proof.
  revert b. induction s as [|c s IH]; intros b; simpl.
  - intros _ [?| ->]; done.
  - intros [Hc Hs]%andb_true_iff _. rewrite Hc, (IH true Hs); [done|by right].
Qed.

Lemma int_unsigned_digits s :
  all_digits s = true -> s <> "" -> int_unsigned s = Ok (digits_value s).
Proof.
  intros Hd Hne. unfold int_unsigned. destruct s as [|c s]; [done|].
  rewrite (drop_underscores_digits _ false Hd) by (by left).
  simpl in Hd. apply andb_true_iff in Hd as [-> _]. done.
Qed.

(** [int(str(n))] is [n], for every integer. *)
Lemma int_str n : Py.int (str n) = Ok n.
Proof.
  destruct (PyFacts.str_shape n) as (ds & Hd & Hne & Hs).
  assert (Hv : digits_value ds = Z.abs n).
  { destruct n as [|p|p]; cbn [Z.ltb Z.compare] in Hs.
    - by subst ds.
    - subst ds. by apply PyFacts.digits_value_str.
    - change (str (Z.neg p)) with (String "-" (str (Z.pos p))) in Hs.
      injection Hs as <-. by apply PyFacts.digits_value_str. }
  unfold Py.int. rewrite Hs.
  destruct (n <? 0)%Z eqn:Hneg.
  - rewrite strip_no_space by (simpl; by apply all_digits_no_space).
    rewrite (int_unsigned_digits ds Hd Hne). simpl. f_equal. lia.
  - rewrite strip_no_space by (by apply all_digits_no_space).
    destruct ds as [|c ds]; [done|].
    assert (Hc : is_digit c = true) by (simpl in Hd; by apply andb_true_iff in Hd as [? _]).
    assert (Hgoal : int_unsigned (String c ds) = Ok n).
    { rewrite (int_unsigned_digits _ Hd Hne). f_equal.
      apply Z.ltb_ge in Hneg. lia. }
    destruct (is_digit_cases c Hc) as [->|[->|[->|[->|[->|[->|[->|[->|[->| ->]]]]]]]]];
      exact Hgoal.
Qed.

End PyMore.

(** ** Position codes of the importer (import_lineups_to_positions.py) *)

Section PositionCodes.
Import ImportLineupsToPositions ExportLineupSubmissions.

Lemma code_arm_own (code db_type : string) (n : Z) :
  code_arm code db_type (code +:+ str n) = Some (Ok (Some (db_type, n))).
Proof.
  unfold code_arm. rewrite PyFacts.strip_prefix_app.
  pose proof (PyFacts.str_nonempty n) as Hne.
  rewrite PyMore.int_str. destruct (str n); done.
Qed.

Lemma parse_position_code_numbered (db_type code : string) (n : Z) :
  In (db_type, code) position_map ->
  parse_position_code (code +:+ str n) = Ok (Some (db_type, n)).
Proof.
  intros Hin. simpl in Hin.
  destruct Hin as [[= <- <-]|[[= <- <-]|[[= <- <-]|[[= <- <-]|[[= <- <-]|[]]]]]];
    match goal with
    | |- context [?c +:+ str n] =>
        match goal with
        | |- _ = Ok (Some (?t, _)) => pose proof (code_arm_own c t n) as Harm
        end
    end;
    unfold parse_position_code;
    revert Harm; generalize (str n); intros s Harm;
    cbn in Harm |- *; rewrite ?Harm; reflexivity.
Qed.

(** X1. The importer reads back every label the export writes: for a
    known position type and any integer sort order,
    parse_position_code (format_position_label type n) is (type, n). *)
Theorem parse_position_code_reads_exported_label (position_type : string) (n : Z) :
  In position_type (map fst position_map) ->
  parse_position_code (format_position_label position_type n)
  = Ok (Some (position_type, n)).
Proof.
  intros Hin. apply in_map_iff in Hin as ([type code] & <- & Hin). simpl.
  assert (Hget : dict_get position_map type = Some code).
  { simpl in Hin.
    destruct Hin as [[= <- <-]|[[= <- <-]|[[= <- <-]|[[= <- <-]|[[= <- <-]|[]]]]]];
      reflexivity. }
  unfold format_position_label. rewrite Hget.
  by apply parse_position_code_numbered.
Qed.

Lemma parse_position_code_reads_exported_label_witness :
  parse_position_code (format_position_label "defense" 2) = Ok (Some ("defense", 2)).
Proof.
  apply (parse_position_code_reads_exported_label "defense" 2). simpl. tauto.
Defined.

Lemma strip_prefix_Some p s rest : strip_prefix p s = Some rest -> s = p +:+ rest.
Proof.
  revert s. induction p as [|a p IH]; intros s; simpl; [by intros [= ->]|].
  destruct s as [|b s]; [done|]. destruct (Ascii.eqb_spec a b) as [->|]; [|done].
  intros H. by rewrite (IH _ H).
Qed.

Lemma code_arm_Raise code db_type position :
  code_arm code db_type position = Some Raise ->
  exists rest, position = code +:+ rest /\ rest <> "" /\ Py.int rest = Raise.
Proof.
  unfold code_arm. destruct (strip_prefix code position) as [rest|] eqn:Hp; [|done].
  apply strip_prefix_Some in Hp. destruct rest as [|c rest]; [done|]. simpl truthy.
  cbv iota. destruct (Py.int (String c rest)) eqn:Hint; [done|].
  intros _. by exists (String c rest).
Qed.

(** X2. parse_position_code raises exactly on a label that starts with
    one of the five codes and goes on with something int() does not read. *)
Theorem parse_position_code_raises (position : string) :
  parse_position_code position = Raise
  <-> exists db_type code rest,
        In (db_type, code) position_map /\ position = code +:+ rest
        /\ rest <> "" /\ Py.int rest = Raise.
Proof.
  split.
  - unfold parse_position_code.
    destruct (String.eqb position "HeadCoach"); [done|].
    destruct (code_arm "QB" _ _) as [r|] eqn:H1.
    { intros ->. apply code_arm_Raise in H1 as (rest & ? & ? & ?).
      exists "quarterback", "QB", rest. simpl. tauto. }
    destruct (code_arm "RB" _ _) as [r|] eqn:H2.
    { intros ->. apply code_arm_Raise in H2 as (rest & ? & ? & ?).
      exists "running_back", "RB", rest. simpl. tauto. }
    destruct (code_arm "RC" _ _) as [r|] eqn:H3.
    { intros ->. apply code_arm_Raise in H3 as (rest & ? & ? & ?).
      exists "receiver", "RC", rest. simpl. tauto. }
    destruct (code_arm "PK" _ _) as [r|] eqn:H4.
    { intros ->. apply code_arm_Raise in H4 as (rest & ? & ? & ?).
      exists "place_kicker", "PK", rest. simpl. tauto. }
    destruct (code_arm "DEF" _ _) as [r|] eqn:H5; [|done].
    intros ->. apply code_arm_Raise in H5 as (rest & ? & ? & ?).
    exists "defense", "DEF", rest. simpl. tauto.
  - intros (db_type & code & rest & Hin & -> & Hne & Hint).
    assert (Harm : code_arm code db_type (code +:+ rest) = Some Raise).
    { unfold code_arm. rewrite PyFacts.strip_prefix_app, Hint. by destruct rest. }
    clear Hne Hint. unfold parse_position_code. simpl in Hin.
    destruct Hin as [[= <- <-]|[[= <- <-]|[[= <- <-]|[[= <- <-]|[[= <- <-]|[]]]]]];
      cbn in Harm |- *; rewrite ?Harm; reflexivity.
Qed.

End PositionCodes.

(** ** NFL team code of a player cell (import_lineups_to_positions.py) *)

Section TeamCode.
Import ImportLineupsToPositions ExportLineupSubmissions.

Lemma rfind_char_absent c s :
  contains (String c "") s = false -> rfind_char c s = -1.
Proof.
  induction s as [|a s IH]; [done|].
  cbn [contains]. intros [Hs Hrest]%orb_false_iff.
  cbn [rfind_char]. rewrite (IH Hrest). simpl.
  unfold startswith in Hs. simpl in Hs.
  rewrite Ascii.eqb_sym. by destruct (Ascii.eqb c a).
Qed.

Lemma rfind_char_nonneg_or c s : -1 <= rfind_char c s.
Proof.
  induction s as [|a s IH]; simpl; [lia|].
  destruct (0 <=? rfind_char c s)%Z eqn:H; [apply Z.leb_le in H; lia|].
  destruct (Ascii.eqb a c); lia.
Qed.

Lemma rfind_char_app c a b :
  0 <= rfind_char c b ->
  rfind_char c (a +:+ b) = Z.of_nat (String.length a) + rfind_char c b.
Proof.
  intros Hb. induction a as [|x a IH].
  { change ("" +:+ b) with b. change (String.length "") with 0%nat. lia. }
  change (String x a +:+ b) with (String x (a +:+ b)).
  cbn [rfind_char String.length]. rewrite IH.
  destruct (Z.leb_spec 0 (Z.of_nat (String.length a) + rfind_char c b)); lia.
Qed.

Lemma rfind_char_head c s :
  contains (String c "") s = false -> rfind_char c (String c s) = 0.
Proof.
  intros H. cbn [rfind_char]. rewrite (rfind_char_absent c s H). simpl.
  by rewrite Ascii.eqb_refl.
Qed.

Lemma substring_skip a b n m :
  String.substring (String.length a + n) m (a +:+ b) = String.substring n m b.
Proof. induction a as [|x a IH]; simpl; [done|apply IH]. Qed.

Lemma substring_prefix c d :
  String.substring 0 (String.length c) (c +:+ d) = c.
Proof.
  induction c as [|x c IH]; simpl; [by destruct d|]. by rewrite IH.
Qed.

Lemma contains_char_app c a b :
  contains (String c "") (a +:+ b) = contains (String c "") a || contains (String c "") b.
Proof.
  induction a as [|x a IH].
  - simpl. unfold startswith. simpl. done.
  - change (String x a +:+ b) with (String x (a +:+ b)).
    cbn [contains]. rewrite IH.
    unfold startswith. simpl. destruct (Ascii.eqb c x); simpl; [done|].
    done.
Qed.

Lemma length_append a b :
  String.length (a +:+ b) = (String.length a + String.length b)%nat.
Proof. induction a as [|x a IH]; simpl; [done|by rewrite IH]. Qed.

Lemma slice_middle before code after :
  slice (before +:+ code +:+ after)
        (Z.of_nat (String.length before))
        (Z.of_nat (String.length before) + Z.of_nat (String.length code))
  = code.
Proof.
  unfold slice. rewrite !length_append.
  set (lb := String.length before). set (lc := String.length code).
  set (la := String.length after).
  destruct (Z.ltb_spec (Z.of_nat lb) 0) as [?|_]; [lia|].
  destruct (Z.ltb_spec (Z.of_nat lb + Z.of_nat lc) 0) as [?|_]; [lia|].
  rewrite !Z.min_l by lia.
  replace (Z.to_nat (Z.of_nat lb)) with (lb + 0)%nat by lia.
  replace (Z.to_nat (Z.of_nat lb + Z.of_nat lc - Z.of_nat lb)) with lc by lia.
  subst lb lc. rewrite substring_skip. apply substring_prefix.
Qed.

Lemma append_assoc a b c : (a +:+ b) +:+ c = a +:+ b +:+ c.
Proof.
  induction a as [|x a IH]; [done|].
  change (String x ((a +:+ b) +:+ c) = String x (a +:+ b +:+ c)). by rewrite IH.
Qed.

(** X3. The importer reads back the team code the export puts in a
    player cell: from "name (CODE)" extract_nfl_team_code gives CODE
    stripped, whatever the name holds, when CODE has no parenthesis. *)
Theorem extract_reads_exported_team_code (player_name team_code : string) :
  contains "(" team_code = false -> contains ")" team_code = false ->
  extract_nfl_team_code (player_name +:+ " (" +:+ team_code +:+ ")")
  = Some (strip team_code).
Proof.
  intros Hopen Hclose. unfold extract_nfl_team_code.
  set (cell := player_name +:+ " (" +:+ team_code +:+ ")").
  assert (Hin1 : contains "(" cell = true).
  { subst cell. apply contains_later. change (" (" +:+ team_code +:+ ")")
      with (" " +:+ "(" +:+ team_code +:+ ")"). apply contains_later, contains_here. }
  assert (Hin2 : contains ")" cell = true).
  { subst cell. do 3 apply contains_later. apply contains_end. }
  rewrite Hin1, Hin2. cbn [andb]. f_equal. f_equal.
  assert (Hstart : rfind_char "(" cell = Z.of_nat (String.length (player_name +:+ " "))).
  { subst cell.
    change (player_name +:+ " (" +:+ team_code +:+ ")")
      with (player_name +:+ " " +:+ String "(" (team_code +:+ ")")).
    rewrite <- append_assoc.
    assert (H0 : rfind_char "(" (String "(" (team_code +:+ ")")) = 0).
    { apply rfind_char_head. rewrite contains_char_app, Hopen. reflexivity. }
    rewrite rfind_char_app; rewrite H0; lia. }
  assert (Hend : rfind_char ")" cell
                 = Z.of_nat (String.length (player_name +:+ " (" +:+ team_code))).
  { subst cell.
    replace (player_name +:+ " (" +:+ team_code +:+ ")")
      with ((player_name +:+ " (" +:+ team_code) +:+ ")")
      by (by rewrite !append_assoc).
    assert (H0 : rfind_char ")" ")" = 0) by reflexivity.
    rewrite rfind_char_app; rewrite H0; lia. }
  rewrite Hstart, Hend.
  replace (Z.of_nat (String.length (player_name +:+ " ")) + 1)
    with (Z.of_nat (String.length (player_name +:+ " (")))
    by (rewrite !length_append; simpl; lia).
  replace (Z.of_nat (String.length (player_name +:+ " (" +:+ team_code)))
    with (Z.of_nat (String.length (player_name +:+ " ("))
          + Z.of_nat (String.length team_code))
    by (rewrite <- append_assoc, (length_append _ team_code); lia).
  subst cell. rewrite <- (append_assoc player_name " (").
  apply slice_middle.
Qed.

Lemma extract_reads_exported_team_code_witness :
  extract_nfl_team_code ("Ka'imi Fairbairn" +:+ " (" +:+ "HOU" +:+ ")") = Some (strip "HOU").
Proof.
  apply (extract_reads_exported_team_code "Ka'imi Fairbairn" "HOU"); reflexivity.
Defined.

End TeamCode.

(** ** Exporting a lineup file and loading it again *)

Section ExportLoad.
Import Csv ExportLineupSubmissions GenerateRestorationSql Spec Examples.

Lemma load_rows_app rows1 rows2 st :
  load_rows (rows1 ++ rows2) st = (st1 <- load_rows rows1 st ;; load_rows rows2 st1).
Proof.
  revert st. induction rows1 as [|row rows1 IH]; intros st; simpl; [done|].
  destruct (load_row row st) as [st1|]; simpl; [apply IH|done].
Qed.

Lemma exported_label_not_coach (db_type code : string) (n : Z) :
  In (db_type, code) position_map -> String.eqb (code +:+ str n) "HeadCoach" = false.
Proof.
  intros Hin. simpl in Hin.
  destruct Hin as [[= <- <-]|[[= <- <-]|[[= <- <-]|[[= <- <-]|[[= <- <-]|[]]]]]];
    reflexivity.
Qed.

Lemma position_map_get db_type code :
  In (db_type, code) position_map -> dict_get position_map db_type = Some code.
Proof.
  intros Hin. simpl in Hin.
  destruct Hin as [[= <- <-]|[[= <- <-]|[[= <- <-]|[[= <- <-]|[[= <- <-]|[]]]]]];
    reflexivity.
Qed.

(** Loading the line of one position appends the position as it was. *)
Lemma load_exported_position lineup p acc counters :
  In (ExportLineupSubmissions.position_type p) (map fst position_map) ->
  0 <= ExportLineupSubmissions.sort_order p ->
  load_row
    (dict_row header
       (player_row [ str (week_number lineup); ExportLineupSubmissions.game_type lineup;
                     str (fantasy_team_id lineup); ExportLineupSubmissions.team_name lineup;
                     cell_text (owner_name lineup); username lineup ] p))
    (acc, counters)
  = Ok ((acc ++ [reloaded lineup p])%list, counters).
Proof.
  intros Hin Hn. apply in_map_iff in Hin as ([type code] & Htype & Hin). simpl in Htype.
  unfold reloaded. set (fields := player_row _ p).
  assert (Hpos : Position (dict_row header fields)
                 = code +:+ str (ExportLineupSubmissions.sort_order p)).
  { subst fields. unfold player_row, format_position_label.
    rewrite <- Htype, (position_map_get _ _ Hin).
    by destruct (String.eqb type "defense"). }
  assert (Hweek : Week (dict_row header fields) = str (week_number lineup)).
  { subst fields. unfold player_row. by destruct (String.eqb _ "defense"). }
  assert (Hteam : Team_ID (dict_row header fields) = str (fantasy_team_id lineup)).
  { subst fields. unfold player_row. by destruct (String.eqb _ "defense"). }
  assert (Hgame : Game_Type (dict_row header fields)
                  = ExportLineupSubmissions.game_type lineup).
  { subst fields. unfold player_row. by destruct (String.eqb _ "defense"). }
  assert (Hname : Fantasy_Team_Name (dict_row header fields)
                  = ExportLineupSubmissions.team_name lineup).
  { subst fields. unfold player_row. by destruct (String.eqb _ "defense"). }
  unfold load_row.
  rewrite Hpos, (exported_label_not_coach _ _ _ Hin), Hweek, Hteam, Hgame, Hname.
  rewrite !PyMore.int_str. cbn [bind].
  rewrite (parse_position_info_numbered type code _ Hin Hn).
  rewrite (numbered_not_simple type code _ Hin). by rewrite Htype.
Qed.

Lemma load_lineup_rows lineup positions acc counters :
  Forall (fun p => In (ExportLineupSubmissions.position_type p) (map fst position_map)
                   /\ 0 <= ExportLineupSubmissions.sort_order p) positions ->
  load_rows (map (dict_row header) (lineup_rows lineup positions)) (acc, counters)
  = Ok ((acc ++ map (reloaded lineup) positions)%list, counters).
Proof.
  intros Hall. unfold lineup_rows. rewrite map_app, load_rows_app.
  set (base_row := [ str (week_number lineup); _; _; _; _; _ ]).
  assert (Hcoach : load_rows
            (map (dict_row header)
               match or_else (lineup_head_coach lineup) (team_head_coach lineup) with
               | Some coach =>
                   if truthy coach then [(base_row ++ ["HeadCoach"; coach; ""])%list] else []
               | None => []
               end) (acc, counters) = Ok (acc, counters)).
  { destruct (or_else _ _) as [coach|]; [|done]. by destruct (truthy coach). }
  rewrite Hcoach. cbn [bind]. clear Hcoach.
  revert acc. induction Hall as [|p ps [Hin Hn] _ IH]; intros acc.
  - simpl. by rewrite app_nil_r.
  - cbn [map load_rows]. unfold base_row at 1.
    rewrite (load_exported_position lineup p acc counters Hin Hn). cbn [bind].
    rewrite IH. by rewrite <- app_assoc.
Qed.

Lemma load_exported_lineups lineups acc counters :
  Forall (fun lp =>
            Forall (fun p => In (ExportLineupSubmissions.position_type p) (map fst position_map)
                             /\ 0 <= ExportLineupSubmissions.sort_order p) (snd lp))
         lineups ->
  load_rows (map (dict_row header)
                 (flat_map (fun lp => lineup_rows (fst lp) (snd lp)) lineups))
            (acc, counters)
  = Ok ((acc ++ flat_map (fun lp => map (reloaded (fst lp)) (snd lp)) lineups)%list,
        counters).
Proof.
  intros Hall. revert acc. induction Hall as [|[lineup ps] rest Hps _ IH]; intros acc.
  - simpl. by rewrite app_nil_r.
  - cbn [flat_map fst snd]. rewrite map_app, load_rows_app.
    rewrite (load_lineup_rows lineup ps acc counters Hps). cbn [bind].
    rewrite IH. by rewrite <- app_assoc.
Qed.

(** X4. Loading what the export wrote gives the lineups back: when every
    exported position has one of the five known types and a sort order
    that is not negative, load_csv_with_sort_order returns, in order, one
    entry per position with the week, team, game type, position type and
    sort order the database had; head coach lines leave no entry. *)
Theorem load_reads_back_export
    (lineups : list (locked_lineup * list position_row)) (csv_data : list (list string)) :
  export_lineups_structured lineups = Some csv_data ->
  Forall (fun lp =>
            Forall (fun p => In (ExportLineupSubmissions.position_type p) (map fst position_map)
                             /\ 0 <= ExportLineupSubmissions.sort_order p) (snd lp))
         lineups ->
  exists loaded,
    load_csv_with_sort_order (dict_reader csv_data) = Ok loaded
    /\ map (fun e => (week e, team_id e, GenerateRestorationSql.game_type e,
                      GenerateRestorationSql.position_type e,
                      GenerateRestorationSql.sort_order e)) loaded
       = flat_map (fun lp =>
                     map (fun p => (week_number (fst lp), fantasy_team_id (fst lp),
                                    ExportLineupSubmissions.game_type (fst lp),
                                    ExportLineupSubmissions.position_type p,
                                    ExportLineupSubmissions.sort_order p))
                         (snd lp))
                  lineups.
Proof.
  intros Hexp Hall. unfold export_lineups_structured in Hexp.
  assert (Hdata : csv_data
                  = header :: flat_map (fun lp => lineup_rows (fst lp) (snd lp)) lineups)
    by (destruct lineups; [done|by injection Hexp]).
  subst csv_data. clear Hexp.
  exists (flat_map (fun lp => map (reloaded (fst lp)) (snd lp)) lineups).
  split.
  - unfold load_csv_with_sort_order, dict_reader.
    by rewrite (load_exported_lineups lineups [] ∅ Hall).
  - clear Hall. induction lineups as [|[lineup ps] rest IH]; [done|].
    cbn [flat_map fst snd]. rewrite map_app, IH. f_equal.
    rewrite map_map. done.
Qed.

Lemma load_reads_back_export_witness :
  exists loaded,
    load_csv_with_sort_order (dict_reader exported_week1) = Ok loaded
    /\ map (fun e => (week e, team_id e, GenerateRestorationSql.game_type e,
                      GenerateRestorationSql.position_type e,
                      GenerateRestorationSql.sort_order e)) loaded
       = [ (1, 3, "primary", "quarterback", 1); (1, 3, "primary", "defense", 2) ].
Proof.
  apply (load_reads_back_export [(locked_week1, [position_qb1; position_def2])]
                                exported_week1).
  - reflexivity.
  - repeat constructor; simpl; tauto || lia.
Defined.

End ExportLoad.

(** ** Re-importing lineups (import_lineups_to_positions.py) *)

Section ImportPositions.
Import Db ImportLineupsToPositions Spec Examples.

Lemma head_filter_nil {A} (f : A -> bool) (l : list A) :
  head (List.filter f l) = None -> List.filter f l = [].
Proof. by destruct (List.filter f l). Qed.

Lemma check_week_cached st week season_year :
  let '(has_bonus, st') := check_week_has_bonus_games st week season_year in
  weeks_with_bonus_games st' !! cache_key week season_year = Some has_bonus
  /\ db st' = db st.
Proof.
  unfold check_week_has_bonus_games.
  destruct (weeks_with_bonus_games st !! cache_key week season_year) as [b|] eqn:Hb.
  - done.
  - simpl. by rewrite lookup_insert_eq.
Qed.

(** Asking again for a lineup, in any state with the same cache and the
    same submissions, gives the same answer and changes nothing. *)
Lemma get_or_create_again st team_id week game_type season_year st' :
  let '(lineup_id, st1) :=
    get_or_create_lineup_submission st team_id week game_type season_year in
  weeks_with_bonus_games st' = weeks_with_bonus_games st1 ->
  lineup_submissions (db st') = lineup_submissions (db st1) ->
  get_or_create_lineup_submission st' team_id week game_type season_year
  = (lineup_id, st').
Proof.
  unfold get_or_create_lineup_submission.
  assert (Hfound : forall st0 : state,
    let '(lineup_id, st1) :=
      match head (select_submission (db st0) team_id week game_type season_year) with
      | Some result => (Some (ls_lineup_id result), st0)
      | None =>
          let lastrowid := next_id (map ls_lineup_id (lineup_submissions (db st0))) in
          (Some lastrowid,
           {| db := set_submissions (db st0)
                      (lineup_submissions (db st0)
                       ++ [ {| ls_lineup_id := lastrowid;
                               ls_fantasy_team_id := team_id;
                               ls_week_number := week;
                               ls_game_type := game_type;
                               ls_season_year := season_year |} ])%list;
              weeks_with_bonus_games := weeks_with_bonus_games st0 |})
      end in
    lineup_submissions (db st') = lineup_submissions (db st1) ->
    match head (select_submission (db st') team_id week game_type season_year) with
    | Some result => (Some (ls_lineup_id result), st')
    | None =>
        let lastrowid := next_id (map ls_lineup_id (lineup_submissions (db st'))) in
        (Some lastrowid,
         {| db := set_submissions (db st')
                    (lineup_submissions (db st')
                     ++ [ {| ls_lineup_id := lastrowid;
                             ls_fantasy_team_id := team_id;
                             ls_week_number := week;
                             ls_game_type := game_type;
                             ls_season_year := season_year |} ])%list;
            weeks_with_bonus_games := weeks_with_bonus_games st' |})
    end = (lineup_id, st') /\ weeks_with_bonus_games st1 = weeks_with_bonus_games st0).
  { intros st0. unfold select_submission.
    destruct (head (List.filter _ (lineup_submissions (db st0)))) as [row|] eqn:Hh.
    - intros Hsub. rewrite Hsub, Hh. done.
    - simpl. intros Hsub. rewrite Hsub, List.filter_app, (head_filter_nil _ _ Hh).
      simpl. rewrite !Z.eqb_refl, String.eqb_refl. simpl. done. }
  destruct (String.eqb game_type "bonus") eqn:Hgt.
  - pose proof (check_week_cached st week season_year) as Hchk.
    destruct (check_week_has_bonus_games st week season_year) as [has_bonus stc].
    destruct Hchk as [Hkey _].
    destruct (negb has_bonus) eqn:Hskip.
    + intros Hcache _. unfold check_week_has_bonus_games.
      rewrite Hcache, Hkey, Hskip. done.
    + specialize (Hfound stc).
      destruct (head (select_submission (db stc) _ _ _ _)) as [row|];
        intros Hcache Hsub; unfold check_week_has_bonus_games;
        destruct (Hfound Hsub) as [Hres Hc];
        assert (Hk : weeks_with_bonus_games st' !! cache_key week season_year
                     = Some has_bonus) by congruence;
        rewrite Hk, Hskip; exact Hres.
  - specialize (Hfound st).
    destruct (head (select_submission (db st) _ _ _ _)) as [row|];
      intros _ Hsub; by destruct (Hfound Hsub).
Qed.

(** X5. get_or_create_lineup_submission is a get the second time: called
    again with the same arguments it returns what it returned and leaves
    the state, database and cache, as the first call left it. *)
Theorem get_or_create_twice (st : state) (team_id week : Z) (game_type : string)
    (season_year : Z) :
  let '(lineup_id, st1) :=
    get_or_create_lineup_submission st team_id week game_type season_year in
  get_or_create_lineup_submission st1 team_id week game_type season_year
  = (lineup_id, st1).
Proof.
  pose proof (get_or_create_again st team_id week game_type season_year) as H.
  destruct (get_or_create_lineup_submission st team_id week game_type season_year)
    as [lineup_id st1].
  by apply H.
Qed.

Lemma get_or_create_keeps_positions st team_id week game_type season_year :
  lineup_positions
    (db (snd (get_or_create_lineup_submission st team_id week game_type season_year)))
  = lineup_positions (db st).
Proof.
  unfold get_or_create_lineup_submission.
  destruct (String.eqb game_type "bonus").
  - pose proof (check_week_cached st week season_year) as Hchk.
    destruct (check_week_has_bonus_games st week season_year) as [has_bonus stc].
    destruct Hchk as [_ Hdb]. destruct (negb has_bonus); simpl; [by rewrite Hdb|].
    destruct (head _); simpl; by rewrite Hdb.
  - by destruct (head _).
Qed.

Lemma insert_positions_spec lineup_id positions d n :
  let r := fold_left (fun acc p => (insert_position lineup_id p (fst acc), snd acc + 1))
                     positions (d, n) in
  exists rows,
    lineup_positions (fst r) = (lineup_positions d ++ rows)%list
    /\ map position_content rows = map (stored_content lineup_id) positions
    /\ lineup_submissions (fst r) = lineup_submissions d
    /\ snd r = n + Z.of_nat (length positions).
Proof.
  revert d n. induction positions as [|p ps IH]; intros d n.
  - exists []. simpl. rewrite app_nil_r. split_and!; [done|done|done|lia].
  - cbn [fold_left fst snd].
    destruct (IH (insert_position lineup_id p d) (n + 1)) as (rows & Hpos & Hcont & Hsub & Hn).
    eexists (_ :: rows). cbv zeta in *. split_and!.
    + rewrite Hpos. simpl. by rewrite <- app_assoc.
    + simpl. by rewrite Hcont.
    + by rewrite Hsub.
    + rewrite Hn. simpl length. lia.
Qed.

(** What a pass of the loop does to a group that is not skipped. *)
Lemma import_group_spec pr team_id week game_type positions lineup_id st :
  get_or_create_lineup_submission (cur pr) team_id week game_type season_year
  = (Some lineup_id, st) ->
  let pr' := import_group pr ((team_id, week, game_type), positions) in
  exists rows,
    lineup_positions (db (cur pr'))
    = (List.filter (fun r => negb (lp_lineup_id r =? lineup_id)%Z)
                   (lineup_positions (db (cur pr))) ++ rows)%list
    /\ map position_content rows = map (stored_content lineup_id) positions
    /\ lineup_submissions (db (cur pr')) = lineup_submissions (db st)
    /\ weeks_with_bonus_games (cur pr') = weeks_with_bonus_games st
    /\ inserted pr' = inserted pr + Z.of_nat (length positions)
    /\ updated_lineups pr' = updated_lineups pr + 1.
Proof.
  intros Hget. unfold import_group. rewrite Hget.
  pose proof (insert_positions_spec lineup_id positions
                (delete_positions lineup_id (db st)) (inserted pr)) as Hins.
  cbv zeta in Hins. destruct (fold_left _ positions _) as [d n].
  destruct Hins as (rows & Hpos & Hcont & Hsub & Hn). simpl in *.
  exists rows. split_and!; try done.
  rewrite Hpos. f_equal. f_equal.
  pose proof (get_or_create_keeps_positions (cur pr) team_id week game_type season_year) as Hk.
  by rewrite Hget in Hk.
Qed.

Lemma stored_rows_lineup lineup_id rows positions :
  map position_content rows = map (stored_content lineup_id) positions ->
  Forall (fun r => lp_lineup_id r = lineup_id) rows.
Proof.
  revert positions. induction rows as [|r rows IH]; intros [|p ps]; simpl; try done.
  intros [= Hid _ _ _ _ Hrest]. constructor; [done|by apply (IH ps)].
Qed.

Lemma filter_all {A} (f : A -> bool) l :
  Forall (fun x => f x = true) l -> List.filter f l = l.
Proof. induction 1 as [|x l Hx _ IH]; simpl; [done|]. by rewrite Hx, IH. Qed.

Lemma filter_none {A} (f : A -> bool) l :
  Forall (fun x => f x = false) l -> List.filter f l = [].
Proof. induction 1 as [|x l Hx _ IH]; simpl; [done|]. by rewrite Hx, IH. Qed.

Lemma filter_twice {A} (f : A -> bool) l :
  List.filter f (List.filter f l) = List.filter f l.
Proof.
  induction l as [|x l IH]; simpl; [done|].
  destruct (f x) eqn:Hx; simpl; [|done]. by rewrite Hx, IH.
Qed.

Lemma filter_other {A} (f : A -> bool) l :
  List.filter f (List.filter (fun x => negb (f x)) l) = [].
Proof.
  induction l as [|x l IH]; simpl; [done|].
  destruct (f x) eqn:Hx; simpl; [done|]. by rewrite Hx, IH.
Qed.

(** X6. A group that is not skipped replaces the positions of its lineup:
    afterwards the lineup_positions rows of that lineup are the entries of
    the group, in order, the rows of every other lineup are as before, and
    the counters grew by the number of entries and by one. *)
Theorem import_group_replaces_positions
    (pr : progress) (team_id week : Z) (game_type : string) (positions : list pos)
    (lineup_id : Z) :
  fst (get_or_create_lineup_submission (cur pr) team_id week game_type season_year)
  = Some lineup_id ->
  let pr' := import_group pr ((team_id, week, game_type), positions) in
  map position_content
      (List.filter (fun r => (lp_lineup_id r =? lineup_id)%Z)
                   (lineup_positions (db (cur pr'))))
  = map (stored_content lineup_id) positions
  /\ List.filter (fun r => negb (lp_lineup_id r =? lineup_id)%Z)
                 (lineup_positions (db (cur pr')))
     = List.filter (fun r => negb (lp_lineup_id r =? lineup_id)%Z)
                   (lineup_positions (db (cur pr)))
  /\ inserted pr' = inserted pr + Z.of_nat (length positions)
  /\ updated_lineups pr' = updated_lineups pr + 1.
Proof.
  intros Hget.
  destruct (get_or_create_lineup_submission (cur pr) team_id week game_type season_year)
    as [r st] eqn:Hcall.
  simpl in Hget. subst r.
  destruct (import_group_spec pr team_id week game_type positions lineup_id st Hcall)
    as (rows & Hpos & Hcont & _ & _ & Hins & Hupd).
  cbv zeta. rewrite Hpos, !List.filter_app.
  pose proof (stored_rows_lineup _ _ _ Hcont) as Hrows.
  split_and!; [| |done|done].
  - rewrite filter_other. simpl. rewrite (filter_all _ rows); [done|].
    eapply Forall_impl; [exact Hrows|]. intros r ->. apply Z.eqb_refl.
  - rewrite filter_twice, (filter_none _ rows); [by rewrite app_nil_r|].
    eapply Forall_impl; [exact Hrows|]. intros r ->. by rewrite Z.eqb_refl.
Qed.

Lemma import_group_replaces_positions_witness :
  map position_content
      (List.filter (fun r => (lp_lineup_id r =? 70)%Z)
         (lineup_positions
            (db (cur (import_group
                        {| cur := fresh_state; inserted := 0; updated_lineups := 0 |}
                        ((3, 2, "primary"),
                         [ {| position_type := "quarterback"; player_id := 451;
                              nfl_team_id := None; sort_order := 1 |} ]))))))
  = [ (70, "quarterback", Some 451, None, 1) ].
Proof.
  apply (import_group_replaces_positions
           {| cur := fresh_state; inserted := 0; updated_lineups := 0 |}
           3 2 "primary"
           [ {| position_type := "quarterback"; player_id := 451;
                nfl_team_id := None; sort_order := 1 |} ] 70).
  reflexivity.
Defined.

(** X7. Importing a group a second time does not duplicate anything: the
    lineup_positions rows have the same content, keys apart, and
    lineup_submissions is the same as after the first time. *)
Theorem import_group_again_same_content
    (pr : progress) (group : (Z * Z * string) * list pos) :
  let pr1 := import_group pr group in
  let pr2 := import_group pr1 group in
  map position_content (lineup_positions (db (cur pr2)))
  = map position_content (lineup_positions (db (cur pr1)))
  /\ lineup_submissions (db (cur pr2)) = lineup_submissions (db (cur pr1)).
Proof.
  destruct group as [[[team_id week] game_type] positions]. cbv zeta.
  pose proof (get_or_create_again (cur pr) team_id week game_type season_year) as Hagain.
  destruct (get_or_create_lineup_submission (cur pr) team_id week game_type season_year)
    as [[lineup_id|] st] eqn:Hcall.
  - destruct (import_group_spec pr team_id week game_type positions lineup_id st Hcall)
      as (rows1 & Hpos1 & Hcont1 & Hsub1 & Hcache1 & _).
    cbv zeta in *.
    set (pr1 := import_group pr (team_id, week, game_type, positions)) in *.
    specialize (Hagain (cur pr1) Hcache1 Hsub1).
    destruct (import_group_spec pr1 team_id week game_type positions lineup_id
                (cur pr1) Hagain)
      as (rows2 & Hpos2 & Hcont2 & Hsub2 & _).
    cbv zeta in *. split; [|done].
    rewrite Hpos2, Hpos1, List.filter_app, filter_twice.
    rewrite (filter_none _ rows1).
    + rewrite app_nil_r, !map_app. by rewrite Hcont1, Hcont2.
    + eapply Forall_impl; [exact (stored_rows_lineup _ _ _ Hcont1)|].
      intros r ->. by rewrite Z.eqb_refl.
  - assert (H1 : import_group pr (team_id, week, game_type, positions)
                 = {| cur := st; inserted := inserted pr;
                      updated_lineups := updated_lineups pr |}).
    { unfold import_group. by rewrite Hcall. }
    rewrite H1.
    assert (H2 : import_group {| cur := st; inserted := inserted pr;
                                 updated_lineups := updated_lineups pr |}
                   (team_id, week, game_type, positions)
                 = {| cur := st; inserted := inserted pr;
                      updated_lineups := updated_lineups pr |}).
    { unfold import_group. simpl cur. by rewrite (Hagain st eq_refl eq_refl). }
    by rewrite H2.
Qed.

End ImportPositions.

(** ** Running the restoration script (restore_lineups.py) *)

Section Restoration.
Import Db RestoreLineups Examples.

Lemma run_restoration_spec missing_players db :
  exists rows,
    lineup_positions (run_restoration missing_players db)
    = (lineup_positions db ++ rows)%list
    /\ map (fun r => (lp_lineup_id r, lp_player_id r)) rows
       = map (fun m => (m_lineup_id m, Some (m_player_id m))) missing_players
    /\ nfl_players (run_restoration missing_players db) = nfl_players db
    /\ lineup_submissions (run_restoration missing_players db) = lineup_submissions db.
Proof.
  revert db. induction missing_players as [|m ms IH]; intros db.
  - exists []. simpl. by rewrite app_nil_r.
  - cbn [run_restoration fold_left].
    destruct (IH (restore_effect m db)) as (rows & Hpos & Hcont & Hpl & Hsub).
    unfold run_restoration in *. rewrite Hpos, Hpl, Hsub.
    unfold restore_effect in *. destruct (position_of (m_position m)) as [ptype so].
    simpl in *. eexists (_ :: rows). split_and!; [by rewrite <- app_assoc| |done|done].
    simpl. by rewrite Hcont.
Qed.

(** After the script has run, an entry is no longer missing when it was
    not missing before or its record was in the script. *)
Lemma check_lineup_after missing_players db lineup :
  (forall m, check_lineup db lineup = Some m -> In m missing_players) ->
  check_lineup (run_restoration missing_players db) lineup = None.
Proof.
  intros Hin.
  destruct (run_restoration_spec missing_players db) as (rows & Hpos & Hcont & Hpl & Hsub).
  unfold check_lineup in *.
  destruct (espn_id lineup) as [espn|]; [|done].
  destruct (negb (truthy espn)); [done|].
  unfold select_player, select_submission, select_position in *.
  rewrite Hpl, Hsub, Hpos.
  destruct (fetchone (List.filter _ (nfl_players db))) as [player|]; [|done].
  destruct (fetchone match lowest_lineup_id _ with Some s => [s] | None => [] end)
    as [sub|]; [|done].
  rewrite List.filter_app.
  destruct (List.filter _ (lineup_positions db)) as [|r rs] eqn:Hold; [|done].
  simpl in Hin. specialize (Hin _ eq_refl).
  assert (Hrow : In (ls_lineup_id sub, Some (np_player_id player))
                    (map (fun r => (lp_lineup_id r, lp_player_id r)) rows)).
  { rewrite Hcont. apply in_map_iff. eexists. split; [|exact Hin]. done. }
  apply in_map_iff in Hrow as (r & [= Hid Hpid] & Hr). simpl.
  assert (Hr' : In r (List.filter
                        (fun r => (lp_lineup_id r =? ls_lineup_id sub)%Z
                                  && bool_decide (lp_player_id r = Some (np_player_id player)))
                        rows)).
  { apply filter_In. split; [done|]. rewrite Hid, Z.eqb_refl. simpl.
    by apply bool_decide_eq_true. }
  destruct (List.filter _ rows); [done|]. done.
Qed.

(** X8. The restoration is complete: once the INSERTs written for the
    missing players have run, find_missing_players finds nothing missing
    for the same CSV entries. *)
Theorem nothing_missing_after_restoration (db : database) (csv_lineups : list csv_lineup) :
  find_missing_players
    (run_restoration (find_missing_players db csv_lineups) db) csv_lineups
  = [].
Proof.
  assert (Hall : forall l, In l csv_lineups ->
            check_lineup (run_restoration (find_missing_players db csv_lineups) db) l = None).
  { intros l Hl. apply check_lineup_after. intros m Hm.
    unfold find_missing_players. rewrite find_missing_loop_omap. simpl.
    apply list_elem_of_In, list_elem_of_omap. exists l.
    split; [by apply list_elem_of_In|done]. }
  revert Hall. generalize (run_restoration (find_missing_players db csv_lineups) db).
  intros db' Hall.
  unfold find_missing_players. rewrite find_missing_loop_omap. simpl.
  induction csv_lineups as [|l ls IH]; [done|].
  cbn [omap list_omap]. rewrite (Hall l) by (by left).
  apply IH. intros l' Hl'. apply Hall. by right.
Qed.

Lemma dict_get_In {V} (d : list (string * V)) k v :
  dict_get d k = Some v -> In (k, v) d.
Proof.
  induction d as [|[k' v'] d IH]; simpl; [done|].
  destruct (String.eqb_spec k' k) as [->|_]; [intros [= ->]; by left|].
  intros H. right. by apply IH.
Qed.

(** X9. The two restoration scripts read labels alike: whenever the
    table of restore_lineups knows a label, parse_position_info gives the
    same position type and sort order for it. *)
Theorem position_mapping_agrees (position : string) (r : string * Z) :
  dict_get position_mapping position = Some r ->
  GenerateRestorationSql.parse_position_info position = r.
Proof.
  intros Hin%dict_get_In.
  assert (Hall : Forall (fun kv => GenerateRestorationSql.parse_position_info (fst kv)
                                   = snd kv) position_mapping)
    by (repeat constructor).
  rewrite List.Forall_forall in Hall. exact (Hall _ Hin).
Qed.

Lemma position_mapping_agrees_witness :
  GenerateRestorationSql.parse_position_info "RC7" = ("receiver", 7).
Proof. apply (position_mapping_agrees "RC7"). reflexivity. Defined.

End Restoration.

(** ** More on fumble attribution (import_player_stats.py) *)

Section FumbleFlags.
Import ImportPlayerStats Examples.

Lemma lost_is_one (c : cell Z) : cell_eqb Z.eqb c (Val 1) = true -> cell_int c = Ok 1.
Proof. destruct c as [| |z]; simpl; try done. by intros ->%Z.eqb_eq. Qed.

Lemma zero_if_flag b : Ok (zero_if b) = Ok 0 \/ Ok (zero_if b) = @Ok Z 1.
Proof. destruct b; simpl; auto. Qed.

(** X10. When the recovery the fumbler is judged by is recorded (the
    first for fumbler 1, the second for any other fumbler number), the
    attribution never raises and is 0 or 1, whatever fumble_lost holds. *)
Theorem attribution_is_flag_with_recovery
    (p : play) (player_id team : cell string) (fumbler_number : Z) :
  notna (if (fumbler_number =? 1)%Z then fumble_recovery_1_team p
         else fumble_recovery_2_team p) = true ->
  calculate_fumble_lost_attribution p player_id team fumbler_number = Ok 0
  \/ calculate_fumble_lost_attribution p player_id team fumbler_number = Ok 1.
Proof.
  unfold calculate_fumble_lost_attribution, notna.
  destruct (fumbler_number =? 1)%Z; intros Hrec%negb_true_iff; rewrite Hrec.
  - destruct (cell_eqb Z.eqb (fumble_lost p) (Val 1)) eqn:Hlost.
    + rewrite (lost_is_one _ Hlost).
      repeat match goal with
             | |- context [if ?b then _ else _] => destruct b
             end; auto using zero_if_flag.
    + rewrite !andb_false_r.
      repeat match goal with
             | |- context [if ?b then _ else _] => destruct b
             end; auto using zero_if_flag.
  - cbn [andb]. destruct (cell_eqb Z.eqb (fumble_lost p) (Val 1)) eqn:Hlost.
    + rewrite (lost_is_one _ Hlost).
      repeat match goal with
             | |- context [if ?b then _ else _] => destruct b
             end; auto using zero_if_flag.
    + rewrite !andb_false_r. apply zero_if_flag.
Qed.

Lemma attribution_is_flag_with_recovery_witness :
  calculate_fumble_lost_attribution standard_play (Val "00-0034857") (Val "BUF") 1 = Ok 0
  \/ calculate_fumble_lost_attribution standard_play (Val "00-0034857") (Val "BUF") 1 = Ok 1.
Proof.
  apply (attribution_is_flag_with_recovery standard_play (Val "00-0034857") (Val "BUF") 1).
  reflexivity.
Defined.

(** X11. In the same-player double fumble case (first fumbler, a first
    recovery recorded, no second fumbler, a description with 'fumbles'
    and 'recovers') a second recovery team that is the float nan counts
    as a recovery by nobody: the fumble is charged as lost, whichever team
    made the first recovery; when it is None the first recovery decides. *)
Theorem double_fumble_missing_second_recovery
    (p : play) (player_id team : cell string) :
  notna (fumble_recovery_1_team p) = true ->
  isna (fumbled_2_player_id p) = true ->
  contains "fumbles" (lower (cell_str (desc p))) = true ->
  contains "recovers" (lower (cell_str (desc p))) = true ->
  (fumble_recovery_2_team p = NaN ->
   calculate_fumble_lost_attribution p player_id team 1 = Ok 1)
  /\ (fumble_recovery_2_team p = NoneVal ->
      calculate_fumble_lost_attribution p player_id team 1
      = Ok (if same (fumble_recovery_1_team p) team then 0 else 1)).
Proof.
  intros Hr1%negb_true_iff Hf2 Hfum Hrec.
  unfold calculate_fumble_lost_attribution, notna.
  rewrite Hr1, Hf2, Hfum, Hrec. cbn [negb andb orb]. rewrite !andb_false_r.
  cbn [Z.eqb Pos.eqb]. split; intros ->; reflexivity.
Qed.

Lemma double_fumble_missing_second_recovery_witness :
  calculate_fumble_lost_attribution own_recovery (Val "00-0034857") (Val "BUF") 1 = Ok 1.
Proof.
  apply (double_fumble_missing_second_recovery own_recovery (Val "00-0034857") (Val "BUF"));
    reflexivity.
Defined.

End FumbleFlags.

(** ** The two loaders of a lineup file *)

Section Loaders.
Import Csv GenerateRestorationSql Spec Examples.

Lemma slot_count_grows t w p l1 l2 x :
  In x l2 -> in_slot t w p x = true ->
  slot_count t w p l1 < slot_count t w p (l1 ++ l2).
Proof.
  intros Hin Hx. rewrite slot_count_app.
  assert (Hf : In x (List.filter (in_slot t w p) l2)) by (by apply filter_In).
  unfold slot_count at 3. destruct (List.filter _ l2); [done|]. simpl length. lia.
Qed.

(** X12. Along the list load_csv_with_sort_order returns, the sort orders
    of the simple-label entries of one team, week and position type grow
    strictly: no two of them share a sort order. *)
Theorem simple_sort_orders_increase
    (rows : list lineup_row) (lineups : list lineup) (i j : nat) (li lj : lineup) :
  load_csv_with_sort_order rows = Ok lineups ->
  lineups !! i = Some li -> lineups !! j = Some lj -> (i < j)%nat ->
  is_simple (position_label li) = true -> is_simple (position_label lj) = true ->
  team_id li = team_id lj -> week li = week lj -> position_type li = position_type lj ->
  sort_order li < sort_order lj.
Proof.
  unfold load_csv_with_sort_order.
  destruct (load_rows rows ([], ∅)) as [st|] eqn:Hload; simpl; [|done].
  intros [= <-] Hi Hj Hlt Hsi Hsj Ht Hw Hp.
  destruct (load_rows_invariant rows _ _ Hload load_invariant_init) as (_ & I2 & _).
  rewrite (I2 i li Hi Hsi), (I2 j lj Hj Hsj), Ht, Hw, Hp.
  assert (Hsplit : take (S j) (fst st)
                   = (take (S i) (fst st) ++ drop (S i) (take (S j) (fst st)))%list).
  { rewrite <- (take_drop (S i) (take (S j) (fst st))) at 1.
    rewrite take_take. f_equal. f_equal. lia. }
  rewrite Hsplit. apply (slot_count_grows _ _ _ _ _ lj).
  - apply list_elem_of_In, list_elem_of_lookup. exists (j - S i)%nat.
    rewrite lookup_drop, lookup_take_lt by lia.
    replace (S i + (j - S i))%nat with j by lia. done.
  - unfold in_slot. by rewrite Hsj, !Z.eqb_refl, String.eqb_refl.
Qed.

Lemma simple_sort_orders_increase_witness :
  sort_order (loaded "QB" "Patrick Mahomes (KC)" "3139477" "quarterback" 1)
  < sort_order hurts.
Proof.
  apply (simple_sort_orders_increase week2_rows week2_lineups 0 2);
    first [ lia | vm_compute; reflexivity ].
Defined.



End Loaders.

(** ** From the lineup file to the keepers (calculate_true_keepers.py) *)

Section Week1.
Import Csv CalculateTrueKeepers Spec Examples.

Context (espn_mapping : gmap string player_info).





End Week1.


(** ** What the proposals are made of (find_missing_keepers.py) *)

Section Proposals.
Import FindMissingKeepers Spec.

Context (current_keepers : gmap Z (list keeper)) (drafted_players : gset Z)
        (week1_lineups : gmap Z (list player)).

Lemma proposal_members team_id expected proposed :
  proposal current_keepers drafted_players week1_lineups team_id expected = Some proposed ->
  proposed <> []
  /\ forall p, In p proposed ->
       In p (getlist week1_lineups team_id)
       /\ (player_id p ∉ drafted_players)
       /\ forall k, In k (getlist current_keepers team_id) -> kp_player_id k <> player_id p.
Proof.
  unfold proposal.
  destruct (Z.ltb_spec 0 (expected - Z.of_nat (length (getlist current_keepers team_id))))
    as [Hpos|]; [|done].
  destruct (potential_missing _ _ _) as [|c cs] eqn:Hpot; [done|].
  intros [= <-]. split.
  - destruct (Z.to_nat _) eqn:Hn; [lia|done].
  - intros p Hp.
    assert (Hin : In p (potential_missing (getlist current_keepers team_id) drafted_players
                          (getlist week1_lineups team_id))).
    { rewrite Hpot. apply list_elem_of_In. eapply subseteq_take.
      apply list_elem_of_In. exact Hp. }
    unfold potential_missing in Hin. apply filter_In in Hin as [Hw1 Hcond].
    apply andb_true_iff in Hcond as [Hcur%bool_decide_eq_true Hdr%bool_decide_eq_true].
    split_and!; [done|done|].
    intros k Hk Heq. apply Hcur. rewrite elem_of_list_to_set, list_elem_of_In.
    apply in_map_iff. by exists k.
Qed.

(** X15. The analysis returns, and what it records is sound: every
    recorded team is one of the ten, its list is not empty, and each
    proposed player is on the team's Week-1 list, was not drafted and is
    not among the team's current keepers. *)
Theorem proposals_are_sound :
  exists total_missing missing_by_team,
    find_missing current_keepers drafted_players week1_lineups
    = Ok (total_missing, missing_by_team)
    /\ forall team_id proposed,
         In (team_id, proposed) missing_by_team ->
         In team_id team_range /\ proposed <> []
         /\ forall p, In p proposed ->
              In p (getlist week1_lineups team_id)
              /\ (player_id p ∉ drafted_players)
              /\ forall k, In k (getlist current_keepers team_id) ->
                           kp_player_id k <> player_id p.
Proof.
  unfold find_missing.
  rewrite (analyse_teams_spec _ _ _ _ _ _ team_range_expected).
  eexists _, _. split; [reflexivity|].
  intros team_id proposed Hin. rewrite app_nil_l in Hin.
  apply list_elem_of_In, list_elem_of_omap in Hin as (t & Ht & Hentry).
  unfold entry_of in Hentry.
  destruct (expected_count EXPECTED_COUNTS t) as [expected|]; [|done].
  destruct (proposal _ _ _ t expected) as [ps|] eqn:Hprop; [|done].
  injection Hentry as <- <-.
  destruct (proposal_members _ _ _ Hprop) as [Hne Hmem].
  split; [by apply list_elem_of_In|]. split; done.
Qed.

End Proposals.

(** ** The count import_keepers reports (import_keepers_from_csv.py) *)

Section VerifyTotal.
Import Db Csv ImportKeepersFromCsv Spec Examples.

Lemma total_from (groups : list (Z * string * Z)) (a : Z) :
  fold_left (fun total r => total + snd r) groups a
  = a + fold_left (fun total r => total + snd r) groups 0.
Proof.
  revert a. induction groups as [|g gs IH]; intros a; simpl; [lia|].
  rewrite (IH (a + snd g)), (IH (0 + snd g)). lia.
Qed.

Lemma total_count_group key groups :
  fold_left (fun total r => total + snd r) (count_group key groups) 0
  = fold_left (fun total r => total + snd r) groups 0 + 1.
Proof.
  induction groups as [|[key' n] gs IH]; simpl; [done|].
  destruct (bool_decide (key' = key)); simpl.
  - rewrite (total_from gs (0 + (n + 1))), (total_from gs (0 + n)). lia.
  - rewrite (total_from (count_group key gs) (0 + n)), (total_from gs (0 + n)), IH. lia.
Qed.

Lemma total_join_teams hk fts groups :
  fold_left (fun total r => total + snd r)
    (fold_left (fun groups ft =>
                  if (ft_team_id ft =? hk_fantasy_team_id hk)%Z
                  then count_group (hk_fantasy_team_id hk, ft_team_name ft) groups
                  else groups) fts groups) 0
  = fold_left (fun total r => total + snd r) groups 0
    + Z.of_nat (length (List.filter
                          (fun ft => (ft_team_id ft =? hk_fantasy_team_id hk)%Z) fts)).
Proof.
  revert groups. induction fts as [|ft fts IH]; intros groups; simpl; [lia|].
  rewrite IH. destruct (ft_team_id ft =? hk_fantasy_team_id hk)%Z; simpl.
  - rewrite total_count_group. lia.
  - done.
Qed.

Lemma total_keepers_per_team season db rows groups :
  fold_left (fun total r => total + snd r)
    (fold_left
       (fun groups hk =>
          if (hk_season_year hk =? season)%Z then
            fold_left (fun groups ft =>
                         if (ft_team_id ft =? hk_fantasy_team_id hk)%Z
                         then count_group (hk_fantasy_team_id hk, ft_team_name ft) groups
                         else groups) (fantasy_teams db) groups
          else groups) rows groups) 0
  = fold_left (fun total r => total + snd r) groups 0
    + Z.of_nat (length (flat_map (teams_of db)
                          (List.filter (fun hk => (hk_season_year hk =? season)%Z) rows))).
Proof.
  revert groups. induction rows as [|hk rows IH]; intros groups; simpl; [lia|].
  rewrite IH. destruct (hk_season_year hk =? season)%Z; simpl; [|done].
  rewrite total_join_teams, length_app. unfold teams_of. lia.
Qed.

Lemma season_rows_after_import old keepers :
  Forall (fun r => hk_season_year r = SEASON) keepers ->
  List.filter (fun hk => (hk_season_year hk =? SEASON)%Z) (other_seasons old ++ keepers)
  = keepers.
Proof.
  intros Hall. rewrite List.filter_app.
  replace (List.filter _ (other_seasons old)) with (@nil historical_keeper).
  - simpl. induction Hall as [|k ks Hk _ IH]; simpl; [done|].
    by rewrite Hk, Z.eqb_refl, IH.
  - unfold other_seasons. induction old as [|r old IH]; simpl; [done|].
    destruct (hk_season_year r =? SEASON)%Z eqn:Hr; simpl; [done|]. by rewrite Hr.
Qed.

(** X16. The total import_keepers returns counts the imported keepers
    joined to their fantasy team: when the CSV is read without error it is
    the number of pairs of a keeper and a fantasy_teams row of his team,
    so it is the number of CSV records as soon as every record's team is in
    fantasy_teams once, and a record of an unknown team is not counted. *)
Theorem import_keepers_total (csv : list keeper_row) (db : database)
    (keepers : list historical_keeper) :
  read_keepers csv [] = Ok keepers ->
  fst (import_keepers csv (connect db))
  = Ok (Z.of_nat (length (flat_map (teams_of db) keepers)))
  /\ (Forall (fun k => length (teams_of db k) = 1%nat) keepers ->
      fst (import_keepers csv (connect db)) = Ok (Z.of_nat (length csv))).
Proof.
  intros Hread. destruct (read_keepers_season _ _ Hread) as [Hall Hlen].
  assert (Htotal : fst (import_keepers csv (connect db))
                   = Ok (Z.of_nat (length (flat_map (teams_of db) keepers)))).
  { unfold import_keepers, mbind, execute, lift, commit, query, ret, connect. simpl.
    rewrite Hread. simpl. rewrite executemany_spec. simpl. f_equal.
    unfold keepers_per_team. simpl.
    rewrite (total_keepers_per_team SEASON
               (set_keepers (delete_season SEASON db)
                  (List.filter (fun r => negb (hk_season_year r =? SEASON)%Z)
                               (historical_keepers db) ++ keepers))).
    simpl. fold (other_seasons (historical_keepers db)).
    rewrite (season_rows_after_import _ _ Hall). done. }
  split; [done|]. intros Hone. rewrite Htotal. f_equal. f_equal.
  rewrite <- Hlen. clear -Hone.
  induction Hone as [|k ks Hk _ IH]; simpl; [done|].
  rewrite length_app, Hk, IH. done.
Qed.

Lemma import_keepers_total_witness :
  fst (import_keepers keepers_csv (connect sample_db)) = Ok 2.
Proof.
  destruct (import_keepers_total keepers_csv sample_db
              [ {| hk_season_year := 2025; hk_fantasy_team_id := 3; hk_player_id := 451;
                   hk_espn_id := Some 3139477; hk_designation_date := KEEPER_DATE |};
                {| hk_season_year := 2025; hk_fantasy_team_id := 3; hk_player_id := 452;
                   hk_espn_id := None; hk_designation_date := KEEPER_DATE |} ]
              eq_refl) as [H _].
  exact H.
Defined.

End VerifyTotal.

(** ** Grouping the lines of the lineup file (import_lineups_to_positions.py) *)

Section Grouping.
Import Db Csv ImportLineupsToPositions Spec Examples.

Lemma skipped_count_skip reason g : skipped_count (skip reason g) = skipped_count g + 1.
Proof.
  unfold skipped_count, skip. simpl.
  assert (Hcomm : forall (m : gmap string Z) (j1 j2 : string) (z1 z2 y : Z),
             j1 <> j2 -> m !! j1 = Some z1 -> m !! j2 = Some z2 ->
             z1 + (z2 + y) = z2 + (z1 + y)) by (intros; lia).
  destruct (skipped g !! reason) as [n|] eqn:Hn; simpl.
  - rewrite <- (insert_delete_id (skipped g) reason n Hn) at 2.
    rewrite <- (insert_delete_eq (skipped g)).
    rewrite !map_fold_insert_L; try apply lookup_delete_eq; try (by eauto); lia.
  - rewrite map_fold_insert_L; [lia|by eauto|done].
Qed.

Lemma append_to_count key p groups :
  length (flat_map snd (append_to key p groups)) = S (length (flat_map snd groups)).
Proof.
  induction groups as [|[k ps] rest IH]; simpl; [done|].
  destruct (bool_decide (k = key)); simpl.
  - rewrite !length_app. simpl. lia.
  - rewrite !length_app, IH. lia.
Qed.

Lemma append_to_keys key p groups :
  NoDup (map fst groups) -> NoDup (map fst (append_to key p groups)).
Proof.
  intros Hnd.
  induction groups as [|[k ps] rest IH]; simpl.
  - apply NoDup_singleton.
  - apply NoDup_cons in Hnd as [Hk Hnd]. destruct (bool_decide_reflect (k = key)); simpl.
    + by apply NoDup_cons.
    + apply NoDup_cons. split; [|by apply IH].
      intros Hin. apply Hk. clear -Hin n.
      induction rest as [|[k' ps'] rest IH]; simpl in *.
      * apply list_elem_of_singleton in Hin. done.
      * destruct (bool_decide (k' = key)); simpl in *; [done|].
        apply elem_of_cons in Hin as [->|Hin]; [by left|right; by apply IH].
Qed.

Lemma group_row_counts player_mappings teams_by_code row g g' :
  group_row player_mappings teams_by_code row g = Ok g' ->
  grouped_count g' + skipped_count g' = grouped_count g + skipped_count g + 1
  /\ (NoDup (map fst (lineups_by_submission g))
      -> NoDup (map fst (lineups_by_submission g'))).
Proof.
  unfold group_row.
  destruct (Py.int (Week row)) as [week|]; cbn [bind]; [|done].
  destruct (Py.int (Team_ID row)) as [team_id|]; cbn [bind]; [|done].
  destruct (parse_position_code _) as [[[ptype so]|]|]; cbn [bind]; [| |done].
  - assert (Hgrouped : forall p,
      let g1 := {| lineups_by_submission :=
                     append_to (team_id, week, lower (strip (Game_Type row))) p
                               (lineups_by_submission g);
                   skipped := skipped g |} in
      grouped_count g1 + skipped_count g1 = grouped_count g + skipped_count g + 1
      /\ (NoDup (map fst (lineups_by_submission g))
          -> NoDup (map fst (lineups_by_submission g1)))).
    { intros p g1. split.
      - unfold grouped_count, skipped_count. simpl. rewrite append_to_count. lia.
      - apply append_to_keys. }
    assert (Hskipped : forall reason,
      grouped_count (skip reason g) + skipped_count (skip reason g)
      = grouped_count g + skipped_count g + 1
      /\ (NoDup (map fst (lineups_by_submission g))
          -> NoDup (map fst (lineups_by_submission (skip reason g))))).
    { intros reason. rewrite skipped_count_skip. split; [|done].
      unfold grouped_count. simpl. lia. }
    destruct (if truthy _ then _ else _) as [[|n|n]|];
      try (intros [= <-]; apply Hgrouped);
      (destruct (negb (truthy _)); [intros [= <-]; apply Hskipped|];
       destruct (player_mappings !! _);
       intros [= <-]; [apply Hgrouped|apply Hskipped]).
  - intros [= <-]. rewrite skipped_count_skip. split; [|done].
    unfold grouped_count. simpl. lia.
Qed.

(** X17. The grouping loop loses no line: when it returns, the number of
    entries in the groups and the skip counts add up to the number of
    lines read, and each team, week and game type has one group. *)
Theorem group_rows_conserves_lines
    (player_mappings : gmap string nfl_player) (teams_by_code : gmap string Z)
    (rows : list lineup_row) (g : grouping) :
  group_rows player_mappings teams_by_code rows
             {| lineups_by_submission := []; skipped := ∅ |} = Ok g ->
  grouped_count g + skipped_count g = Z.of_nat (length rows)
  /\ NoDup (map fst (lineups_by_submission g)).
Proof.
  assert (Hgen : forall rows g0 g,
    group_rows player_mappings teams_by_code rows g0 = Ok g ->
    grouped_count g + skipped_count g
    = grouped_count g0 + skipped_count g0 + Z.of_nat (length rows)
    /\ (NoDup (map fst (lineups_by_submission g0))
        -> NoDup (map fst (lineups_by_submission g)))).
  { clear. intros rows. induction rows as [|row rows IH]; intros g0 g; simpl.
    - intros [= <-]. split; [lia|done].
    - destruct (group_row player_mappings teams_by_code row g0) as [g1|] eqn:Hrow;
        cbn [bind]; [|done].
      intros Hrest. destruct (group_row_counts _ _ _ _ _ Hrow) as [Hc1 Hk1].
      destruct (IH g1 g Hrest) as [Hc Hk]. split; [lia|auto]. }
  intros Hrows. destruct (Hgen rows _ g Hrows) as [Hc Hk]. split.
  - rewrite Hc. unfold grouped_count, skipped_count. simpl. rewrite map_fold_empty. lia.
  - apply Hk. simpl. apply NoDup_nil_2.
Qed.

Lemma group_rows_conserves_lines_witness :
  exists g,
    group_rows (load_player_mappings sample_db) {["KC" := 12]} week2_rows
               {| lineups_by_submission := []; skipped := ∅ |} = Ok g
    /\ grouped_count g + skipped_count g = 5.
Proof.
  eexists. split; [vm_compute; reflexivity|].
  refine (proj1 (group_rows_conserves_lines (load_player_mappings sample_db)
                   {["KC" := 12]} week2_rows _ _)).
  vm_compute. reflexivity.
Defined.

End Grouping.

(** ** More on labels and on reading the file *)

Section LabelsMore.
Import Csv GenerateRestorationSql ExportLineupSubmissions Spec Examples.

Lemma take_digits_app ds rest :
  all_digits ds = true -> starts_with_digit rest = false ->
  take_digits (ds +:+ rest) = ds.
Proof.
  intros Hd Hr. induction ds as [|c ds IH].
  - destruct rest as [|c rest]; [done|]. simpl in *. by rewrite Hr.
  - simpl in Hd. apply andb_true_iff in Hd as [Hc Hd].
    change (String c ds +:+ rest) with (String c (ds +:+ rest)).
    cbn [take_digits]. by rewrite Hc, (IH Hd).
Qed.

Lemma re_match_numbered_then prefix n rest :
  0 <= n -> starts_with_digit rest = false ->
  re_match (Numbered prefix) (prefix +:+ str n +:+ rest) = Some [str n].
Proof.
  intros Hn Hr. unfold re_match. rewrite PyFacts.strip_prefix_app.
  rewrite take_digits_app by (try apply PyFacts.all_digits_str; done).
  pose proof (PyFacts.str_nonempty n). destruct (str n); done.
Qed.

(** X18. parse_position_info reads a numbered label by its start: what
    follows the number, when it does not begin with a digit, is ignored. *)
Theorem parse_position_info_ignores_rest
    (position_type code : string) (n : Z) (rest : string) :
  In (position_type, code) position_map -> 0 <= n -> starts_with_digit rest = false ->
  parse_position_info (code +:+ str n +:+ rest) = (position_type, n).
Proof.
  intros Hin H0 Hr.
  pose proof (sort_func_str n H0) as Hs.
  unfold parse_position_info, position_mapping.
  simpl in Hin.
  destruct Hin as [[= <- <-]|[[= <- <-]|[[= <- <-]|[[= <- <-]|[[= <- <-]|[]]]]]];
    match goal with
    | |- context [?p +:+ str n +:+ rest] =>
        pose proof (re_match_numbered_then p n rest H0 Hr) as Hm
    end;
    revert Hm Hs; generalize (str n +:+ rest); generalize (str n); intros d s Hm Hs;
    cbn in Hm |- *; rewrite Hm, Hs; reflexivity.
Qed.

Lemma parse_position_info_ignores_rest_witness :
  parse_position_info ("RB" +:+ str 2 +:+ " (flex)") = ("running_back", 2).
Proof.
  apply (parse_position_info_ignores_rest "running_back" "RB" 2 " (flex)");
    [simpl; tauto | lia | reflexivity].
Defined.

(** X19. Labels are unambiguous: two known position types with any two
    integer sort orders get the same label only when the types and the
    sort orders are the same. *)
Theorem format_position_label_injective (type1 type2 : string) (n1 n2 : Z) :
  In type1 (map fst position_map) -> In type2 (map fst position_map) ->
  format_position_label type1 n1 = format_position_label type2 n2 ->
  type1 = type2 /\ n1 = n2.
Proof.
  intros H1 H2 Heq.
  apply in_map_iff in H1 as ([t1 c1] & <- & H1).
  apply in_map_iff in H2 as ([t2 c2] & <- & H2). simpl in *.
  unfold format_position_label in Heq.
  rewrite (position_map_get _ _ H1), (position_map_get _ _ H2) in Heq.
  pose proof (parse_position_code_numbered t1 c1 n1 H1) as P1.
  pose proof (parse_position_code_numbered t2 c2 n2 H2) as P2.
  rewrite Heq, P2 in P1. by injection P1 as -> ->.
Qed.

Lemma format_position_label_injective_witness :
  "receiver" = "receiver" /\ 3 = 3.
Proof.
  apply (format_position_label_injective "receiver" "receiver" 3 3);
    [simpl; tauto | simpl; tauto | reflexivity].
Defined.



End LabelsMore.

(** ** Player mappings and created submissions (import_lineups_to_positions.py) *)

Section Mappings.
Import Db ImportLineupsToPositions Examples.

Lemma load_player_mappings_from (players : list nfl_player)
    (mappings : gmap string nfl_player) (espn_id : string) :
  fold_left (fun mappings p =>
               match np_espn_id p with
               | Some e => <[e := p]> mappings
               | None => mappings
               end) players mappings !! espn_id
  = match last (List.filter (fun p => bool_decide (np_espn_id p = Some espn_id)) players) with
    | Some p => Some p
    | None => mappings !! espn_id
    end.
Proof.
  revert mappings. induction players as [|p ps IH]; intros mappings; simpl; [done|].
  rewrite IH. destruct (np_espn_id p) as [e|] eqn:He.
  - destruct (decide (e = espn_id)) as [->|Hne].
    + rewrite bool_decide_eq_true_2 by done.
      destruct (List.filter _ ps) as [|q qs] eqn:Hf.
      * simpl. by rewrite lookup_insert_eq.
      * rewrite !last_cons. by destruct (last qs).
    + rewrite bool_decide_eq_false_2 by congruence.
      destruct (last _); [done|]. by rewrite lookup_insert_ne.
  - rewrite bool_decide_eq_false_2 by done. done.
Qed.

(** X21. load_player_mappings maps an ESPN ID to the last nfl_players
    row that has it (a later row replaces an earlier one) and to nothing
    when no row has it. *)
Theorem player_mapping_is_last_row (d : database) (espn_id : string) :
  load_player_mappings d !! espn_id
  = last (List.filter (fun p => bool_decide (np_espn_id p = Some espn_id))
                      (nfl_players d)).
Proof.
  unfold load_player_mappings.
  rewrite load_player_mappings_from, lookup_empty. by destruct (last _).
Qed.

Lemma next_id_above ids x : In x ids -> x < next_id ids.
Proof.
  unfold next_id. induction ids as [|y ids IH]; simpl; [done|].
  intros [->|Hin]; [lia|]. specialize (IH Hin). lia.
Qed.

(** X22. The lineup_id get_or_create_lineup_submission returns is the key
    of a lineup_submissions row for the team, week, game type and season
    asked for; the table is as before, or has that one row more, under a
    key greater than every key it had. *)
Theorem get_or_create_returns_a_submission
    (st : state) (team_id week : Z) (game_type : string) (season_year lineup_id : Z) :
  fst (get_or_create_lineup_submission st team_id week game_type season_year)
  = Some lineup_id ->
  let st' := snd (get_or_create_lineup_submission st team_id week game_type season_year) in
  exists row,
    In row (lineup_submissions (db st'))
    /\ ls_lineup_id row = lineup_id /\ ls_fantasy_team_id row = team_id
    /\ ls_week_number row = week /\ ls_game_type row = game_type
    /\ ls_season_year row = season_year
    /\ (lineup_submissions (db st') = lineup_submissions (db st)
        \/ lineup_submissions (db st') = (lineup_submissions (db st) ++ [row])%list
           /\ forall r, In r (lineup_submissions (db st)) -> ls_lineup_id r < lineup_id).
Proof.
  unfold get_or_create_lineup_submission.
  assert (Hcore : forall st0 : state, db st0 = db st ->
    let r :=
      match head (select_submission (db st0) team_id week game_type season_year) with
      | Some result => (Some (ls_lineup_id result), st0)
      | None =>
          let lastrowid := next_id (map ls_lineup_id (lineup_submissions (db st0))) in
          (Some lastrowid,
           {| db := set_submissions (db st0)
                      (lineup_submissions (db st0)
                       ++ [ {| ls_lineup_id := lastrowid;
                               ls_fantasy_team_id := team_id;
                               ls_week_number := week;
                               ls_game_type := game_type;
                               ls_season_year := season_year |} ])%list;
              weeks_with_bonus_games := weeks_with_bonus_games st0 |})
      end in
    fst r = Some lineup_id ->
    exists row,
      In row (lineup_submissions (db (snd r)))
      /\ ls_lineup_id row = lineup_id /\ ls_fantasy_team_id row = team_id
      /\ ls_week_number row = week /\ ls_game_type row = game_type
      /\ ls_season_year row = season_year
      /\ (lineup_submissions (db (snd r)) = lineup_submissions (db st)
          \/ lineup_submissions (db (snd r)) = (lineup_submissions (db st) ++ [row])%list
             /\ forall r0, In r0 (lineup_submissions (db st)) -> ls_lineup_id r0 < lineup_id)).
  { intros st0 Hdb. cbv zeta. unfold select_submission. rewrite Hdb.
    destruct (head (List.filter _ (lineup_submissions (db st)))) as [row|] eqn:Hh.
    - simpl. intros [= <-]. exists row.
      assert (Hin : In row (List.filter
                (fun s => (ls_fantasy_team_id s =? team_id)%Z && (ls_week_number s =? week)%Z
                          && String.eqb (ls_game_type s) game_type
                          && (ls_season_year s =? season_year)%Z)
                (lineup_submissions (db st)))).
      { destruct (List.filter _ _); [done|]. injection Hh as ->. by left. }
      apply filter_In in Hin as [Hin Hm].
      apply andb_true_iff in Hm as [Hm Hseason].
      apply andb_true_iff in Hm as [Hm Hgame].
      apply andb_true_iff in Hm as [Hteam Hweek].
      apply Z.eqb_eq in Hseason, Hteam, Hweek. apply String.eqb_eq in Hgame.
      rewrite Hdb. split_and!; try done. by left.
    - simpl. intros [= <-].
      exists {| ls_lineup_id := next_id (map ls_lineup_id (lineup_submissions (db st)));
                ls_fantasy_team_id := team_id;
                ls_week_number := week;
                ls_game_type := game_type;
                ls_season_year := season_year |}.
      split; [apply in_app_iff; right; by left|].
      do 5 (split; [reflexivity|]).
      right. split; [reflexivity|]. intros r0 Hr0.
      apply next_id_above. by apply in_map. }
  destruct (String.eqb game_type "bonus").
  - pose proof (check_week_cached st week season_year) as Hchk.
    destruct (check_week_has_bonus_games st week season_year) as [has_bonus stc].
    destruct Hchk as [_ Hdb]. destruct (negb has_bonus); [done|].
    apply (Hcore stc Hdb).
  - apply (Hcore st eq_refl).
Qed.

Lemma get_or_create_returns_a_submission_witness :
  exists row,
    In row (lineup_submissions
              (db (snd (get_or_create_lineup_submission fresh_state 3 4 "bonus" 2025))))
    /\ ls_lineup_id row = 72 /\ ls_fantasy_team_id row = 3.
Proof.
  destruct (get_or_create_returns_a_submission fresh_state 3 4 "bonus" 2025 72 eq_refl)
    as (row & Hin & Hid & Hteam & _).
  exists row. split; [exact Hin|]. split; [exact Hid|exact Hteam].
Defined.

End Mappings.
